(** * The notification queue of [packages/queue]: a shallow embedding

    The job creators, the template renderers, the SMS providers, the provider
    factory, the worker's job processor and the default queue and worker
    options are translated function by function from the TypeScript sources.
    JavaScript strings are sequences of UTF-16 code units, JavaScript numbers
    that the code uses as integers (priorities, status codes, minutes,
    milliseconds) are [Z], and everything that touches the outside
    ([process.env], [Date.now], [crypto.randomUUID], [console], [fetch], the
    queue) is a computation over an explicit [World]. The queue itself is
    the BullMQ library's: its [add], its retry bookkeeping and its worker
    loop are not among the sources and are modelled from the
    specification. *)

From Stdlib Require Import ZArith NArith List Bool Ascii String DecimalString Lia.
From stdpp Require Import base strings gmap list.

Import ListNotations.
Local Open Scope Z_scope.

(** ** JavaScript strings *)

Module Js.

(** A string is its list of UTF-16 code units; [length] and [startsWith]
    of the source count and compare code units. *)
Definition str : Type := list N.

(** A literal of the source (all of them are ASCII). *)
Definition lit (s : string) : str :=
  List.map N_of_ascii (list_ascii_of_string s).

Definition str_eqb (a b : str) : bool :=
  bool_decide (a = b).

(** [s.startsWith(p)] *)
Fixpoint startsWith (s p : str) {struct p} : bool :=
  match p, s with
  | [], _ => true
  | _ :: _, [] => false
  | c :: p', d :: s' => N.eqb c d && startsWith s' p'
  end.

(** [s.substring(1)] *)
Definition substring1 (s : str) : str := List.tl s.

(** [s.substring(n)] for a non-negative integer [n] *)
Definition substring (n : nat) (s : str) : str := List.skipn n s.

(** The class [\s] of a regular expression: the white space and line
    terminator code points of ECMAScript. *)
Definition is_whitespace (c : N) : bool :=
  ((9 <=? c) && (c <=? 13))%N
  || N.eqb c 32 || N.eqb c 160 || N.eqb c 5760
  || ((8192 <=? c) && (c <=? 8202))%N
  || N.eqb c 8232 || N.eqb c 8233 || N.eqb c 8239
  || N.eqb c 8287 || N.eqb c 12288 || N.eqb c 65279.

(** [s.toLowerCase()] on the letters A to Z. Code units outside that range
    are left as they are: the full Unicode lowering also changes letters
    outside ASCII (the Kelvin sign U+212A becomes k, so the engine lowers a
    value that ends in it to "mock" where this function does not), but it
    sends none of them to a letter of "salum", and on ASCII input the two
    agree. *)
Definition lower_unit (c : N) : N :=
  if ((65 <=? c) && (c <=? 90))%N then (c + 32)%N else c.

Definition toLowerCase (s : str) : str := List.map lower_unit s.

(** [String(n)] and the interpolation of a number in a template literal,
    for an integer [n]: plain decimal digits, a minus sign when negative.
    The engine's numbers are doubles: it agrees with this on the integers
    it represents exactly (all up to 2^53 in absolute value) and below
    10^21, from where it switches to exponent notation. *)
Definition of_number (n : Z) : str :=
  lit (NilZero.string_of_int (Z.to_int n)).

(** The interpolation [`${v}`] of a value that may be [undefined]. *)
Definition of_optional (v : option str) : str :=
  match v with
  | Some s => s
  | None => lit "undefined"
  end.

(** Truthiness of an optional string: [undefined] and [''] are falsy. *)
Definition truthy (v : option str) : bool :=
  match v with
  | Some (_ :: _) => true
  | _ => false
  end.

(** [a || b] where [a] may be [undefined] and [b] is a string. *)
Definition or_str (a : option str) (b : str) : str :=
  match a with
  | Some (c :: s) => c :: s
  | _ => b
  end.

(** [a || b] where both may be [undefined]. *)
Definition or_opt (a b : option str) : option str :=
  if truthy a then a else b.

(** [a || b] on numbers: [undefined] and [0] are falsy. *)
Definition or_num (a : option Z) (b : Z) : Z :=
  match a with
  | Some n => if Z.eqb n 0 then b else n
  | None => b
  end.

(** [hay.includes(needle)] as a proposition. *)
Definition includes (hay needle : str) : Prop :=
  exists pre post, hay = pre ++ needle ++ post.

End Js.

(** [js "text"] is the literal ['text'] of the source. *)
Definition js (s : string) : Js.str := Js.lit s.
Arguments js s%_string_scope : simpl never.

(** ** The Salum provider's phone number normaliser
    [providers/sms/salum.provider.ts], [normalizePhoneNumber]. *)

Module Phone.

(** The character class [[\s\-\(\)]]. *)
Definition is_separator (c : N) : bool :=
  Js.is_whitespace c || N.eqb c 45 || N.eqb c 40 || N.eqb c 41.

(** [phone.replace(/[\s\-\(\)]/g, '')] *)
Definition removeSeparators (phone : Js.str) : Js.str :=
  List.filter (fun c => negb (is_separator c)) phone.

Definition normalizePhoneNumber (phone : Js.str) : Js.str :=
  let cleaned := removeSeparators phone in
  let cleaned :=
    if Js.startsWith cleaned (js "+") then Js.substring1 cleaned else cleaned in
  let cleaned :=
    if Js.startsWith cleaned (js "0") then js "254" ++ Js.substring1 cleaned
    else cleaned in
  let cleaned :=
    if negb (Js.startsWith cleaned (js "254")) && (length cleaned =? 9)%nat
    then js "254" ++ cleaned else cleaned in
  cleaned.

(** "Strip a leading +": one plus sign, when the string starts with one. *)
Definition dropPlus (s : Js.str) : Js.str :=
  match s with
  | c :: r => if (c =? 43)%N then r else s
  | [] => []
  end.

(** The normaliser as the specification words it, one case per shape of
    the number once the separators and one leading plus sign are gone:
    a leading 0 is replaced by the country code, a number that already has
    the country code is kept, a bare number of length 9 gets the country
    code in front, anything else is kept. *)
Definition canonical (phone : Js.str) : Js.str :=
  let d := dropPlus (removeSeparators phone) in
  match d with
  | [] => []
  | c :: r =>
      if (c =? 48)%N then js "254" ++ r
      else if Js.startsWith d (js "254") then d
      else if (length d =? 9)%nat then js "254" ++ d
      else d
  end.

End Phone.

(** ** Job data
    [types/index.ts] *)

#[local] Unset Elimination Schemes.
(** A value of type [unknown] that travels in a job payload. *)
Inductive JsonValue : Type :=
| JNull
| JBool (b : bool)
| JNumber (n : Z)
| JString (s : Js.str)
| JArray (items : list JsonValue)
| JObject (fields : list (Js.str * JsonValue)).
#[local] Set Elimination Schemes.

Inductive SMSJobType : Type := WELCOME | OTP | NOTIFICATION.

Definition SMSJobType_value (t : SMSJobType) : Js.str :=
  match t with
  | WELCOME => js "welcome"
  | OTP => js "otp"
  | NOTIFICATION => js "notification"
  end.

Module BaseJobData.
Record t : Type := make { id : Js.str; timestamp : Z }.
End BaseJobData.

Module SMSRecipient.
Record t : Type := make { phoneNumber : Js.str; name : option Js.str }.
End SMSRecipient.

Module WelcomeSMSData.
Record t : Type := make
  { id : Js.str; timestamp : Z; recipient : SMSRecipient.t; userName : Js.str }.
End WelcomeSMSData.

Module OTPSMSData.
Record t : Type := make
  { id : Js.str; timestamp : Z; recipient : SMSRecipient.t;
    code : Js.str; expiryMinutes : Z }.
End OTPSMSData.

Module NotificationSMSData.
Record t : Type := make
  { id : Js.str; timestamp : Z; recipient : SMSRecipient.t;
    message : Js.str; metadata : option (list (Js.str * JsonValue)) }.
End NotificationSMSData.

(** The discriminated union [SMSJobData]. Its three declared members fix the
    [type] field by their constructor. [Foreign] is a payload that reached
    the queue from a producer of another version: the worker reads its
    [type] through [(job.data as any).type], and none of the fields of the
    declared members is present on it. *)
Inductive SMSJobData : Type :=
| Welcome (data : WelcomeSMSData.t)
| Otp (data : OTPSMSData.t)
| Notification (data : NotificationSMSData.t)
| Foreign (type : Js.str) (base : BaseJobData.t).

Definition SMSJobData_type (data : SMSJobData) : Js.str :=
  match data with
  | Welcome _ => SMSJobType_value WELCOME
  | Otp _ => SMSJobType_value OTP
  | Notification _ => SMSJobType_value NOTIFICATION
  | Foreign type _ => type
  end.

Module TemplateResult.
Record t : Type := make { message : Js.str; recipient : SMSRecipient.t }.
End TemplateResult.

Module JobOptions.
Record t : Type := make
  { priority : option Z; delay : option Z; jobId : option Js.str }.
End JobOptions.

(** [options?.priority], [options?.delay], [options?.jobId] *)
Definition opt_priority (options : option JobOptions.t) : option Z :=
  options ≫= JobOptions.priority.
Definition opt_delay (options : option JobOptions.t) : option Z :=
  options ≫= JobOptions.delay.
Definition opt_jobId (options : option JobOptions.t) : option Js.str :=
  options ≫= JobOptions.jobId.

(** ** The queue library's job record
    What [smsQueue.add(name, data, opts)] stores: the arguments of the call
    under the job's id, and the number of attempts made so far. *)
Module Job.
Record t : Type := make
  { id : Js.str; name : Js.str; data : SMSJobData;
    opts : JobOptions.t; attemptsMade : nat }.
End Job.

(** ** The Salum gateway's wire contract
    [providers/sms/salum.provider.ts], [SalumResponse], and the request body
    that [send] serialises. *)
Module SalumRequest.
Record t : Type := make
  { apikey : Js.str; partnerID : Js.str; message : Js.str;
    shortcode : Js.str; mobile : Js.str }.
End SalumRequest.

Module SalumEntry.
Record t : Type := make
  { respose_code : Z; response_description : Js.str; mobile : Js.str;
    messageid : option Z; networkid : option Js.str }.
End SalumEntry.

Module SalumResponse.
(** [responses] may be missing from the body: the code tests
    [!data.responses] before it reads the list. *)
Record t : Type := make { responses : option (list SalumEntry.t) }.
End SalumResponse.

(** ** Thrown values *)

Inductive ErrorClass : Type :=
| PlainError            (* new Error(...) *)
| TypeError             (* raised by the engine and by fetch *)
| SyntaxError           (* raised by response.json() *)
| UnrecoverableError.   (* the queue library's class for a fatal failure *)

Inductive Thrown : Type :=
| ThrownError (cls : ErrorClass) (message : Js.str)   (* instanceof Error *)
| ThrownValue (v : JsonValue).                         (* anything else *)

(** ** The network as [fetch] shows it *)

Module HttpRequest.
Record t : Type := make
  { url : Js.str; method : Js.str; contentType : Js.str;
    body : SalumRequest.t }.
End HttpRequest.

Inductive JsonOutcome : Type :=
| JsonRejects (t : Thrown)
| JsonResolves (data : SalumResponse.t).

Module Response.
Record t : Type := make { status : Z; json : JsonOutcome }.
(** [response.ok]: the status is in the range 200 to 299. *)
Definition ok (r : t) : bool := (200 <=? status r) && (status r <=? 299).
End Response.

Inductive FetchOutcome : Type :=
| FetchRejects (t : Thrown)
| FetchResolves (r : Response.t).

(** ** The world outside the code and computations over it *)

Module World.
Record t : Type := make
  { env : gmap string Js.str;          (* process.env *)
    clock : Z;                         (* what Date.now() returns *)
    random : nat -> Js.str;            (* the results of crypto.randomUUID()
                                          and Math.random().toString(36) *)
    drawn : nat;                       (* how many of them were drawn *)
    console : list Js.str;             (* lines written, oldest first *)
    network : HttpRequest.t -> FetchOutcome;
    backend_up : bool;                 (* the queue backend is reachable *)
    queue : list Job.t;                (* the jobs of sms-notifications *)
    jobCounter : Z }.                  (* the queue's id counter *)

Definition with_clock (c : Z) (w : t) : t :=
  make (env w) c (random w) (drawn w) (console w) (network w)
       (backend_up w) (queue w) (jobCounter w).
Definition with_drawn (n : nat) (w : t) : t :=
  make (env w) (clock w) (random w) n (console w) (network w)
       (backend_up w) (queue w) (jobCounter w).
Definition with_console (l : list Js.str) (w : t) : t :=
  make (env w) (clock w) (random w) (drawn w) l (network w)
       (backend_up w) (queue w) (jobCounter w).
Definition with_queue (q : list Job.t) (n : Z) (w : t) : t :=
  make (env w) (clock w) (random w) (drawn w) (console w) (network w)
       (backend_up w) q n.
End World.

(** How a call ends: with a value, or with a thrown value. *)
Inductive Completion (A : Type) : Type :=
| Normal (a : A)
| Throw (t : Thrown).
Arguments Normal {A} a.
Arguments Throw {A} t.

(** A (possibly [async]) function body: [await] is sequencing. *)
Definition JS (A : Type) : Type := World.t -> Completion A * World.t.

Definition ret {A} (a : A) : JS A := fun w => (Normal a, w).

Definition throw {A} (t : Thrown) : JS A := fun w => (Throw t, w).

Definition bind {A B} (c : JS A) (k : A -> JS B) : JS B :=
  fun w =>
    match c w with
    | (Normal a, w') => k a w'
    | (Throw t, w') => (Throw t, w')
    end.

(** [try { c } catch (error) { h error }] *)
Definition try_catch {A} (c : JS A) (h : Thrown -> JS A) : JS A :=
  fun w =>
    match c w with
    | (Normal a, w') => (Normal a, w')
    | (Throw t, w') => h t w'
    end.

Declare Scope js_scope.
Delimit Scope js_scope with js.
Notation "x <- c ;; k" := (bind c (fun x => k))
  (at level 100, c at next level, right associativity) : js_scope.
Notation "c ;;; k" := (bind c (fun _ => k))
  (at level 100, right associativity) : js_scope.
Local Open Scope js_scope.

(** [new Error(message)] *)
Definition new_Error (message : Js.str) : Thrown := ThrownError PlainError message.

(** [Date.now()] *)
Definition Date_now : JS Z := fun w => (Normal (World.clock w), w).

(** The next value of the world's random source. *)
Definition draw : JS Js.str :=
  fun w => (Normal (World.random w (World.drawn w)),
            World.with_drawn (S (World.drawn w)) w).

(** [crypto.randomUUID()] *)
Definition crypto_randomUUID : JS Js.str := draw.

(** [console.log(line)], [console.warn(line)], [console.error(line)] *)
Definition console_write (line : Js.str) : JS unit :=
  fun w => (Normal tt, World.with_console (World.console w ++ [line]) w).

(** [await new Promise(resolve => setTimeout(resolve, ms))] *)
Definition sleep (ms : Z) : JS unit :=
  fun w => (Normal tt, World.with_clock (World.clock w + ms) w).

(** [process.env.NAME] *)
Definition process_env (name : string) : JS (option Js.str) :=
  fun w => (Normal (World.env w !! name), w).

(** [await fetch(url, init)] *)
Definition fetch (request : HttpRequest.t) : JS Response.t :=
  fun w =>
    match World.network w request with
    | FetchRejects t => (Throw t, w)
    | FetchResolves r => (Normal r, w)
    end.

(** [await response.json()] *)
Definition Response_json (r : Response.t) : JS SalumResponse.t :=
  match Response.json r with
  | JsonRejects t => throw t
  | JsonResolves data => ret data
  end.

(** ** Default queue and worker options
    [config/queue-options.ts] *)

Inductive BackoffType : Type := fixed | exponential.

Module BackoffOptions.
Record t : Type := make { type : BackoffType; delay : Z }.
End BackoffOptions.

Module KeepJobs.
(** [age] is in seconds. *)
Record t : Type := make { age : option Z; count : option Z }.
End KeepJobs.

Module DefaultJobOptions.
Record t : Type := make
  { attempts : Z; backoff : BackoffOptions.t;
    removeOnComplete : KeepJobs.t; removeOnFail : KeepJobs.t }.
End DefaultJobOptions.

Module QueueOptions.
Record t : Type := make { defaultJobOptions : DefaultJobOptions.t }.
End QueueOptions.

Module RateLimiterOptions.
(** [duration] is in milliseconds. *)
Record t : Type := make { max : Z; duration : Z }.
End RateLimiterOptions.

Module WorkerOptions.
Record t : Type := make { concurrency : Z; limiter : RateLimiterOptions.t }.
End WorkerOptions.

Definition defaultQueueOptions : QueueOptions.t :=
  {| QueueOptions.defaultJobOptions :=
       {| DefaultJobOptions.attempts := 3;
          DefaultJobOptions.backoff :=
            {| BackoffOptions.type := exponential;
               BackoffOptions.delay := 2000 |};
          DefaultJobOptions.removeOnComplete :=
            {| KeepJobs.age := Some (24 * 3600);
               KeepJobs.count := Some 1000 |};
          DefaultJobOptions.removeOnFail :=
            {| KeepJobs.age := Some (7 * 24 * 3600);
               KeepJobs.count := None |} |} |}.

Definition defaultWorkerOptions : WorkerOptions.t :=
  {| WorkerOptions.concurrency := 5;
     WorkerOptions.limiter :=
       {| RateLimiterOptions.max := 10;
          RateLimiterOptions.duration := 1000 |} |}.

(** ** The queue
    [queues/sms.queue.ts] *)

Definition SMS_QUEUE_NAME : Js.str := js "sms-notifications".

Module Queue.
Record t : Type := make { name : Js.str; options : QueueOptions.t }.
End Queue.

(** [new Queue(SMS_QUEUE_NAME, { connection, ...defaultQueueOptions })] *)
Definition smsQueue : Queue.t :=
  {| Queue.name := SMS_QUEUE_NAME; Queue.options := defaultQueueOptions |}.

(** ** The queue library
    [Queue.add] and the attempt bookkeeping belong to the BullMQ package,
    which the repository imports and does not contain. *)

Module BullMQ.

Definition find_job (k : Js.str) (q : list Job.t) : option Job.t :=
  List.find (fun j => Js.str_eqb (Job.id j) k) q.

(** Modelled from the spec: the body of BullMQ's [Queue.add] is missing.
    "Hand it to the queue for durable storage. Fails only if the queue
    backend is unreachable (raises a connectivity error)." "dedupeKey: if a
    pending job with the same key exists, the new enqueue is a no-op", "the
    enqueue is skipped and the existing job's id is returned". A job added
    without a key gets a system-generated id, here the next value of the
    queue's counter. *)
Definition Queue_add (q : Queue.t) (name : Js.str) (data : SMSJobData)
    (opts : JobOptions.t) : JS Job.t :=
  fun w =>
    if negb (World.backend_up w) then
      (Throw (new_Error (js "connect ECONNREFUSED")), w)
    else
      match JobOptions.jobId opts with
      | Some k =>
          match find_job k (World.queue w) with
          | Some existing => (Normal existing, w)
          | None =>
              let job := Job.make k name data opts 0 in
              (Normal job,
               World.with_queue (World.queue w ++ [job]) (World.jobCounter w) w)
          end
      | None =>
          let n := World.jobCounter w + 1 in
          let job := Job.make (Js.of_number n) name data opts 0 in
          (Normal job, World.with_queue (World.queue w ++ [job]) n w)
      end.

(** Modelled from the spec: the library's job states are missing. "Waiting
    -> Active (claimed by exactly one worker) -> {Completed |
    Failed-retry-pending | Failed-terminal}". *)
Inductive JobState : Type :=
| Waiting
| Active
| Completed
| FailedRetryPending (delay : Z)
| FailedTerminal.

(** Modelled from the spec: the library's backoff computation is missing.
    "Backoff between attempts is exponential starting at 2 seconds (2s, 4s,
    8s)": the configured delay after the first failed attempt, doubled
    after each further one. *)
Definition backoff_delay (b : BackoffOptions.t) (attemptsMade : nat) : Z :=
  match BackoffOptions.type b with
  | fixed => BackoffOptions.delay b
  | exponential => BackoffOptions.delay b * 2 ^ (Z.of_nat attemptsMade - 1)
  end.

(** Modelled from the spec: the library's test for a failure that is
    "fatal for that job, not retried" is missing. The library keeps that
    treatment for errors of its own class [UnrecoverableError]. *)
Definition is_unrecoverable (t : Thrown) : bool :=
  match t with
  | ThrownError UnrecoverableError _ => true
  | _ => false
  end.

(** Modelled from the spec: the library's bookkeeping after an attempt is
    missing. "A thrown/propagated error during render or send causes the
    job to be considered failed for this attempt. Retry policy: up to 3
    attempts total per job; backoff between attempts is exponential.
    After exhausting attempts, the job is terminally failed." The
    [attempts] and [backoff] come from the queue's default job options;
    [attemptsMade] counts the attempt that just ended. *)
Definition settle {A} (o : DefaultJobOptions.t) (attemptsMade : nat)
    (outcome : Completion A) : JobState :=
  match outcome with
  | Normal _ => Completed
  | Throw t =>
      if is_unrecoverable t then FailedTerminal
      else if Z.of_nat attemptsMade <? DefaultJobOptions.attempts o
      then FailedRetryPending
             (backoff_delay (DefaultJobOptions.backoff o) attemptsMade)
      else FailedTerminal
  end.

End BullMQ.

(** ** Job creators
    [jobs/sms/welcome.job.ts], [jobs/sms/otp.job.ts],
    [jobs/sms/notification.job.ts] *)

Module CreatedJob.
Record t : Type := make { jobId : Js.str; queueName : Js.str }.
End CreatedJob.

Module CreateWelcomeSMSJobParams.
Record t : Type := make { recipient : SMSRecipient.t; userName : Js.str }.
End CreateWelcomeSMSJobParams.

Module CreateOTPSMSJobParams.
Record t : Type := make
  { recipient : SMSRecipient.t; code : Js.str; expiryMinutes : Z }.
End CreateOTPSMSJobParams.

Module CreateNotificationSMSJobParams.
Record t : Type := make
  { recipient : SMSRecipient.t; message : Js.str;
    metadata : option (list (Js.str * JsonValue)) }.
End CreateNotificationSMSJobParams.

(** [options?.jobId || crypto.randomUUID()]: the random source is read only
    when the left operand is falsy. *)
Definition jobId_or_randomUUID (options : option JobOptions.t) : JS Js.str :=
  match opt_jobId options with
  | Some (c :: s) => ret (c :: s)
  | _ => crypto_randomUUID
  end.

Definition createWelcomeSMSJob (params : CreateWelcomeSMSJobParams.t)
    (options : option JobOptions.t) : JS CreatedJob.t :=
  id <- jobId_or_randomUUID options;;
  timestamp <- Date_now;;
  let jobData :=
    {| WelcomeSMSData.id := id;
       WelcomeSMSData.timestamp := timestamp;
       WelcomeSMSData.recipient := CreateWelcomeSMSJobParams.recipient params;
       WelcomeSMSData.userName := CreateWelcomeSMSJobParams.userName params |} in
  job <- BullMQ.Queue_add smsQueue (js "welcome-sms") (Welcome jobData)
           {| JobOptions.priority := opt_priority options;
              JobOptions.delay := opt_delay options;
              JobOptions.jobId := opt_jobId options |};;
  ret {| CreatedJob.jobId := Job.id job;
         CreatedJob.queueName := Queue.name smsQueue |}.

Definition createOTPSMSJob (params : CreateOTPSMSJobParams.t)
    (options : option JobOptions.t) : JS CreatedJob.t :=
  id <- jobId_or_randomUUID options;;
  timestamp <- Date_now;;
  let jobData :=
    {| OTPSMSData.id := id;
       OTPSMSData.timestamp := timestamp;
       OTPSMSData.recipient := CreateOTPSMSJobParams.recipient params;
       OTPSMSData.code := CreateOTPSMSJobParams.code params;
       OTPSMSData.expiryMinutes := CreateOTPSMSJobParams.expiryMinutes params |} in
  job <- BullMQ.Queue_add smsQueue (js "otp-sms") (Otp jobData)
           {| JobOptions.priority := Some (Js.or_num (opt_priority options) 1);
              JobOptions.delay := opt_delay options;
              JobOptions.jobId := opt_jobId options |};;
  ret {| CreatedJob.jobId := Job.id job;
         CreatedJob.queueName := Queue.name smsQueue |}.

Definition createNotificationSMSJob (params : CreateNotificationSMSJobParams.t)
    (options : option JobOptions.t) : JS CreatedJob.t :=
  id <- jobId_or_randomUUID options;;
  timestamp <- Date_now;;
  let jobData :=
    {| NotificationSMSData.id := id;
       NotificationSMSData.timestamp := timestamp;
       NotificationSMSData.recipient :=
         CreateNotificationSMSJobParams.recipient params;
       NotificationSMSData.message :=
         CreateNotificationSMSJobParams.message params;
       NotificationSMSData.metadata :=
         CreateNotificationSMSJobParams.metadata params |} in
  job <- BullMQ.Queue_add smsQueue (js "notification-sms") (Notification jobData)
           {| JobOptions.priority := opt_priority options;
              JobOptions.delay := opt_delay options;
              JobOptions.jobId := opt_jobId options |};;
  ret {| CreatedJob.jobId := Job.id job;
         CreatedJob.queueName := Queue.name smsQueue |}.

(** A call of the public job-creator interface. *)
Inductive CreatorCall : Type :=
| CallWelcome (params : CreateWelcomeSMSJobParams.t) (options : option JobOptions.t)
| CallOTP (params : CreateOTPSMSJobParams.t) (options : option JobOptions.t)
| CallNotification (params : CreateNotificationSMSJobParams.t)
    (options : option JobOptions.t).

Definition call (c : CreatorCall) : JS CreatedJob.t :=
  match c with
  | CallWelcome params options => createWelcomeSMSJob params options
  | CallOTP params options => createOTPSMSJob params options
  | CallNotification params options => createNotificationSMSJob params options
  end.

Definition call_options (c : CreatorCall) : option JobOptions.t :=
  match c with
  | CallWelcome _ options | CallOTP _ options | CallNotification _ options =>
      options
  end.

(** The world after a sequence of creator calls, whatever each one returned. *)
Fixpoint after_calls (cs : list CreatorCall) (w : World.t) : World.t :=
  match cs with
  | [] => w
  | c :: cs' => after_calls cs' (snd (call c w))
  end.

(** ** Template renderers
    [templates/sms/welcome.ts], [templates/sms/otp.ts],
    [templates/sms/notification.ts] *)

Definition renderWelcomeSMS (data : WelcomeSMSData.t) : TemplateResult.t :=
  let message :=
    js "Welcome to our platform, " ++ WelcomeSMSData.userName data
    ++ js "! We're excited to have you on board. Get started by exploring your dashboard." in
  {| TemplateResult.message := message;
     TemplateResult.recipient := WelcomeSMSData.recipient data |}.

Definition renderOTPSMS (data : OTPSMSData.t) : TemplateResult.t :=
  let message :=
    js "Your verification code is: " ++ OTPSMSData.code data
    ++ js ". This code will expire in "
    ++ Js.of_number (OTPSMSData.expiryMinutes data)
    ++ js " minutes. Do not share this code with anyone." in
  {| TemplateResult.message := message;
     TemplateResult.recipient := OTPSMSData.recipient data |}.

Definition renderNotificationSMS (data : NotificationSMSData.t) : TemplateResult.t :=
  {| TemplateResult.message := NotificationSMSData.message data;
     TemplateResult.recipient := NotificationSMSData.recipient data |}.

(** ** The renderers as functions of the program

    To the engine a renderer is a function like any other of the program: a
    call runs in the world, and a body is free to read the environment, the
    clock or the random source, to write to the console, to reach the
    network or the queue, and to throw. These are the three bodies statement
    by statement, as computations on the world; whether a call depends on
    the world or changes it is then a property to be proved. *)

Module Invoke.

Definition renderWelcomeSMS (data : WelcomeSMSData.t) : JS TemplateResult.t :=
  message <-
    ret (js "Welcome to our platform, " ++ WelcomeSMSData.userName data
         ++ js "! We're excited to have you on board. Get started by exploring your dashboard.");;
  ret {| TemplateResult.message := message;
         TemplateResult.recipient := WelcomeSMSData.recipient data |}.

Definition renderOTPSMS (data : OTPSMSData.t) : JS TemplateResult.t :=
  message <-
    ret (js "Your verification code is: " ++ OTPSMSData.code data
         ++ js ". This code will expire in "
         ++ Js.of_number (OTPSMSData.expiryMinutes data)
         ++ js " minutes. Do not share this code with anyone.");;
  ret {| TemplateResult.message := message;
         TemplateResult.recipient := OTPSMSData.recipient data |}.

Definition renderNotificationSMS (data : NotificationSMSData.t)
    : JS TemplateResult.t :=
  ret {| TemplateResult.message := NotificationSMSData.message data;
         TemplateResult.recipient := NotificationSMSData.recipient data |}.

End Invoke.

(** Two calls of [f] on the same argument, with any computation of the
    program between them. *)
Definition twice {A B} (f : A -> JS B) (a : A) (between : JS unit)
    : JS (B * B) :=
  first <- f a;;
  between;;;
  second <- f a;;
  ret (first, second).

(** ** SMS providers
    [providers/sms/interface.ts], [providers/sms/mock.provider.ts],
    [providers/sms/salum.provider.ts] *)

Module SMSResult.
Record t : Type := make
  { success : bool; messageId : option Js.str; error : option Js.str;
    provider : Js.str }.
End SMSResult.

Class SMSProvider (P : Type) : Type :=
  { send : P -> Js.str -> Js.str -> JS SMSResult.t;
    getName : P -> Js.str }.

Inductive MockSMSProvider : Type := new_MockSMSProvider.

Definition Mock_getName (self : MockSMSProvider) : Js.str := js "mock".

Definition Mock_send (self : MockSMSProvider) (phoneNumber message : Js.str)
    : JS SMSResult.t :=
  console_write (js "[MOCK SMS] Sending to " ++ phoneNumber ++ js ":");;;
  console_write (js "[MOCK SMS] Message: " ++ message);;;
  sleep 100;;;
  now <- Date_now;;
  random36 <- draw;;
  ret {| SMSResult.success := true;
         SMSResult.messageId :=
           Some (js "mock-" ++ Js.of_number now ++ js "-"
                 ++ Js.substring 7 random36);
         SMSResult.error := None;
         SMSResult.provider := Mock_getName self |}.

#[export] Instance Mock_SMSProvider : SMSProvider MockSMSProvider :=
  {| send := Mock_send; getName := Mock_getName |}.

Module SalumConfig.
Record t : Type := make
  { apiKey : Js.str; partnerId : Js.str; shortcode : Js.str; apiUrl : Js.str }.
End SalumConfig.

(** [Partial<SalumConfig>] *)
Module PartialSalumConfig.
Record t : Type := make
  { apiKey : option Js.str; partnerId : option Js.str;
    shortcode : option Js.str; apiUrl : option Js.str }.
End PartialSalumConfig.

Module SalumSMSProvider.

Record t : Type := make { config : SalumConfig.t }.

(** [constructor(config?: Partial<SalumConfig>)] *)
Definition new (config : option PartialSalumConfig.t) : JS t :=
  SALUM_API_KEY <- process_env "SALUM_API_KEY";;
  SALUM_PARTNER_ID <- process_env "SALUM_PARTNER_ID";;
  SALUM_SHORTCODE <- process_env "SALUM_SHORTCODE";;
  let this_config :=
    {| SalumConfig.apiKey :=
         Js.or_str (Js.or_opt (config ≫= PartialSalumConfig.apiKey)
                              SALUM_API_KEY) (js "");
       SalumConfig.partnerId :=
         Js.or_str (Js.or_opt (config ≫= PartialSalumConfig.partnerId)
                              SALUM_PARTNER_ID) (js "");
       SalumConfig.shortcode :=
         Js.or_str (Js.or_opt (config ≫= PartialSalumConfig.shortcode)
                              SALUM_SHORTCODE) (js "BURETI-TEA");
       SalumConfig.apiUrl :=
         Js.or_str (config ≫= PartialSalumConfig.apiUrl)
                   (js "https://sms.salum.co.ke/api/services/sendsms/") |} in
  if negb (Js.truthy (Some (SalumConfig.apiKey this_config)))
     || negb (Js.truthy (Some (SalumConfig.partnerId this_config)))
  then throw (new_Error (js "Salum SMS provider requires apiKey and partnerId"))
  else ret {| config := this_config |}.

Definition getName (self : t) : Js.str := js "salum".

(** The request that [send] hands to [fetch]. *)
Definition request (self : t) (phoneNumber message : Js.str)
    : HttpRequest.t :=
  let normalizedPhone := Phone.normalizePhoneNumber phoneNumber in
  let requestBody :=
    {| SalumRequest.apikey := SalumConfig.apiKey (config self);
       SalumRequest.partnerID := SalumConfig.partnerId (config self);
       SalumRequest.message := message;
       SalumRequest.shortcode := SalumConfig.shortcode (config self);
       SalumRequest.mobile := normalizedPhone |} in
  {| HttpRequest.url := SalumConfig.apiUrl (config self);
     HttpRequest.method := js "POST";
     HttpRequest.contentType := js "application/json";
     HttpRequest.body := requestBody |}.

(** [error instanceof Error ? error.message : 'Unknown error'] *)
Definition error_text (error : Thrown) : Js.str :=
  match error with
  | ThrownError _ message => message
  | ThrownValue _ => js "Unknown error"
  end.

Definition send (self : t) (phoneNumber message : Js.str)
    : JS SMSResult.t :=
  try_catch
    (response <- fetch (request self phoneNumber message);;
     if negb (Response.ok response) then
       throw (new_Error (js "HTTP error! status: "
                         ++ Js.of_number (Response.status response)))
     else
       data <- Response_json response;;
       match SalumResponse.responses data with
       | None | Some [] =>
           ret {| SMSResult.success := false;
                  SMSResult.messageId := None;
                  SMSResult.error := Some (js "No response from Salum API");
                  SMSResult.provider := getName self |}
       | Some (result :: _) =>
           if SalumEntry.respose_code result =? 200 then
             ret {| SMSResult.success := true;
                    SMSResult.messageId :=
                      Js.of_number <$> SalumEntry.messageid result;
                    SMSResult.error := None;
                    SMSResult.provider := getName self |}
           else
             ret {| SMSResult.success := false;
                    SMSResult.messageId := None;
                    SMSResult.error :=
                      Some (Js.or_str
                              (Some (SalumEntry.response_description result))
                              (js "Unknown error"));
                    SMSResult.provider := getName self |}
       end)
    (fun error =>
       ret {| SMSResult.success := false;
              SMSResult.messageId := None;
              SMSResult.error := Some (error_text error);
              SMSResult.provider := getName self |}).

End SalumSMSProvider.

#[export] Instance Salum_SMSProvider : SMSProvider SalumSMSProvider.t :=
  {| send := SalumSMSProvider.send; getName := SalumSMSProvider.getName |}.

(** ** The provider factory
    [providers/sms/factory.ts] *)

(** A value of the interface type [SMSProvider]. *)
Inductive AnyProvider : Type :=
| IsMock (p : MockSMSProvider)
| IsSalum (p : SalumSMSProvider.t).

#[export] Instance Any_SMSProvider : SMSProvider AnyProvider :=
  {| send p := match p with IsMock m => send m | IsSalum s => send s end;
     getName p := match p with IsMock m => getName m | IsSalum s => getName s end |}.

Definition createSMSProvider : JS AnyProvider :=
  SMS_PROVIDER <- process_env "SMS_PROVIDER";;
  let provider := Js.or_str SMS_PROVIDER (js "mock") in
  let selector := Js.toLowerCase provider in
  if Js.str_eqb selector (js "salum") then
    p <- SalumSMSProvider.new None;; ret (IsSalum p)
  else if Js.str_eqb selector (js "mock") then
    ret (IsMock new_MockSMSProvider)
  else
    console_write (js "Unknown SMS provider: " ++ provider
                   ++ js ", falling back to mock");;;
    ret (IsMock new_MockSMSProvider).

(** ** The worker
    [workers/sms.worker.ts] *)

Module ProcessResult.
Record t : Type := make
  { success : bool; jobId : Js.str; messageId : option Js.str;
    provider : Js.str }.
End ProcessResult.

Section Worker.

Context {P : Type} `{SMSProvider P}.

(** [const smsProvider: SMSProvider = createSMSProvider()], evaluated once
    when the module is loaded. *)
Variable smsProvider : P.

(** What reading [templateResult.recipient.phoneNumber] does when the
    payload carries none of the fields of the declared member: the
    renderer returns [recipient: undefined] and the engine raises a
    [TypeError] (the wording is that of the V8 engine). *)
Definition missing_recipient : Thrown :=
  ThrownError TypeError
    (js "Cannot read properties of undefined (reading 'phoneNumber')").

(** The [switch (job.data.type)] of [processSMSJob]. *)
Definition route (data : SMSJobData) : JS TemplateResult.t :=
  let type := SMSJobData_type data in
  if Js.str_eqb type (js "welcome") then
    match data with
    | Welcome d => ret (renderWelcomeSMS d)
    | _ => throw missing_recipient
    end
  else if Js.str_eqb type (js "otp") then
    match data with
    | Otp d => ret (renderOTPSMS d)
    | _ => throw missing_recipient
    end
  else if Js.str_eqb type (js "notification") then
    match data with
    | Notification d => ret (renderNotificationSMS d)
    | _ => throw missing_recipient
    end
  else
    throw (new_Error (js "Unknown SMS job type: " ++ type)).

Definition processSMSJob (job : Job.t) : JS ProcessResult.t :=
  console_write (js "Processing SMS job " ++ Job.id job ++ js " of type "
                 ++ SMSJobData_type (Job.data job));;;
  templateResult <- route (Job.data job);;
  result <- send smsProvider
              (SMSRecipient.phoneNumber (TemplateResult.recipient templateResult))
              (TemplateResult.message templateResult);;
  if negb (SMSResult.success result) then
    throw (new_Error (js "SMS send failed: "
                      ++ Js.of_optional (SMSResult.error result)))
  else
    console_write (js "Successfully sent SMS job " ++ Job.id job ++ js " via "
                   ++ SMSResult.provider result ++ js ", messageId: "
                   ++ Js.of_optional (SMSResult.messageId result));;;
    ret {| ProcessResult.success := true;
           ProcessResult.jobId := Job.id job;
           ProcessResult.messageId := SMSResult.messageId result;
           ProcessResult.provider := SMSResult.provider result |}.

(** The listeners that [createSMSWorker] registers. *)
Definition on_completed (job : Job.t) : JS unit :=
  console_write (js "SMS job " ++ Job.id job ++ js " completed").

(** [console.error(`SMS job ${job?.id} failed:`, err)]; of [err] the line
    keeps the message and leaves out the error's class name and stack, which
    the engine prints with it; the job is the one that was claimed. *)
Definition on_failed (job : Job.t) (err : Thrown) : JS unit :=
  console_write (js "SMS job " ++ Job.id job ++ js " failed: "
                 ++ SalumSMSProvider.error_text err).

(** Modelled from the spec: the loop of the library's [Worker], which
    [createSMSWorker] builds around [processSMSJob], is missing. "On claim,
    the worker renders the template for the job's kind, then calls the
    provider's send operation. A thrown/propagated error during render or
    send causes the job to be considered failed for this attempt." "Worker
    emits lifecycle notifications (completed, failed)." One claim of a job:
    the processor runs, the attempt is settled under the queue's default
    job options, and the registered listener is told. *)
Definition attempt (job : Job.t) (w : World.t)
    : BullMQ.JobState * Job.t * World.t :=
  let job' :=
    Job.make (Job.id job) (Job.name job) (Job.data job) (Job.opts job)
             (S (Job.attemptsMade job)) in
  let (outcome, w1) := processSMSJob job w in
  let state :=
    BullMQ.settle (QueueOptions.defaultJobOptions (Queue.options smsQueue))
                  (Job.attemptsMade job') outcome in
  let (_, w2) :=
    match outcome with
    | Normal _ => on_completed job' w1
    | Throw err => on_failed job' err w1
    end in
  (state, job', w2).

(** Modelled from the spec: the library's scheduling of retries is missing.
    A job that is "Failed-retry-pending" is claimed again once its backoff
    delay has passed, until it is completed or terminally failed; [fuel]
    bounds the number of claims. *)
Fixpoint run_job (fuel : nat) (job : Job.t) (w : World.t)
    : BullMQ.JobState * Job.t * World.t :=
  match fuel with
  | O => (BullMQ.Waiting, job, w)
  | S fuel' =>
      match attempt job w with
      | (BullMQ.FailedRetryPending delay, job', w') =>
          run_job fuel' job' (snd (sleep delay w'))
      | settled => settled
      end
  end.

End Worker.

(** ** Vocabulary of the statements *)

(** What the gateway call came to, read off the network alone. *)
Inductive SendScenario : Type :=
| NetworkFailure (t : Thrown)          (* fetch rejected *)
| HttpFailure (status : Z)             (* a status outside 200..299 *)
| BodyFailure (t : Thrown)             (* the body could not be read *)
| EmptyResponseList                    (* no list, or an empty one *)
| GatewayRejected (result : SalumEntry.t)
| GatewayAccepted (result : SalumEntry.t).

Definition scenario (o : FetchOutcome) : SendScenario :=
  match o with
  | FetchRejects t => NetworkFailure t
  | FetchResolves r =>
      if (Response.status r <? 200) || (299 <? Response.status r) then
        HttpFailure (Response.status r)
      else
        match Response.json r with
        | JsonRejects t => BodyFailure t
        | JsonResolves (SalumResponse.make None) => EmptyResponseList
        | JsonResolves (SalumResponse.make (Some [])) => EmptyResponseList
        | JsonResolves (SalumResponse.make (Some (result :: _))) =>
            if SalumEntry.respose_code result =? 200 then GatewayAccepted result
            else GatewayRejected result
        end
  end.

Definition is_failure (s : SendScenario) : bool :=
  match s with
  | GatewayAccepted _ => false
  | _ => true
  end.

(** The engine's own errors (a rejected [fetch], an unreadable body) carry a
    message. *)
Definition engine_describes (s : SendScenario) : Prop :=
  match s with
  | NetworkFailure (ThrownError _ message)
  | BodyFailure (ThrownError _ message) => message ≠ []
  | _ => True
  end.

(** The job type is one of the three that the worker's [switch] names. *)
Definition declared_type (type : Js.str) : bool :=
  Js.str_eqb type (js "welcome") || Js.str_eqb type (js "otp")
  || Js.str_eqb type (js "notification").

(** The number of jobs in the queue under the id [k]. *)
Definition count_id (k : Js.str) (q : list Job.t) : nat :=
  length (List.filter (fun j => Js.str_eqb (Job.id j) k) q).

(** The queue takes a job under these options: the backend is reachable and
    no pending job has the options' key. *)
Definition accepts (options : option JobOptions.t) (w : World.t) : Prop :=
  World.backend_up w = true /\
  match opt_jobId options with
  | Some k => BullMQ.find_job k (World.queue w) = None
  | None => True
  end.

Definition is_otp_job (job : Job.t) : bool :=
  match Job.data job with
  | Otp _ => true
  | _ => false
  end.

(** The three arguments that a creator call hands to [smsQueue.add], given
    the id and the timestamp it put in the payload. *)
Definition add_name (c : CreatorCall) : Js.str :=
  match c with
  | CallWelcome _ _ => js "welcome-sms"
  | CallOTP _ _ => js "otp-sms"
  | CallNotification _ _ => js "notification-sms"
  end.

Definition add_data (c : CreatorCall) (id : Js.str) (timestamp : Z) : SMSJobData :=
  match c with
  | CallWelcome params _ =>
      Welcome (WelcomeSMSData.make id timestamp
                 (CreateWelcomeSMSJobParams.recipient params)
                 (CreateWelcomeSMSJobParams.userName params))
  | CallOTP params _ =>
      Otp (OTPSMSData.make id timestamp
             (CreateOTPSMSJobParams.recipient params)
             (CreateOTPSMSJobParams.code params)
             (CreateOTPSMSJobParams.expiryMinutes params))
  | CallNotification params _ =>
      Notification (NotificationSMSData.make id timestamp
                      (CreateNotificationSMSJobParams.recipient params)
                      (CreateNotificationSMSJobParams.message params)
                      (CreateNotificationSMSJobParams.metadata params))
  end.

Definition add_priority (c : CreatorCall) : option Z :=
  match c with
  | CallOTP _ options => Some (Js.or_num (opt_priority options) 1)
  | CallWelcome _ options | CallNotification _ options => opt_priority options
  end.

Definition add_opts (c : CreatorCall) : JobOptions.t :=
  {| JobOptions.priority := add_priority c;
     JobOptions.delay := opt_delay (call_options c);
     JobOptions.jobId := opt_jobId (call_options c) |}.

(** The provider that the factory's [switch] selects. *)
Definition selector (w : World.t) : Js.str :=
  Js.toLowerCase (Js.or_str (World.env w !! "SMS_PROVIDER") (js "mock")).

Definition raises {A} (r : Completion A * World.t) : bool :=
  match fst r with
  | Throw _ => true
  | Normal _ => false
  end.

(** ** Sample values *)

Module Sample.

Definition network_down : HttpRequest.t -> FetchOutcome :=
  fun _ => FetchRejects (ThrownError TypeError (js "fetch failed")).

Definition world (env : gmap string Js.str) : World.t :=
  {| World.env := env;
     World.clock := 1700000000000;
     World.random := fun n => js "3f0e9a52-uuid-" ++ Js.of_number (Z.of_nat n);
     World.drawn := 0;
     World.console := [];
     World.network := network_down;
     World.backend_up := true;
     World.queue := [];
     World.jobCounter := 0 |}.

Definition recipient : SMSRecipient.t :=
  {| SMSRecipient.phoneNumber := js "+254712345678";
     SMSRecipient.name := Some (js "John") |}.

Definition otp_params : CreateOTPSMSJobParams.t :=
  {| CreateOTPSMSJobParams.recipient := recipient;
     CreateOTPSMSJobParams.code := js "123456";
     CreateOTPSMSJobParams.expiryMinutes := 10 |}.

Definition welcome_params : CreateWelcomeSMSJobParams.t :=
  {| CreateWelcomeSMSJobParams.recipient := recipient;
     CreateWelcomeSMSJobParams.userName := js "John Doe" |}.

Definition keyed (k : Js.str) : option JobOptions.t :=
  Some {| JobOptions.priority := None; JobOptions.delay := None;
          JobOptions.jobId := Some k |}.

Definition with_priority (p : Z) : option JobOptions.t :=
  Some {| JobOptions.priority := Some p; JobOptions.delay := None;
          JobOptions.jobId := None |}.

Definition salum : SalumSMSProvider.t :=
  {| SalumSMSProvider.config :=
       {| SalumConfig.apiKey := js "key"; SalumConfig.partnerId := js "42";
          SalumConfig.shortcode := js "BURETI-TEA";
          SalumConfig.apiUrl := js "https://sms.salum.co.ke/api/services/sendsms/" |} |}.

(** A job of a kind that this worker does not know. *)
Definition email_job : Job.t :=
  {| Job.id := js "7"; Job.name := js "email";
     Job.data := Foreign (js "email")
                   {| BaseJobData.id := js "7"; BaseJobData.timestamp := 0 |};
     Job.opts := {| JobOptions.priority := None; JobOptions.delay := None;
                    JobOptions.jobId := None |};
     Job.attemptsMade := 0 |}.

End Sample.

From Stdlib Require DecimalPos.

(** ** Vocabulary of the further properties *)

(** The last two steps of the normaliser, on a number that has lost its
    separators and its plus sign. *)
Definition withCountryCode (d : Js.str) : Js.str :=
  match d with
  | [] => []
  | c :: r =>
      if (c =? 48)%N then js "254" ++ r
      else if Js.startsWith d (js "254") then d
      else if (length d =? 9)%nat then js "254" ++ d
      else d
  end.

(** Nothing but the console differs between the two worlds. *)
Definition only_console_differs (w w' : World.t) : Prop :=
  w' = World.with_console (World.console w') w.

(** All code units are below 128. *)
Definition ascii_only (s : Js.str) : Prop :=
  Forall (fun c => (c < 128)%N) s.

(** The world with the queue backend unreachable. *)
Definition backend_down (w : World.t) : World.t :=
  World.make (World.env w) (World.clock w) (World.random w) (World.drawn w)
             (World.console w) (World.network w) false (World.queue w)
             (World.jobCounter w).

(** ** Redis connection settings
    [config/redis.ts] *)

(** [c] is one of the digits 0 to 9. *)
Definition is_digit (c : N) : bool := ((48 <=? c) && (c <=? 57))%N.

Definition digit_value (c : N) : Z := Z.of_N (c - 48).

(** The white space that [parseInt] skips at the front of its argument. *)
Fixpoint trimStart (s : Js.str) : Js.str :=
  match s with
  | c :: r => if Js.is_whitespace c then trimStart r else s
  | [] => []
  end.

(** The decimal digits at the front of [s], read as a number; [acc] is what
    was read so far, [None] while no digit was seen. *)
Fixpoint leading_digits (s : Js.str) (acc : option Z) : option Z :=
  match s with
  | c :: r =>
      if is_digit c
      then leading_digits r (Some (10 * default 0 acc + digit_value c))
      else acc
  | [] => acc
  end.

(** [parseInt(s, 10)]; [None] is [NaN]. White space at the front is skipped,
    one sign is read, then the longest run of decimal digits; what follows
    the digits is ignored. The result is the exact integer, which the engine
    rounds to a double: the two differ only beyond 2^53. *)
Definition parseInt (s : Js.str) : option Z :=
  match trimStart s with
  | c :: r =>
      if (c =? 45)%N then Z.opp <$> leading_digits r None
      else if (c =? 43)%N then leading_digits r None
      else leading_digits (c :: r) None
  | [] => None
  end.

Module RedisConfig.
Record t : Type := make
  { host : Js.str; port : Z; password : option Js.str; db : Z;
    maxRetriesPerRequest : option Z }.   (* [None] is [null] *)
End RedisConfig.

Definition getRedisConfig : JS RedisConfig.t :=
  REDIS_HOST <- process_env "REDIS_HOST";;
  REDIS_PORT <- process_env "REDIS_PORT";;
  REDIS_PASSWORD <- process_env "REDIS_PASSWORD";;
  REDIS_DB <- process_env "REDIS_DB";;
  NODE_ENV <- process_env "NODE_ENV";;
  let host := Js.or_str REDIS_HOST (js "localhost") in
  let port := parseInt (Js.or_str REDIS_PORT (js "6379")) in
  let password := REDIS_PASSWORD in
  let db := parseInt (Js.or_str REDIS_DB (js "0")) in
  (if bool_decide (NODE_ENV = Some (js "production")) then
     if negb (Js.truthy REDIS_HOST) then
       throw (new_Error
                (js "REDIS_HOST environment variable is required in production"))
     else if negb (Js.truthy REDIS_PASSWORD) then
       console_write
         (js "REDIS_PASSWORD is not set. This is not recommended for production.")
     else ret tt
   else ret tt);;;
  match port with
  | Some port' =>
      if (port' <? 1) || (65535 <? port') then
        throw (new_Error (js "Invalid REDIS_PORT: " ++ Js.of_optional REDIS_PORT
                          ++ js ". Must be between 1 and 65535."))
      else
        match db with
        | Some db' =>
            if db' <? 0 then
              throw (new_Error (js "Invalid REDIS_DB: " ++ Js.of_optional REDIS_DB
                                ++ js ". Must be a non-negative integer."))
            else
              ret {| RedisConfig.host := host;
                     RedisConfig.port := port';
                     RedisConfig.password := password;
                     RedisConfig.db := db';
                     RedisConfig.maxRetriesPerRequest := None |}
        | None =>
            throw (new_Error (js "Invalid REDIS_DB: " ++ Js.of_optional REDIS_DB
                              ++ js ". Must be a non-negative integer."))
        end
  | None =>
      throw (new_Error (js "Invalid REDIS_PORT: " ++ Js.of_optional REDIS_PORT
                        ++ js ". Must be between 1 and 65535."))
  end.

(** [{ ...getRedisConfig() }] *)
Definition getRedisConnection : JS RedisConfig.t := getRedisConfig.

(** The accumulated value of a decimal numeral, as [leading_digits] reads
    its digits. *)
Fixpoint uint_value (u : Decimal.uint) (acc : Z) : Z :=
  match u with
  | Decimal.Nil => acc
  | Decimal.D0 l => uint_value l (10 * acc + 0)
  | Decimal.D1 l => uint_value l (10 * acc + 1)
  | Decimal.D2 l => uint_value l (10 * acc + 2)
  | Decimal.D3 l => uint_value l (10 * acc + 3)
  | Decimal.D4 l => uint_value l (10 * acc + 4)
  | Decimal.D5 l => uint_value l (10 * acc + 5)
  | Decimal.D6 l => uint_value l (10 * acc + 6)
  | Decimal.D7 l => uint_value l (10 * acc + 7)
  | Decimal.D8 l => uint_value l (10 * acc + 8)
  | Decimal.D9 l => uint_value l (10 * acc + 9)
  end.

(** [s] does not go on with a digit. *)
Definition no_digit_ahead (s : Js.str) : Prop :=
  match s with
  | c :: _ => is_digit c = false
  | [] => True
  end.

(** What the checks of [getRedisConfig] come to, read off the environment:
    the port and the database index when both are acceptable. *)
Definition redis_port (w : World.t) : option Z :=
  parseInt (Js.or_str (World.env w !! "REDIS_PORT") (js "6379")).

Definition redis_db (w : World.t) : option Z :=
  parseInt (Js.or_str (World.env w !! "REDIS_DB") (js "0")).

Definition in_production (w : World.t) : bool :=
  bool_decide (World.env w !! "NODE_ENV" = Some (js "production")).

Definition port_ok (w : World.t) : bool :=
  match redis_port w with
  | Some p => (1 <=? p) && (p <=? 65535)
  | None => false
  end.

Definition db_ok (w : World.t) : bool :=
  match redis_db w with
  | Some d => 0 <=? d
  | None => false
  end.

(** ** The HTTP routes that enqueue notifications
    [apps/server/src/routers/notifications.ts]. A route is modelled from
    the parsed JSON body of the request on; numbers in a body are
    integers. *)

Inductive IssueCode : Type := invalid_type | too_small | too_big.

Module Issue.
(** [message] is [None] where the schema gives no text of its own and the
    validation library supplies its default. *)
Record t : Type := make
  { code : IssueCode; path : list Js.str; message : option Js.str }.
End Issue.

(** The outcome of parsing a value with a schema. *)
Inductive Validation (A : Type) : Type :=
| Valid (data : A)
| Invalid (issues : list Issue.t).
Arguments Valid {A} data.
Arguments Invalid {A} issues.

Definition issues_of {A} (v : Validation A) : list Issue.t :=
  match v with
  | Valid _ => []
  | Invalid issues => issues
  end.

(** [body[name]] for a parsed JSON object: of a repeated key the last
    occurrence counts. *)
Definition field (name : string) (fields : list (Js.str * JsonValue))
    : option JsonValue :=
  fold_left
    (fun found kv => if Js.str_eqb (fst kv) (js name) then Some (snd kv) else found)
    fields None.

(** [z.string().min(n, text)] *)
Definition z_string_min (n : nat) (text : string) (name : string)
    (v : option JsonValue) : Validation Js.str :=
  match v with
  | Some (JString s) =>
      if (n <=? length s)%nat then Valid s
      else Invalid [Issue.make too_small [js name] (Some (js text))]
  | _ => Invalid [Issue.make invalid_type [js name] None]
  end.

(** [z.string().optional()] *)
Definition z_string_optional (name : string) (v : option JsonValue)
    : Validation (option Js.str) :=
  match v with
  | None => Valid None
  | Some (JString s) => Valid (Some s)
  | Some _ => Invalid [Issue.make invalid_type [js name] None]
  end.

(** [z.number().min(lo).max(hi)], [hi] being optional *)
Definition z_number_range (lo : Z) (hi : option Z) (name : string)
    (v : JsonValue) : Validation Z :=
  match v with
  | JNumber n =>
      if n <? lo then Invalid [Issue.make too_small [js name] None]
      else
        match hi with
        | Some hi' =>
            if hi' <? n then Invalid [Issue.make too_big [js name] None]
            else Valid n
        | None => Valid n
        end
  | _ => Invalid [Issue.make invalid_type [js name] None]
  end.

(** [schema.default(d)] *)
Definition z_default {A} (d : A) (schema : JsonValue -> Validation A)
    (v : option JsonValue) : Validation A :=
  match v with
  | None => Valid d
  | Some x => schema x
  end.

(** [schema.optional()] *)
Definition z_optional {A} (schema : JsonValue -> Validation A)
    (v : option JsonValue) : Validation (option A) :=
  match v with
  | None => Valid None
  | Some x =>
      match schema x with
      | Valid a => Valid (Some a)
      | Invalid issues => Invalid issues
      end
  end.

(** [z.record(z.string(), z.unknown())] *)
Definition z_record (name : string) (v : JsonValue)
    : Validation (list (Js.str * JsonValue)) :=
  match v with
  | JObject fields => Valid fields
  | _ => Invalid [Issue.make invalid_type [js name] None]
  end.

Module WelcomeSMSInput.
Record t : Type := make
  { phoneNumber : Js.str; name : option Js.str; userName : Js.str }.
End WelcomeSMSInput.

Module OtpSMSInput.
Record t : Type := make
  { phoneNumber : Js.str; name : option Js.str; code : Js.str;
    expiryMinutes : Z }.
End OtpSMSInput.

Module NotificationSMSInput.
Record t : Type := make
  { phoneNumber : Js.str; name : option Js.str; message : Js.str;
    metadata : option (list (Js.str * JsonValue));
    priority : option Z; delay : option Z }.
End NotificationSMSInput.

Definition welcomeSMSSchema (body : JsonValue) : Validation WelcomeSMSInput.t :=
  match body with
  | JObject fields =>
      let phoneNumber :=
        z_string_min 9 "Phone number must be at least 9 digits" "phoneNumber"
                     (field "phoneNumber" fields) in
      let name := z_string_optional "name" (field "name" fields) in
      let userName :=
        z_string_min 1 "User name is required" "userName"
                     (field "userName" fields) in
      match phoneNumber, name, userName with
      | Valid p, Valid n, Valid u => Valid (WelcomeSMSInput.make p n u)
      | _, _, _ =>
          Invalid (issues_of phoneNumber ++ issues_of name ++ issues_of userName)
      end
  | _ => Invalid [Issue.make invalid_type [] None]
  end.

Definition otpSMSSchema (body : JsonValue) : Validation OtpSMSInput.t :=
  match body with
  | JObject fields =>
      let phoneNumber :=
        z_string_min 9 "Phone number must be at least 9 digits" "phoneNumber"
                     (field "phoneNumber" fields) in
      let name := z_string_optional "name" (field "name" fields) in
      let code :=
        z_string_min 4 "OTP code must be at least 4 characters" "code"
                     (field "code" fields) in
      let expiryMinutes :=
        z_default 10 (z_number_range 1 (Some 60) "expiryMinutes")
                  (field "expiryMinutes" fields) in
      match phoneNumber, name, code, expiryMinutes with
      | Valid p, Valid n, Valid c, Valid e => Valid (OtpSMSInput.make p n c e)
      | _, _, _, _ =>
          Invalid (issues_of phoneNumber ++ issues_of name ++ issues_of code
                   ++ issues_of expiryMinutes)
      end
  | _ => Invalid [Issue.make invalid_type [] None]
  end.

Definition notificationSMSSchema (body : JsonValue)
    : Validation NotificationSMSInput.t :=
  match body with
  | JObject fields =>
      let phoneNumber :=
        z_string_min 9 "Phone number must be at least 9 digits" "phoneNumber"
                     (field "phoneNumber" fields) in
      let name := z_string_optional "name" (field "name" fields) in
      let message :=
        z_string_min 1 "Message is required" "message"
                     (field "message" fields) in
      let metadata := z_optional (z_record "metadata") (field "metadata" fields) in
      let priority :=
        z_optional (z_number_range 1 (Some 10) "priority")
                   (field "priority" fields) in
      let delay :=
        z_optional (z_number_range 0 None "delay") (field "delay" fields) in
      match phoneNumber, name, message, metadata, priority, delay with
      | Valid p, Valid n, Valid m, Valid md, Valid pr, Valid d =>
          Valid (NotificationSMSInput.make p n m md pr d)
      | _, _, _, _, _, _ =>
          Invalid (issues_of phoneNumber ++ issues_of name ++ issues_of message
                   ++ issues_of metadata ++ issues_of priority
                   ++ issues_of delay)
      end
  | _ => Invalid [Issue.make invalid_type [] None]
  end.

(** The JSON bodies that the routes answer with. *)
Module ResponseBody.
Record t : Type := make
  { success : bool; message : Js.str; data : option CreatedJob.t;
    errors : option (list Issue.t); error : option Js.str }.
End ResponseBody.

Module HttpResponse.
Record t : Type := make { body : ResponseBody.t; status : Z }.
End HttpResponse.

(** [c.json(body, status)] *)
Definition c_json (body : ResponseBody.t) (status : Z) : HttpResponse.t :=
  HttpResponse.make body status.

(** The hook given to [zValidator]: a body that fails the schema is
    answered at once and the handler does not run. *)
Definition validation_failed (issues : list Issue.t) : HttpResponse.t :=
  c_json {| ResponseBody.success := false;
            ResponseBody.message := js "Validation failed";
            ResponseBody.data := None;
            ResponseBody.errors := Some issues;
            ResponseBody.error := None |} 400.

(** [error instanceof Error ? error.message : 'Unknown error'] *)
Definition error_message (error : Thrown) : Js.str :=
  match error with
  | ThrownError _ message => message
  | ThrownValue _ => js "Unknown error"
  end.

(** The [try]/[catch] that the three handlers share: [create] is the call
    of the job creator. Of the error that [console.error] prints, the line
    keeps the message. *)
Definition queue_or_fail (create : JS CreatedJob.t) (queued logged failed : string)
    : JS HttpResponse.t :=
  try_catch
    (result <- create;;
     ret (c_json {| ResponseBody.success := true;
                    ResponseBody.message := js queued;
                    ResponseBody.data :=
                      Some {| CreatedJob.jobId := CreatedJob.jobId result;
                              CreatedJob.queueName := CreatedJob.queueName result |};
                    ResponseBody.errors := None;
                    ResponseBody.error := None |} 201))
    (fun error =>
       console_write (js logged ++ js " " ++ error_message error);;;
       ret (c_json {| ResponseBody.success := false;
                      ResponseBody.message := js failed;
                      ResponseBody.data := None;
                      ResponseBody.errors := None;
                      ResponseBody.error := Some (error_message error) |}
                   500)).

(** [POST /sms/welcome] *)
Definition post_sms_welcome (body : JsonValue) : JS HttpResponse.t :=
  match welcomeSMSSchema body with
  | Invalid issues => ret (validation_failed issues)
  | Valid data =>
      let params :=
        {| CreateWelcomeSMSJobParams.recipient :=
             {| SMSRecipient.phoneNumber := WelcomeSMSInput.phoneNumber data;
                SMSRecipient.name := WelcomeSMSInput.name data |};
           CreateWelcomeSMSJobParams.userName := WelcomeSMSInput.userName data |} in
      queue_or_fail (createWelcomeSMSJob params None)
        "Welcome SMS queued successfully" "Error queuing welcome SMS:"
        "Failed to queue welcome SMS"
  end.

(** [POST /sms/otp] *)
Definition post_sms_otp (body : JsonValue) : JS HttpResponse.t :=
  match otpSMSSchema body with
  | Invalid issues => ret (validation_failed issues)
  | Valid data =>
      let params :=
        {| CreateOTPSMSJobParams.recipient :=
             {| SMSRecipient.phoneNumber := OtpSMSInput.phoneNumber data;
                SMSRecipient.name := OtpSMSInput.name data |};
           CreateOTPSMSJobParams.code := OtpSMSInput.code data;
           CreateOTPSMSJobParams.expiryMinutes := OtpSMSInput.expiryMinutes data |} in
      queue_or_fail (createOTPSMSJob params None)
        "OTP SMS queued successfully" "Error queuing OTP SMS:"
        "Failed to queue OTP SMS"
  end.

(** [POST /sms/notification] *)
Definition post_sms_notification (body : JsonValue) : JS HttpResponse.t :=
  match notificationSMSSchema body with
  | Invalid issues => ret (validation_failed issues)
  | Valid data =>
      let params :=
        {| CreateNotificationSMSJobParams.recipient :=
             {| SMSRecipient.phoneNumber := NotificationSMSInput.phoneNumber data;
                SMSRecipient.name := NotificationSMSInput.name data |};
           CreateNotificationSMSJobParams.message :=
             NotificationSMSInput.message data;
           CreateNotificationSMSJobParams.metadata :=
             NotificationSMSInput.metadata data |} in
      let options :=
        {| JobOptions.priority := NotificationSMSInput.priority data;
           JobOptions.delay := NotificationSMSInput.delay data;
           JobOptions.jobId := None |} in
      queue_or_fail (createNotificationSMSJob params (Some options))
        "Notification SMS queued successfully" "Error queuing notification SMS:"
        "Failed to queue notification SMS"
  end.

(** The three routes of the router, and the schema check of each. *)
Inductive Route : Type := sms_welcome | sms_otp | sms_notification.

Definition post (r : Route) : JsonValue -> JS HttpResponse.t :=
  match r with
  | sms_welcome => post_sms_welcome
  | sms_otp => post_sms_otp
  | sms_notification => post_sms_notification
  end.

Definition passes (r : Route) (body : JsonValue) : bool :=
  match r with
  | sms_welcome =>
      match welcomeSMSSchema body with Valid _ => true | Invalid _ => false end
  | sms_otp =>
      match otpSMSSchema body with Valid _ => true | Invalid _ => false end
  | sms_notification =>
      match notificationSMSSchema body with Valid _ => true | Invalid _ => false end
  end.

(** The string field [name] of a JSON object, when it is one. *)
Definition string_field (name : string) (fields : list (Js.str * JsonValue))
    : option Js.str :=
  match field name fields with
  | Some (JString s) => Some s
  | _ => None
  end.

Module SampleRequest.

Definition otp : JsonValue :=
  JObject [(js "phoneNumber", JString (js "+254712345678"));
           (js "code", JString (js "123456"))].

Definition short_phone : JsonValue :=
  JObject [(js "phoneNumber", JString (js "0712"));
           (js "userName", JString (js "John"))].

Definition notification : JsonValue :=
  JObject [(js "phoneNumber", JString (js "+254700000000"));
           (js "message", JString (js "Your order has shipped"));
           (js "priority", JNumber 3)].

End SampleRequest.

(** * Theorems *)

(** ** Phone number normalisation *)

Section PhoneFacts.

Lemma js_plus : js "+" = [43%N].
Proof. reflexivity. Qed.

Lemma js_zero : js "0" = [48%N].
Proof. reflexivity. Qed.

Lemma js_254 : js "254" = [50%N; 53%N; 52%N].
Proof. reflexivity. Qed.

Lemma startsWith_unit (s : Js.str) (u : N) :
  Js.startsWith s [u] = match s with c :: _ => (c =? u)%N | [] => false end.
Proof.
  destruct s as [|c s]; cbn; [reflexivity|].
  rewrite andb_true_r. apply N.eqb_sym.
Qed.

Lemma strip_plus_is_dropPlus (s : Js.str) :
  (if Js.startsWith s (js "+") then Js.substring1 s else s) = Phone.dropPlus s.
Proof.
  rewrite js_plus, startsWith_unit. now destruct s.
Qed.

Lemma country_code_no_separator (c : N) :
  In c (js "254") -> Phone.is_separator c = false.
Proof.
  rewrite js_254. cbn. intros [<-|[<-|[<-|[]]]]; reflexivity.
Qed.

Lemma removeSeparators_clean (phone : Js.str) (c : N) :
  In c (Phone.removeSeparators phone) -> Phone.is_separator c = false.
Proof.
  unfold Phone.removeSeparators. rewrite filter_In.
  intros [_ Hc]. now apply negb_true_iff in Hc.
Qed.

Lemma dropPlus_incl (s : Js.str) (c : N) : In c (Phone.dropPlus s) -> In c s.
Proof.
  destruct s as [|x s]; cbn; [auto|].
  destruct (x =? 43)%N; cbn; auto.
Qed.

End PhoneFacts.

(** C1. The normaliser sends "0712345678", "+254712345678", "254712345678"
    and "712345678" to "254712345678". On every input it agrees with the
    case description [Phone.canonical]: the separators (white space, dash,
    parentheses) are removed, then one leading "+" is dropped, then a
    leading "0" is replaced by "254", and a string of length 9 that does not
    start with "254" gets "254" in front. No separator is left in the
    result. *)
Theorem normalizePhoneNumber_canonical :
  Phone.normalizePhoneNumber (js "0712345678") = js "254712345678" /\
  Phone.normalizePhoneNumber (js "+254712345678") = js "254712345678" /\
  Phone.normalizePhoneNumber (js "254712345678") = js "254712345678" /\
  Phone.normalizePhoneNumber (js "712345678") = js "254712345678" /\
  (forall phone : Js.str,
     Phone.normalizePhoneNumber phone = Phone.canonical phone) /\
  (forall (phone : Js.str) (c : N),
     In c (Phone.normalizePhoneNumber phone) -> Phone.is_separator c = false).
Proof.
  assert (Hcanon : forall phone,
             Phone.normalizePhoneNumber phone = Phone.canonical phone).
  { intros phone. unfold Phone.normalizePhoneNumber, Phone.canonical.
    rewrite strip_plus_is_dropPlus.
    set (d := Phone.dropPlus (Phone.removeSeparators phone)).
    rewrite js_zero, startsWith_unit.
    destruct d as [|c r]; [reflexivity|].
    destruct (c =? 48)%N; [reflexivity|].
    now destruct (Js.startsWith (c :: r) (js "254")),
                 (length (c :: r) =? 9)%nat. }
  repeat split; try reflexivity; [exact Hcanon|].
  intros phone c. rewrite Hcanon. unfold Phone.canonical.
  assert (Hd : forall x, In x (Phone.dropPlus (Phone.removeSeparators phone)) ->
                         Phone.is_separator x = false).
  { intros x Hx. apply (removeSeparators_clean phone), dropPlus_incl, Hx. }
  destruct (Phone.dropPlus (Phone.removeSeparators phone)) as [|y r];
    [intros []|].
  assert (Hpre : forall s : Js.str,
             (forall x, In x s -> Phone.is_separator x = false) ->
             In c (js "254" ++ s) -> Phone.is_separator c = false).
  { intros s Hs Hin. apply in_app_or in Hin as [Hin|Hin];
      [now apply country_code_no_separator | now apply Hs]. }
  destruct (y =? 48)%N.
  - apply Hpre. intros x Hx. apply Hd. now right.
  - destruct (Js.startsWith (y :: r) (js "254")); [apply Hd|].
    destruct (length (y :: r) =? 9)%nat; [now apply Hpre | apply Hd].
Qed.

(** "0712 345-678" normalises to digits only. *)
Lemma normalizePhoneNumber_canonical_witness :
  Phone.normalizePhoneNumber (js "0712 345-678") = js "254712345678" /\
  Phone.is_separator 50 = false.
Proof.
  destruct normalizePhoneNumber_canonical as (_ & _ & _ & _ & Hcanon & Hclean).
  split; [rewrite Hcanon; reflexivity|].
  apply (Hclean (js "0712 345-678")). rewrite Hcanon. now left.
Defined.

(** ** Default options *)

(** C5. The default options are the stated policy: 3 attempts, exponential
    backoff from 2000 ms, completed jobs kept 24 hours and at most 1000 of
    them, failed jobs kept 7 days, 5 jobs at a time per worker and at most
    10 claims per 1000 ms. The queue is built with these defaults. *)
Theorem default_options_policy :
  let o := QueueOptions.defaultJobOptions (Queue.options smsQueue) in
  Queue.options smsQueue = defaultQueueOptions /\
  DefaultJobOptions.attempts o = 3 /\
  DefaultJobOptions.backoff o = BackoffOptions.make exponential 2000 /\
  DefaultJobOptions.removeOnComplete o
    = KeepJobs.make (Some (24 * 60 * 60)) (Some 1000) /\
  DefaultJobOptions.removeOnFail o
    = KeepJobs.make (Some (7 * 24 * 60 * 60)) None /\
  WorkerOptions.concurrency defaultWorkerOptions = 5 /\
  WorkerOptions.limiter defaultWorkerOptions = RateLimiterOptions.make 10 1000.
Proof.
  cbv zeta. repeat split.
Qed.

(** ** Templates *)

Lemma includes_middle (pre needle post : Js.str) :
  Js.includes (pre ++ needle ++ post) needle.
Proof. now exists pre, post. Qed.

Lemma includes_after (pre mid needle post : Js.str) :
  Js.includes (pre ++ mid ++ needle ++ post) needle.
Proof. exists (pre ++ mid), post. now rewrite <- app_assoc. Qed.

(** C7. The OTP message contains the code and the decimal rendering of
    [expiryMinutes]; for the code "123456" and 10 minutes it contains
    "123456" and "10". *)
Theorem renderOTPSMS_shows_code_and_expiry :
  (forall data : OTPSMSData.t,
     let message := TemplateResult.message (renderOTPSMS data) in
     Js.includes message (OTPSMSData.code data) /\
     Js.includes message (Js.of_number (OTPSMSData.expiryMinutes data))) /\
  (forall (id : Js.str) (timestamp : Z) (recipient : SMSRecipient.t),
     let data := OTPSMSData.make id timestamp recipient (js "123456") 10 in
     let message := TemplateResult.message (renderOTPSMS data) in
     Js.includes message (js "123456") /\ Js.includes message (js "10")).
Proof.
  assert (Hall : forall data : OTPSMSData.t,
             let message := TemplateResult.message (renderOTPSMS data) in
             Js.includes message (OTPSMSData.code data) /\
             Js.includes message (Js.of_number (OTPSMSData.expiryMinutes data))).
  { intros data. cbn. split.
    - apply includes_middle.
    - rewrite (app_assoc (OTPSMSData.code data)). apply includes_after. }
  split; [exact Hall|].
  intros id timestamp recipient. exact (Hall (OTPSMSData.make _ _ _ _ _)).
Qed.

(** The worker's dispatch: a declared payload is rendered by its own
    renderer, and nothing of the world is read or written. *)
Lemma route_welcome (d : WelcomeSMSData.t) :
  route (Welcome d) = ret (renderWelcomeSMS d).
Proof. reflexivity. Qed.

Lemma route_otp (d : OTPSMSData.t) : route (Otp d) = ret (renderOTPSMS d).
Proof. reflexivity. Qed.

Lemma route_notification (d : NotificationSMSData.t) :
  route (Notification d) = ret (renderNotificationSMS d).
Proof. reflexivity. Qed.

Lemma route_foreign (type : Js.str) (base : BaseJobData.t) :
  route (Foreign type base)
  = throw (if declared_type type then missing_recipient
           else new_Error (js "Unknown SMS job type: " ++ type)).
Proof.
  unfold route, declared_type. cbn [SMSJobData_type].
  now destruct (Js.str_eqb type (js "welcome")),
               (Js.str_eqb type (js "otp")),
               (Js.str_eqb type (js "notification")).
Qed.

Lemma route_same_result (data : SMSJobData) (w w' : World.t) :
  fst (route data w) = fst (route data w').
Proof.
  destruct data as [d|d|d|type base];
    [rewrite route_welcome | rewrite route_otp | rewrite route_notification
    | rewrite route_foreign]; reflexivity.
Qed.

Lemma route_keeps_world (data : SMSJobData) (w : World.t) :
  snd (route data w) = w.
Proof.
  destruct data as [d|d|d|type base];
    [rewrite route_welcome | rewrite route_otp | rewrite route_notification
    | rewrite route_foreign]; reflexivity.
Qed.

(** The worker's dispatch is the call of the renderer of the job's kind. *)
Lemma route_invokes_renderer :
  (forall d : WelcomeSMSData.t, route (Welcome d) = Invoke.renderWelcomeSMS d) /\
  (forall d : OTPSMSData.t, route (Otp d) = Invoke.renderOTPSMS d) /\
  (forall d : NotificationSMSData.t,
     route (Notification d) = Invoke.renderNotificationSMS d).
Proof.
  split; [|split]; intros d;
    [rewrite route_welcome | rewrite route_otp | rewrite route_notification];
    reflexivity.
Qed.

Section TwoCalls.

Context {A B : Type} (f : A -> JS B) (a : A) (b : B).

(** A call that returns [b] in every world without changing it returns [b]
    both times, whatever runs between the two calls. *)
Lemma twice_same_result :
  (forall w : World.t, f a w = (Normal b, w)) ->
  forall (between : JS unit) (w : World.t),
    twice f a between w = (between;;; ret (b, b)) w.
Proof.
  intros Hcall between w. unfold twice, bind. rewrite Hcall.
  destruct (between w) as [[[]|t] w']; [|reflexivity].
  now rewrite Hcall.
Qed.

End TwoCalls.

(** C9. Every renderer is a pure, deterministic function of the job
    payload. For each payload there is one template result, fixed by the
    payload alone, such that a call of the renderer returns it in every
    world (whatever the environment, the clock, the random source, the
    console, the network and the queue hold) and leaves the world as it
    was. So two calls on the same payload return the same result, message
    and recipient, whatever the program does between them, and the recipient
    is the payload's own. *)
Theorem renderers_are_pure :
  (forall data : WelcomeSMSData.t, exists r : TemplateResult.t,
     (forall w : World.t, Invoke.renderWelcomeSMS data w = (Normal r, w)) /\
     (forall (between : JS unit) (w : World.t),
        twice Invoke.renderWelcomeSMS data between w
        = (between;;; ret (r, r)) w) /\
     TemplateResult.recipient r = WelcomeSMSData.recipient data) /\
  (forall data : OTPSMSData.t, exists r : TemplateResult.t,
     (forall w : World.t, Invoke.renderOTPSMS data w = (Normal r, w)) /\
     (forall (between : JS unit) (w : World.t),
        twice Invoke.renderOTPSMS data between w
        = (between;;; ret (r, r)) w) /\
     TemplateResult.recipient r = OTPSMSData.recipient data) /\
  (forall data : NotificationSMSData.t, exists r : TemplateResult.t,
     (forall w : World.t, Invoke.renderNotificationSMS data w = (Normal r, w)) /\
     (forall (between : JS unit) (w : World.t),
        twice Invoke.renderNotificationSMS data between w
        = (between;;; ret (r, r)) w) /\
     TemplateResult.recipient r = NotificationSMSData.recipient data).
Proof.
  split; [|split]; intros data; eexists;
    (split; [intros w; reflexivity|]);
    (split; [|reflexivity]);
    apply twice_same_result; intros w; reflexivity.
Qed.

(** ** The Salum provider *)

Lemma or_str_nonempty (a : option Js.str) (b : Js.str) :
  b <> [] -> Js.or_str a b <> [].
Proof.
  intros Hb. destruct a as [[|c s]|]; cbn; congruence.
Qed.

(** C2. [send] of the Salum provider returns in every world and never
    throws. Its result names the provider, reports success exactly when the
    gateway answered a 2xx status with a first entry of code 200, and in
    every other case (fetch rejected, a status outside 2xx, an unreadable
    body, no or an empty response list, a first entry with another code)
    carries an error text; that text is non-empty, the engine's own error
    messages being so. *)
Theorem salum_send_never_raises
    (self : SalumSMSProvider.t) (phoneNumber message : Js.str)
    (w : World.t) :
  let s := scenario (World.network w (SalumSMSProvider.request self phoneNumber message)) in
  exists result : SMSResult.t,
    SalumSMSProvider.send self phoneNumber message w = (Normal result, w) /\
    SMSResult.provider result = js "salum" /\
    SMSResult.success result = negb (is_failure s) /\
    (is_failure s = true ->
     exists e, SMSResult.error result = Some e /\ (engine_describes s -> e <> [])).
Proof.
  cbv zeta. unfold SalumSMSProvider.send, try_catch, bind, fetch, scenario.
  destruct (World.network w (SalumSMSProvider.request self phoneNumber message))
    as [t|r].
  - eexists. repeat split. intros _. eexists. split; [reflexivity|].
    destruct t; cbn; [auto | discriminate].
  - unfold Response.ok.
    destruct (200 <=? Response.status r) eqn:Hlo;
      destruct (Response.status r <=? 299) eqn:Hhi; cbn [andb negb].
    + assert (Hin : (Response.status r <? 200) || (299 <? Response.status r)
                    = false) by lia.
      rewrite Hin. unfold Response_json.
      destruct (Response.json r) as [t|[[[|entry rest]|]]].
      * eexists. repeat split. intros _. eexists. split; [reflexivity|].
        destruct t; cbn; [auto | discriminate].
      * eexists. repeat split. intros _. eexists. split; [reflexivity|].
        discriminate.
      * cbn. destruct (SalumEntry.respose_code entry =? 200).
        -- eexists. repeat split. discriminate.
        -- eexists. repeat split. intros _. eexists. split; [reflexivity|].
           intros _. now apply (or_str_nonempty (Some _)).
      * eexists. repeat split. intros _. eexists. split; [reflexivity|].
        discriminate.
    + assert (Hin : (Response.status r <? 200) || (299 <? Response.status r)
                    = true) by lia.
      rewrite Hin. eexists. repeat split. intros _. eexists.
      split; [reflexivity|]. intros _. cbn. discriminate.
    + assert (Hin : (Response.status r <? 200) || (299 <? Response.status r)
                    = true) by lia.
      rewrite Hin. eexists. repeat split. intros _. eexists.
      split; [reflexivity|]. intros _. cbn. discriminate.
    + assert (Hin : (Response.status r <? 200) || (299 <? Response.status r)
                    = true) by lia.
      rewrite Hin. eexists. repeat split. intros _. eexists.
      split; [reflexivity|]. intros _. cbn. discriminate.
Qed.

(** The gateway is unreachable: [send] returns a failed result whose error
    is the engine's message. *)
Lemma salum_send_never_raises_witness :
  exists result : SMSResult.t,
    SalumSMSProvider.send Sample.salum (js "0712345678") (js "hello") (Sample.world ∅)
    = (Normal result, Sample.world ∅) /\
    SMSResult.success result = false /\
    exists e, SMSResult.error result = Some e /\ e <> [].
Proof.
  destruct (salum_send_never_raises Sample.salum (js "0712345678") (js "hello")
              (Sample.world ∅)) as (result & Hrun & _ & Hok & Herr).
  exists result. split; [exact Hrun|]. split; [exact Hok|].
  destruct (Herr eq_refl) as (e & He & Hne).
  exists e. split; [exact He|]. apply Hne. cbn. discriminate.
Defined.

(** ** The provider factory *)

Lemma truthy_or_empty (a : option Js.str) :
  Js.truthy (Some (Js.or_str a (js ""))) = Js.truthy a.
Proof. now destruct a as [[|c s]|]. Qed.

(** The constructor throws exactly when a credential is missing after the
    fallback to the environment. *)
Lemma Salum_new_raises (config : option PartialSalumConfig.t) (w : World.t) :
  raises (SalumSMSProvider.new config w)
  = negb (Js.truthy (Js.or_opt (config ≫= PartialSalumConfig.apiKey)
                               (World.env w !! "SALUM_API_KEY")))
    || negb (Js.truthy (Js.or_opt (config ≫= PartialSalumConfig.partnerId)
                                  (World.env w !! "SALUM_PARTNER_ID"))).
Proof.
  unfold SalumSMSProvider.new, bind, process_env. cbn [SalumConfig.apiKey SalumConfig.partnerId].
  rewrite !truthy_or_empty.
  now destruct (Js.truthy (Js.or_opt (config ≫= PartialSalumConfig.apiKey) _)),
               (Js.truthy (Js.or_opt (config ≫= PartialSalumConfig.partnerId) _)).
Qed.

Lemma createSMSProvider_other (w : World.t) :
  selector w <> js "salum" ->
  exists w', createSMSProvider w = (Normal (IsMock new_MockSMSProvider), w').
Proof.
  intros Hsel. unfold createSMSProvider, bind, process_env.
  fold (selector w). unfold Js.str_eqb.
  rewrite (bool_decide_eq_false_2 _ Hsel).
  destruct (bool_decide (selector w = js "mock")); eexists; reflexivity.
Qed.

Lemma createSMSProvider_salum (w : World.t) :
  selector w = js "salum" ->
  raises (createSMSProvider w) = raises (SalumSMSProvider.new None w).
Proof.
  intros Hsel. unfold createSMSProvider, bind at 1, process_env.
  fold (selector w). unfold Js.str_eqb.
  rewrite (bool_decide_eq_true_2 _ Hsel). unfold bind.
  now destruct (SalumSMSProvider.new None w) as [[p|t] w'].
Qed.

(** C6. With [SMS_PROVIDER] absent, or set to anything that does not select
    Salum, the factory returns the Mock provider. The factory throws exactly
    when Salum is selected and [SALUM_API_KEY] or [SALUM_PARTNER_ID] is
    absent or empty; the Salum constructor throws exactly when the API key
    or the partner id, from the configuration or else from the environment,
    is absent or empty. *)
Theorem createSMSProvider_construction (w : World.t) :
  (World.env w !! "SMS_PROVIDER" = None ->
   createSMSProvider w = (Normal (IsMock new_MockSMSProvider), w)) /\
  (selector w <> js "salum" ->
   exists w', createSMSProvider w = (Normal (IsMock new_MockSMSProvider), w')) /\
  (raises (createSMSProvider w) = true <->
   selector w = js "salum" /\
   (Js.truthy (World.env w !! "SALUM_API_KEY") = false \/
    Js.truthy (World.env w !! "SALUM_PARTNER_ID") = false)) /\
  (forall config : option PartialSalumConfig.t,
     raises (SalumSMSProvider.new config w) = true <->
     Js.truthy (Js.or_opt (config ≫= PartialSalumConfig.apiKey)
                          (World.env w !! "SALUM_API_KEY")) = false \/
     Js.truthy (Js.or_opt (config ≫= PartialSalumConfig.partnerId)
                          (World.env w !! "SALUM_PARTNER_ID")) = false).
Proof.
  assert (Hnew : forall config : option PartialSalumConfig.t,
             raises (SalumSMSProvider.new config w) = true <->
             Js.truthy (Js.or_opt (config ≫= PartialSalumConfig.apiKey)
                                  (World.env w !! "SALUM_API_KEY")) = false \/
             Js.truthy (Js.or_opt (config ≫= PartialSalumConfig.partnerId)
                                  (World.env w !! "SALUM_PARTNER_ID")) = false).
  { intros config. rewrite Salum_new_raises, orb_true_iff, !negb_true_iff.
    reflexivity. }
  split; [|split; [apply createSMSProvider_other | split; [|exact Hnew]]].
  - intros Habsent. unfold createSMSProvider, bind, process_env.
    rewrite Habsent. reflexivity.
  - destruct (decide (selector w = js "salum")) as [Hsel|Hsel].
    + rewrite (createSMSProvider_salum w Hsel), (Hnew None). cbn. tauto.
    + destruct (createSMSProvider_other w Hsel) as [w' ->]. cbn.
      split; [discriminate | tauto].
Qed.

(** Salum selected in capitals and no credentials in the environment. *)
Lemma createSMSProvider_construction_witness :
  raises (createSMSProvider (Sample.world {[ "SMS_PROVIDER" := js "SALUM" ]}))
  = true /\
  exists w',
    createSMSProvider (Sample.world {[ "SMS_PROVIDER" := js "twilio" ]})
    = (Normal (IsMock new_MockSMSProvider), w').
Proof.
  split.
  - apply (proj1 (proj2 (proj2
             (createSMSProvider_construction
                (Sample.world {[ "SMS_PROVIDER" := js "SALUM" ]}))))).
    split; [vm_compute; reflexivity | left; vm_compute; reflexivity].
  - apply (proj1 (proj2
             (createSMSProvider_construction
                (Sample.world {[ "SMS_PROVIDER" := js "twilio" ]})))).
    vm_compute; discriminate.
Defined.

(** ** The worker and a job of an unknown kind *)

Section UnknownKind.

Context {P : Type} `{SMSProvider P} (smsProvider : P).

Lemma declared_payload_cases (data : SMSJobData) :
  declared_type (SMSJobData_type data) = false ->
  exists type base, data = Foreign type base.
Proof.
  destruct data as [d|d|d|type base]; [discriminate..|eauto].
Qed.

Lemma processSMSJob_unknown (job : Job.t) (w : World.t) :
  let type := SMSJobData_type (Job.data job) in
  declared_type type = false ->
  processSMSJob smsProvider job w
  = (Throw (new_Error (js "Unknown SMS job type: " ++ type)),
     World.with_console
       (World.console w
        ++ [js "Processing SMS job " ++ Job.id job ++ js " of type " ++ type])
       w).
Proof.
  cbv zeta. intros Hunknown.
  destruct (declared_payload_cases _ Hunknown) as (type & base & Hdata).
  unfold processSMSJob, bind at 1, console_write. unfold bind at 1.
  rewrite Hdata in *. rewrite route_foreign. cbn [SMSJobData_type] in *.
  rewrite Hunknown. reflexivity.
Qed.

Lemma settle_plain_error (a : nat) (message : Js.str) :
  BullMQ.settle (A := ProcessResult.t)
    (QueueOptions.defaultJobOptions (Queue.options smsQueue)) a
    (Throw (new_Error message))
  = if Z.of_nat a <? 3
    then BullMQ.FailedRetryPending (2000 * 2 ^ (Z.of_nat a - 1))
    else BullMQ.FailedTerminal.
Proof. reflexivity. Qed.

Lemma attempt_unknown (job : Job.t) (w : World.t) :
  declared_type (SMSJobData_type (Job.data job)) = false ->
  exists w',
    attempt smsProvider job w
    = (if Z.of_nat (S (Job.attemptsMade job)) <? 3
       then BullMQ.FailedRetryPending
              (2000 * 2 ^ (Z.of_nat (S (Job.attemptsMade job)) - 1))
       else BullMQ.FailedTerminal,
       Job.make (Job.id job) (Job.name job) (Job.data job) (Job.opts job)
                (S (Job.attemptsMade job)),
       w').
Proof.
  intros Hunknown. unfold attempt.
  rewrite (processSMSJob_unknown job w Hunknown).
  cbn [Job.attemptsMade]. rewrite settle_plain_error.
  unfold on_failed, console_write. eexists. reflexivity.
Qed.

Lemma run_job_unknown_from (fuel : nat) :
  forall (job : Job.t) (w : World.t),
    declared_type (SMSJobData_type (Job.data job)) = false ->
    (Job.attemptsMade job < 3)%nat ->
    (3 - Job.attemptsMade job <= fuel)%nat ->
    exists job' w',
      run_job smsProvider fuel job w = (BullMQ.FailedTerminal, job', w') /\
      Job.attemptsMade job' = 3%nat.
Proof.
  induction fuel as [|fuel IH]; intros job w Hunknown Hmade Hfuel; [lia|].
  cbn [run_job].
  destruct (attempt_unknown job w Hunknown) as [w1 ->].
  destruct (Z.ltb_spec (Z.of_nat (S (Job.attemptsMade job))) 3) as [Hlt|Hge].
  - apply IH; cbn [Job.data Job.attemptsMade]; [exact Hunknown | lia | lia].
  - eexists _, _. split; [reflexivity|]. cbn [Job.attemptsMade]. lia.
Qed.

Lemma run_job_unknown (fuel : nat) (job : Job.t) (w : World.t) :
  declared_type (SMSJobData_type (Job.data job)) = false ->
  Job.attemptsMade job = 0%nat ->
  (3 <= fuel)%nat ->
  exists job' w',
    run_job smsProvider fuel job w = (BullMQ.FailedTerminal, job', w') /\
    Job.attemptsMade job' = 3%nat.
Proof.
  intros Hunknown Hfresh Hfuel. apply run_job_unknown_from; [done|lia..].
Qed.

End UnknownKind.

(** C3, as the code has it. A job whose type is not 'welcome', 'otp' or
    'notification' makes [processSMSJob] throw an ordinary [Error] whose
    message is "Unknown SMS job type: " followed by the type. The attempt is
    settled like a failed send: the job waits for its backoff delay and is
    claimed again while fewer than 3 attempts were made, and a fresh job is
    terminally failed after exactly 3 attempts. *)
Theorem unknown_type_fails_like_a_send_failure
    {P : Type} `{SMSProvider P} (smsProvider : P) (job : Job.t) (w : World.t) :
  let type := SMSJobData_type (Job.data job) in
  declared_type type = false ->
  (exists w',
     processSMSJob smsProvider job w
     = (Throw (new_Error (js "Unknown SMS job type: " ++ type)), w')) /\
  (forall reason : Js.str,
     fst (fst (attempt smsProvider job w))
     = BullMQ.settle (A := ProcessResult.t)
         (QueueOptions.defaultJobOptions (Queue.options smsQueue))
         (S (Job.attemptsMade job))
         (Throw (new_Error (js "SMS send failed: " ++ reason)))) /\
  fst (fst (attempt smsProvider job w))
  = (if Z.of_nat (S (Job.attemptsMade job)) <? 3
     then BullMQ.FailedRetryPending
            (2000 * 2 ^ (Z.of_nat (S (Job.attemptsMade job)) - 1))
     else BullMQ.FailedTerminal) /\
  (Job.attemptsMade job = 0%nat ->
   forall fuel : nat, (3 <= fuel)%nat ->
   exists job' w',
     run_job smsProvider fuel job w = (BullMQ.FailedTerminal, job', w') /\
     Job.attemptsMade job' = 3%nat).
Proof.
  cbv zeta. intros Hunknown.
  destruct (attempt_unknown smsProvider job w Hunknown) as [w' Hattempt].
  repeat split.
  - eexists. apply processSMSJob_unknown, Hunknown.
  - intros reason. rewrite Hattempt, settle_plain_error. reflexivity.
  - rewrite Hattempt. reflexivity.
  - intros Hfresh fuel Hfuel. now apply run_job_unknown.
Qed.

(** An 'email' job reaches the worker: three attempts, then terminal. *)
Lemma unknown_type_fails_like_a_send_failure_witness :
  fst (fst (attempt new_MockSMSProvider Sample.email_job (Sample.world ∅)))
  = BullMQ.FailedRetryPending 2000 /\
  exists job' w',
    run_job new_MockSMSProvider 3 Sample.email_job (Sample.world ∅)
    = (BullMQ.FailedTerminal, job', w') /\
    Job.attemptsMade job' = 3%nat.
Proof.
  pose proof (unknown_type_fails_like_a_send_failure new_MockSMSProvider
                Sample.email_job (Sample.world ∅) eq_refl)
    as (_ & _ & Hstate & Hrun).
  split; [exact Hstate|].
  exact (Hrun eq_refl 3%nat (le_n 3)).
Defined.

(** C3, as it is stated, fails: the first attempt on an 'email' job leaves
    the job waiting for a retry after 2000 ms, not terminally failed. *)
Lemma unknown_type_is_retried :
  declared_type (SMSJobData_type (Job.data Sample.email_job)) = false /\
  fst (fst (attempt new_MockSMSProvider Sample.email_job (Sample.world ∅)))
  = BullMQ.FailedRetryPending 2000 /\
  ~ (forall (job : Job.t) (w : World.t),
       declared_type (SMSJobData_type (Job.data job)) = false ->
       (exists (message : Js.str) (w' : World.t),
          processSMSJob new_MockSMSProvider job w
          = (Throw (new_Error (js "Unknown SMS job type" ++ message)), w')) /\
       fst (fst (attempt new_MockSMSProvider job w)) = BullMQ.FailedTerminal).
Proof.
  assert (Hstate :
            fst (fst (attempt new_MockSMSProvider Sample.email_job
                        (Sample.world ∅)))
            = BullMQ.FailedRetryPending 2000) by (vm_compute; reflexivity).
  split; [reflexivity|]. split; [exact Hstate|].
  intros Hclaim.
  destruct (Hclaim Sample.email_job (Sample.world ∅) eq_refl) as [_ Hfatal].
  rewrite Hstate in Hfatal. discriminate.
Qed.

(** ** Job creators and the queue *)

Section QueueFacts.

Lemma call_unfold (c : CreatorCall) :
  call c
  = (id <- jobId_or_randomUUID (call_options c);;
     timestamp <- Date_now;;
     job <- BullMQ.Queue_add smsQueue (add_name c) (add_data c id timestamp)
              (add_opts c);;
     ret {| CreatedJob.jobId := Job.id job;
            CreatedJob.queueName := Queue.name smsQueue |})%js.
Proof. destruct c; reflexivity. Qed.

Lemma find_job_id (k : Js.str) (q : list Job.t) (j : Job.t) :
  BullMQ.find_job k q = Some j -> Job.id j = k.
Proof.
  unfold BullMQ.find_job. intros Hfind.
  apply find_some in Hfind as [_ Hid].
  now apply bool_decide_eq_true in Hid.
Qed.

Lemma count_id_snoc (k : Js.str) (q : list Job.t) (j : Job.t) :
  count_id k (q ++ [j])
  = (count_id k q + if Js.str_eqb (Job.id j) k then 1 else 0)%nat.
Proof.
  unfold count_id. rewrite List.filter_app, List.length_app. cbn.
  now destruct (Js.str_eqb (Job.id j) k).
Qed.

Lemma find_job_none_count (k : Js.str) (q : list Job.t) :
  BullMQ.find_job k q = None -> count_id k q = 0%nat.
Proof.
  unfold BullMQ.find_job, count_id.
  induction q as [|j q IH]; cbn; [reflexivity|].
  destruct (Js.str_eqb (Job.id j) k); [discriminate | exact IH].
Qed.

Lemma find_job_some_count (k : Js.str) (q : list Job.t) (j : Job.t) :
  BullMQ.find_job k q = Some j -> (1 <= count_id k q)%nat.
Proof.
  unfold BullMQ.find_job, count_id.
  induction q as [|x q IH]; cbn; [discriminate|].
  destruct (Js.str_eqb (Job.id x) k); cbn; [lia | exact IH].
Qed.

Lemma find_job_snoc_self (k : Js.str) (q : list Job.t) (j : Job.t) :
  Job.id j = k -> BullMQ.find_job k (q ++ [j]) <> None.
Proof.
  intros Hid Hnone. unfold BullMQ.find_job in Hnone.
  assert (Hin : In j (q ++ [j])) by (apply in_or_app; right; now left).
  pose proof (find_none _ _ Hnone j Hin) as Hno.
  unfold Js.str_eqb in Hno. now apply bool_decide_eq_false in Hno.
Qed.

(** A call that carries the key [k]. *)
Lemma call_with_key (c : CreatorCall) (k : Js.str) (w : World.t) :
  opt_jobId (call_options c) = Some k -> k <> [] ->
  World.backend_up w = true ->
  call c w
  = (Normal (CreatedJob.make k SMS_QUEUE_NAME),
     match BullMQ.find_job k (World.queue w) with
     | Some _ => w
     | None =>
         World.with_queue
           (World.queue w
            ++ [Job.make k (add_name c) (add_data c k (World.clock w))
                  (add_opts c) 0])
           (World.jobCounter w) w
     end).
Proof.
  intros Hkey Hk Hup. rewrite call_unfold.
  unfold bind, jobId_or_randomUUID. rewrite Hkey.
  destruct k as [|u k]; [congruence|].
  unfold ret at 1, Date_now, BullMQ.Queue_add. rewrite Hup.
  cbn [negb add_opts JobOptions.jobId]. rewrite Hkey.
  destruct (BullMQ.find_job (u :: k) (World.queue w)) as [j|] eqn:Hfind.
  - unfold ret. now rewrite (find_job_id _ _ _ Hfind).
  - reflexivity.
Qed.

(** A call that the queue accepts appends exactly one job, built from the
    arguments of the call. *)
Lemma call_accepted (c : CreatorCall) (w : World.t) :
  accepts (call_options c) w ->
  exists (id id' : Js.str) (w' : World.t),
    call c w = (Normal (CreatedJob.make id SMS_QUEUE_NAME), w') /\
    World.queue w'
    = World.queue w
      ++ [Job.make id (add_name c) (add_data c id' (World.clock w))
            (add_opts c) 0].
Proof.
  intros [Hup Hfree]. rewrite call_unfold.
  unfold bind, jobId_or_randomUUID, Date_now, BullMQ.Queue_add, ret,
    crypto_randomUUID, draw.
  cbn [add_opts JobOptions.jobId].
  destruct (opt_jobId (call_options c)) as [[|u k]|];
    cbn [World.backend_up World.with_drawn World.queue World.clock];
    rewrite Hup; cbn [negb World.queue World.with_drawn];
    try rewrite Hfree; eexists _, _, _; split; reflexivity.
Qed.

(** Whatever a call returns, the queue is as before or one job longer. *)
Lemma call_queue (c : CreatorCall) (w : World.t) :
  World.queue (snd (call c w)) = World.queue w \/
  exists (id id' : Js.str) (timestamp : Z),
    World.queue (snd (call c w))
    = World.queue w
      ++ [Job.make id (add_name c) (add_data c id' timestamp) (add_opts c) 0].
Proof.
  rewrite call_unfold.
  unfold bind, jobId_or_randomUUID, Date_now, BullMQ.Queue_add, ret,
    crypto_randomUUID, draw.
  cbn [add_opts JobOptions.jobId].
  destruct (opt_jobId (call_options c)) as [[|u k]|];
    cbn [World.backend_up World.with_drawn World.queue World.clock];
    destruct (World.backend_up w); cbn [negb snd]; auto;
    try destruct (BullMQ.find_job _ _); cbn [snd World.queue World.with_queue];
    auto; right; eexists _, _, _; reflexivity.
Qed.

Lemma or_num_default_nonzero (a : option Z) : Js.or_num a 1 <> 0.
Proof.
  destruct a as [n|]; cbn; [|lia].
  destruct (Z.eqb_spec n 0); lia.
Qed.

End QueueFacts.

(** C4. Two creator calls with the same non-empty [jobId], the second made
    while the job of the first is still in the queue: both return that id
    and the queue's name, the second call changes nothing, and the queue
    holds one job under the id. *)
Theorem enqueue_idempotent
    (c1 c2 : CreatorCall) (k : Js.str) (w : World.t) :
  opt_jobId (call_options c1) = Some k ->
  opt_jobId (call_options c2) = Some k ->
  k <> [] ->
  World.backend_up w = true ->
  let created := CreatedJob.make k SMS_QUEUE_NAME in
  let w1 := snd (call c1 w) in
  fst (call c1 w) = Normal created /\
  call c2 w1 = (Normal created, w1) /\
  ((count_id k (World.queue w) <= 1)%nat -> count_id k (World.queue w1) = 1%nat) /\
  (forall w' : World.t,
     World.backend_up w' = true ->
     BullMQ.find_job k (World.queue w') <> None ->
     call c2 w' = (Normal created, w')).
Proof.
  intros Hk1 Hk2 Hk Hup. cbv zeta.
  assert (Hpending : forall w' : World.t,
             World.backend_up w' = true ->
             BullMQ.find_job k (World.queue w') <> None ->
             call c2 w' = (Normal (CreatedJob.make k SMS_QUEUE_NAME), w')).
  { intros w' Hup' Hfind. rewrite (call_with_key c2 k w' Hk2 Hk Hup').
    now destruct (BullMQ.find_job k (World.queue w')). }
  rewrite (call_with_key c1 k w Hk1 Hk Hup). cbn [fst snd].
  split; [reflexivity|]. split; [|split; [|exact Hpending]].
  - destruct (BullMQ.find_job k (World.queue w)) as [j|] eqn:Hfind.
    + apply Hpending; [exact Hup | congruence].
    + apply Hpending; [exact Hup | now apply find_job_snoc_self].
  - intros Hone.
    destruct (BullMQ.find_job k (World.queue w)) as [j|] eqn:Hfind.
    + pose proof (find_job_some_count _ _ _ Hfind). lia.
    + cbn [World.queue World.with_queue]. rewrite count_id_snoc.
      rewrite (find_job_none_count _ _ Hfind). cbn [Job.id].
      unfold Js.str_eqb. now rewrite bool_decide_eq_true_2.
Qed.

(** An OTP and a welcome job under the key "otp-1", on an empty queue. *)
Lemma enqueue_idempotent_witness :
  let w1 :=
    snd (call (CallOTP Sample.otp_params (Sample.keyed (js "otp-1")))
              (Sample.world ∅)) in
  call (CallWelcome Sample.welcome_params (Sample.keyed (js "otp-1"))) w1
  = (Normal (CreatedJob.make (js "otp-1") SMS_QUEUE_NAME), w1) /\
  count_id (js "otp-1") (World.queue w1) = 1%nat.
Proof.
  pose proof (enqueue_idempotent
                (CallOTP Sample.otp_params (Sample.keyed (js "otp-1")))
                (CallWelcome Sample.welcome_params (Sample.keyed (js "otp-1")))
                (js "otp-1") (Sample.world ∅) eq_refl eq_refl
                ltac:(discriminate) eq_refl)
    as (_ & Hsecond & Hcount & _).
  split; [exact Hsecond|]. apply Hcount. cbn. lia.
Defined.

(** ** Priorities *)

(** C8. When the caller gives no priority, [createOTPSMSJob] enqueues its
    job with priority 1. [createWelcomeSMSJob] and
    [createNotificationSMSJob] enqueue with the priority of the caller's
    options, which is no priority at all when the caller gave none. *)
Theorem otp_priority_defaults_to_one :
  (forall (params : CreateOTPSMSJobParams.t) (options : option JobOptions.t)
          (w : World.t),
     opt_priority options = None -> accepts options w ->
     exists job : Job.t,
       World.queue (snd (createOTPSMSJob params options w))
       = World.queue w ++ [job] /\
       is_otp_job job = true /\
       JobOptions.priority (Job.opts job) = Some 1) /\
  (forall (params : CreateWelcomeSMSJobParams.t) (options : option JobOptions.t)
          (w : World.t),
     accepts options w ->
     exists job : Job.t,
       World.queue (snd (createWelcomeSMSJob params options w))
       = World.queue w ++ [job] /\
       JobOptions.priority (Job.opts job) = opt_priority options) /\
  (forall (params : CreateNotificationSMSJobParams.t)
          (options : option JobOptions.t) (w : World.t),
     accepts options w ->
     exists job : Job.t,
       World.queue (snd (createNotificationSMSJob params options w))
       = World.queue w ++ [job] /\
       JobOptions.priority (Job.opts job) = opt_priority options).
Proof.
  split; [|split].
  - intros params options w Hnone Hacc.
    destruct (call_accepted (CallOTP params options) w Hacc)
      as (id & id' & w' & Hcall & Hqueue).
    cbn [call] in Hcall. rewrite Hcall. cbn [snd]. eexists. split; [exact Hqueue|].
    split; [reflexivity|]. cbn. now rewrite Hnone.
  - intros params options w Hacc.
    destruct (call_accepted (CallWelcome params options) w Hacc)
      as (id & id' & w' & Hcall & Hqueue).
    cbn [call] in Hcall. rewrite Hcall. cbn [snd]. eexists. split; [exact Hqueue|].
    reflexivity.
  - intros params options w Hacc.
    destruct (call_accepted (CallNotification params options) w Hacc)
      as (id & id' & w' & Hcall & Hqueue).
    cbn [call] in Hcall. rewrite Hcall. cbn [snd]. eexists. split; [exact Hqueue|].
    reflexivity.
Qed.

(** An OTP job created without options on an empty queue. *)
Lemma otp_priority_defaults_to_one_witness :
  exists job : Job.t,
    World.queue (snd (createOTPSMSJob Sample.otp_params None (Sample.world ∅)))
    = World.queue (Sample.world ∅) ++ [job] /\
    is_otp_job job = true /\
    JobOptions.priority (Job.opts job) = Some 1.
Proof.
  apply (proj1 otp_priority_defaults_to_one Sample.otp_params None
           (Sample.world ∅) eq_refl).
  split; [reflexivity | exact I].
Defined.

(** C10. A caller's priority 0 is replaced by 1 when [createOTPSMSJob]
    enqueues, and whatever sequence of creator calls is made, no OTP job
    that they put in the queue has priority 0. *)
Theorem otp_priority_never_zero :
  (forall (params : CreateOTPSMSJobParams.t) (options : option JobOptions.t)
          (w : World.t),
     opt_priority options = Some 0 -> accepts options w ->
     exists job : Job.t,
       World.queue (snd (createOTPSMSJob params options w))
       = World.queue w ++ [job] /\
       is_otp_job job = true /\
       JobOptions.priority (Job.opts job) = Some 1) /\
  (forall (calls : list CreatorCall) (w : World.t),
     (forall job : Job.t,
        In job (World.queue w) -> is_otp_job job = true ->
        JobOptions.priority (Job.opts job) <> Some 0) ->
     forall job : Job.t,
       In job (World.queue (after_calls calls w)) -> is_otp_job job = true ->
       JobOptions.priority (Job.opts job) <> Some 0).
Proof.
  split.
  - intros params options w Hzero Hacc.
    destruct (call_accepted (CallOTP params options) w Hacc)
      as (id & id' & w' & Hcall & Hqueue).
    cbn [call] in Hcall. rewrite Hcall. cbn [snd]. eexists. split; [exact Hqueue|].
    split; [reflexivity|]. cbn. now rewrite Hzero.
  - induction calls as [|c calls IH]; intros w Hinv; [exact Hinv|].
    cbn [after_calls]. apply IH.
    intros job Hin Hotp.
    destruct (call_queue c w) as [Hsame|(id & id' & timestamp & Hmore)].
    + rewrite Hsame in Hin. now apply Hinv.
    + rewrite Hmore in Hin. apply in_app_or in Hin as [Hin|[<-|[]]];
        [now apply Hinv|].
      destruct c as [params options|params options|params options];
        try discriminate Hotp.
      cbn. intros Hprio. injection Hprio as Hprio.
      now apply (or_num_default_nonzero (opt_priority options)).
Qed.

(** An OTP job asked for with priority 0, on an empty queue. *)
Lemma otp_priority_never_zero_witness :
  (exists job : Job.t,
     World.queue (snd (createOTPSMSJob Sample.otp_params
                         (Sample.with_priority 0) (Sample.world ∅)))
     = World.queue (Sample.world ∅) ++ [job] /\
     is_otp_job job = true /\
     JobOptions.priority (Job.opts job) = Some 1) /\
  (forall job : Job.t,
     In job (World.queue
               (after_calls
                  [CallOTP Sample.otp_params (Sample.with_priority 0);
                   CallWelcome Sample.welcome_params (Sample.with_priority 0)]
                  (Sample.world ∅))) ->
     is_otp_job job = true ->
     JobOptions.priority (Job.opts job) <> Some 0).
Proof.
  split.
  - apply (proj1 otp_priority_never_zero Sample.otp_params
             (Sample.with_priority 0) (Sample.world ∅) eq_refl).
    split; [reflexivity | exact I].
  - apply (proj2 otp_priority_never_zero).
    intros job [].
Defined.

(** * Further properties *)

(** ** The phone number normaliser, beyond the four sample forms *)

Lemma removeSeparators_id (s : Js.str) :
  (forall c, In c s -> Phone.is_separator c = false) ->
  Phone.removeSeparators s = s.
Proof.
  unfold Phone.removeSeparators. induction s as [|c s IH]; intros Hs; cbn.
  - reflexivity.
  - rewrite (Hs c (or_introl eq_refl)). cbn. f_equal. apply IH.
    intros x Hx. apply Hs. now right.
Qed.

Lemma removeSeparators_app (s t : Js.str) :
  Phone.removeSeparators (s ++ t)
  = Phone.removeSeparators s ++ Phone.removeSeparators t.
Proof. apply List.filter_app. Qed.

Lemma normalizePhoneNumber_eq_canonical (phone : Js.str) :
  Phone.normalizePhoneNumber phone = Phone.canonical phone.
Proof.
  unfold Phone.normalizePhoneNumber, Phone.canonical.
  rewrite strip_plus_is_dropPlus.
  set (d := Phone.dropPlus (Phone.removeSeparators phone)).
  rewrite js_zero, startsWith_unit.
  destruct d as [|c r]; [reflexivity|].
  destruct (c =? 48)%N; [reflexivity|].
  now destruct (Js.startsWith (c :: r) (js "254")),
               (length (c :: r) =? 9)%nat.
Qed.

Lemma normalize_prefixed (r : Js.str) :
  Phone.normalizePhoneNumber (js "0" ++ r)
  = js "254" ++ Phone.removeSeparators r /\
  Phone.normalizePhoneNumber (js "254" ++ r)
  = js "254" ++ Phone.removeSeparators r /\
  Phone.normalizePhoneNumber (js "+254" ++ r)
  = js "254" ++ Phone.removeSeparators r.
Proof.
  split; [|split];
    rewrite normalizePhoneNumber_eq_canonical; unfold Phone.canonical;
    rewrite removeSeparators_app; reflexivity.
Qed.

(** X1. However the rest of the number is written, a trunk prefix 0, a
    country code 254 and +254 lead to the same result: 254 followed by the
    rest without its separators. A bare number of nine characters joins
    them when it starts with none of +, 0 and 254. *)
Theorem normalizePhoneNumber_forms_agree (r : Js.str) :
  Phone.normalizePhoneNumber (js "0" ++ r)
  = js "254" ++ Phone.removeSeparators r /\
  Phone.normalizePhoneNumber (js "254" ++ r)
  = js "254" ++ Phone.removeSeparators r /\
  Phone.normalizePhoneNumber (js "+254" ++ r)
  = js "254" ++ Phone.removeSeparators r /\
  (length (Phone.removeSeparators r) = 9%nat ->
   Js.startsWith (Phone.removeSeparators r) (js "+") = false ->
   Js.startsWith (Phone.removeSeparators r) (js "0") = false ->
   Js.startsWith (Phone.removeSeparators r) (js "254") = false ->
   Phone.normalizePhoneNumber r = js "254" ++ Phone.removeSeparators r).
Proof.
  destruct (normalize_prefixed r) as (Hzero & H254 & Hplus).
  split; [exact Hzero|]. split; [exact H254|]. split; [exact Hplus|].
  intros Hlen Hnoplus Hnozero Hno254.
  rewrite normalizePhoneNumber_eq_canonical. unfold Phone.canonical.
  rewrite js_plus, startsWith_unit in Hnoplus.
  rewrite js_zero, startsWith_unit in Hnozero.
  destruct (Phone.removeSeparators r) as [|c d] eqn:Hd; [discriminate|].
  cbn [Phone.dropPlus]. rewrite Hnoplus, Hnozero, Hno254.
  cbn [length] in *. now rewrite Hlen.
Qed.

(** A bare nine-digit number written with spaces. *)
Lemma normalizePhoneNumber_forms_agree_witness :
  Phone.normalizePhoneNumber (js "712 345 678") = js "254712345678".
Proof.
  exact (proj2 (proj2 (proj2 (normalizePhoneNumber_forms_agree
                                (js "712 345 678"))))
           eq_refl eq_refl eq_refl eq_refl).
Defined.

Lemma canonical_steps (phone : Js.str) :
  Phone.normalizePhoneNumber phone
  = withCountryCode (Phone.dropPlus (Phone.removeSeparators phone)).
Proof. now rewrite normalizePhoneNumber_eq_canonical. Qed.

Lemma dropPlus_no_plus (s : Js.str) :
  Js.startsWith s (js "+") = false -> Phone.dropPlus s = s.
Proof.
  rewrite js_plus, startsWith_unit. destruct s as [|c r]; [reflexivity|].
  cbn. now intros ->.
Qed.

Lemma normalize_clean (d : Js.str) :
  (forall c, In c d -> Phone.is_separator c = false) ->
  Js.startsWith d (js "+") = false ->
  Phone.normalizePhoneNumber d = withCountryCode d.
Proof.
  intros Hclean Hplus.
  now rewrite canonical_steps, (removeSeparators_id d Hclean), dropPlus_no_plus.
Qed.

Lemma withCountryCode_clean (d : Js.str) :
  (forall c, In c d -> Phone.is_separator c = false) ->
  forall c, In c (withCountryCode d) -> Phone.is_separator c = false.
Proof.
  intros Hclean c. unfold withCountryCode.
  destruct d as [|x r]; [intros []|].
  assert (Hpre : forall s : Js.str,
             (forall y, In y s -> Phone.is_separator y = false) ->
             In c (js "254" ++ s) -> Phone.is_separator c = false).
  { intros s Hs Hin. apply in_app_or in Hin as [Hin|Hin];
      [now apply country_code_no_separator | now apply Hs]. }
  destruct (x =? 48)%N.
  - apply Hpre. intros y Hy. apply Hclean. now right.
  - destruct (Js.startsWith (x :: r) (js "254")); [apply Hclean|].
    destruct (length (x :: r) =? 9)%nat; [now apply Hpre | apply Hclean].
Qed.

Lemma withCountryCode_fixed (d : Js.str) :
  Js.startsWith d (js "+") = false ->
  withCountryCode (withCountryCode d) = withCountryCode d /\
  Js.startsWith (withCountryCode d) (js "+") = false.
Proof.
  intros Hplus.
  assert (Hkeep : withCountryCode d = d ->
                  withCountryCode (withCountryCode d) = withCountryCode d /\
                  Js.startsWith (withCountryCode d) (js "+") = false).
  { intros Hsame. rewrite !Hsame. now split. }
  destruct d as [|x r]; [now apply Hkeep|].
  destruct (x =? 48)%N eqn:Hzero.
  - replace (withCountryCode (x :: r)) with (js "254" ++ r)
      by (cbn [withCountryCode]; now rewrite Hzero).
    split; reflexivity.
  - destruct (Js.startsWith (x :: r) (js "254")) eqn:H254.
    + apply Hkeep. cbn [withCountryCode]. now rewrite Hzero, H254.
    + destruct (length (x :: r) =? 9)%nat eqn:Hlen.
      * replace (withCountryCode (x :: r)) with (js "254" ++ x :: r)
          by (cbn [withCountryCode]; now rewrite Hzero, H254, Hlen).
        split; reflexivity.
      * apply Hkeep. cbn [withCountryCode]. now rewrite Hzero, H254, Hlen.
Qed.

Lemma startsWith_cons (c : N) (s p : Js.str) :
  Js.startsWith (c :: s) (c :: p) = Js.startsWith s p.
Proof. cbn [Js.startsWith]. now rewrite N.eqb_refl. Qed.

(** X2. Normalising a normalised number changes nothing, provided the
    number does not start with two plus signs once its separators are
    gone. The condition is needed: "++712345678" comes out as "+712345678",
    which normalises further to "254712345678". *)
Theorem normalizePhoneNumber_idempotent :
  (forall phone : Js.str,
     Js.startsWith (Phone.removeSeparators phone) (js "++") = false ->
     Phone.normalizePhoneNumber (Phone.normalizePhoneNumber phone)
     = Phone.normalizePhoneNumber phone) /\
  Phone.normalizePhoneNumber (js "++712345678") = js "+712345678" /\
  Phone.normalizePhoneNumber (js "+712345678") = js "254712345678".
Proof.
  split; [|split; reflexivity].
  intros phone Htwo.
  rewrite (canonical_steps phone).
  set (d := Phone.dropPlus (Phone.removeSeparators phone)).
  assert (Hclean : forall c, In c d -> Phone.is_separator c = false).
  { intros c Hc. apply (removeSeparators_clean phone), dropPlus_incl, Hc. }
  assert (Hplus : Js.startsWith d (js "+") = false).
  { subst d. revert Htwo. rewrite js_plus.
    destruct (Phone.removeSeparators phone) as [|x r]; [reflexivity|].
    change (js "++") with [43%N; 43%N]. cbn [Phone.dropPlus].
    destruct (N.eqb_spec x 43) as [->|Hx].
    - now rewrite startsWith_cons.
    - intros _. rewrite startsWith_unit. now apply N.eqb_neq. }
  destruct (withCountryCode_fixed d Hplus) as [Hfix Hplus'].
  rewrite normalize_clean; [exact Hfix | | exact Hplus'].
  now apply withCountryCode_clean.
Qed.

(** A local number written with a dash. *)
Lemma normalizePhoneNumber_idempotent_witness :
  Phone.normalizePhoneNumber (Phone.normalizePhoneNumber (js "0712-345678"))
  = Phone.normalizePhoneNumber (js "0712-345678").
Proof.
  exact (proj1 normalizePhoneNumber_idempotent (js "0712-345678") eq_refl).
Defined.

(** X3. The result carries the country code exactly when the number, its
    separators and one plus sign removed, starts with 0 or with 254 or is
    nine characters long. Every other number is handed on as it is, without
    country code and without an error. *)
Theorem normalizePhoneNumber_country_code (phone : Js.str) :
  let d := Phone.dropPlus (Phone.removeSeparators phone) in
  let coded :=
    Js.startsWith d (js "0") || Js.startsWith d (js "254")
    || (length d =? 9)%nat in
  Js.startsWith (Phone.normalizePhoneNumber phone) (js "254") = coded /\
  (coded = false -> Phone.normalizePhoneNumber phone = d).
Proof.
  cbv zeta. rewrite canonical_steps.
  set (d := Phone.dropPlus (Phone.removeSeparators phone)).
  rewrite js_zero, startsWith_unit. unfold withCountryCode.
  destruct d as [|x r]; [now split|].
  destruct (x =? 48)%N; [now split|].
  destruct (Js.startsWith (x :: r) (js "254")) eqn:H254; [now split|].
  destruct (length (x :: r) =? 9)%nat; [now split|].
  cbn [orb]. now rewrite H254.
Qed.

(** Eight digits: too short to be taken for a bare local number. *)
Lemma normalizePhoneNumber_country_code_witness :
  Phone.normalizePhoneNumber (js "7123 4567") = js "71234567".
Proof.
  exact (proj2 (normalizePhoneNumber_country_code (js "7123 4567")) eq_refl).
Defined.

(** ** The Salum provider, beyond its failure modes *)

Lemma or_str_truthy (a : option Js.str) (b : Js.str) :
  Js.truthy a = true -> Some (Js.or_str a b) = a.
Proof. now destruct a as [[|c s]|]. Qed.

Lemma or_str_falsy (a : option Js.str) (b : Js.str) :
  Js.truthy a = false -> Js.or_str a b = b.
Proof. now destruct a as [[|c s]|]. Qed.

Lemma or_opt_truthy (a b : option Js.str) :
  Js.truthy a = true -> Js.or_opt a b = a.
Proof. unfold Js.or_opt. now intros ->. Qed.

Lemma or_opt_falsy (a b : option Js.str) :
  Js.truthy a = false -> Js.or_opt a b = b.
Proof. unfold Js.or_opt. now intros ->. Qed.

Lemma truthy_nonempty (s : Js.str) : Js.truthy (Some s) = true -> s <> [].
Proof. now destruct s. Qed.

(** X4. A provider that the constructor returns has a non-empty API key,
    partner id, shortcode and URL. Each of the first three is the value of
    the configuration when that is given and not empty, and else the value
    of the environment; the shortcode falls back to "BURETI-TEA". The
    constructor changes nothing in the world. *)
Theorem SalumSMSProvider_new_postcondition
    (config : option PartialSalumConfig.t) (w w' : World.t)
    (p : SalumSMSProvider.t) :
  SalumSMSProvider.new config w = (Normal p, w') ->
  let c := SalumSMSProvider.config p in
  w' = w /\
  Some (SalumConfig.apiKey c)
  = Js.or_opt (config ≫= PartialSalumConfig.apiKey)
              (World.env w !! "SALUM_API_KEY") /\
  Some (SalumConfig.partnerId c)
  = Js.or_opt (config ≫= PartialSalumConfig.partnerId)
              (World.env w !! "SALUM_PARTNER_ID") /\
  SalumConfig.shortcode c
  = Js.or_str (Js.or_opt (config ≫= PartialSalumConfig.shortcode)
                         (World.env w !! "SALUM_SHORTCODE")) (js "BURETI-TEA") /\
  SalumConfig.apiKey c <> [] /\ SalumConfig.partnerId c <> [] /\
  SalumConfig.shortcode c <> [] /\ SalumConfig.apiUrl c <> [].
Proof.
  unfold SalumSMSProvider.new, bind, process_env.
  cbn [SalumConfig.apiKey SalumConfig.partnerId].
  rewrite !truthy_or_empty.
  destruct (Js.truthy (Js.or_opt (config ≫= PartialSalumConfig.apiKey) _))
    eqn:Hkey; [|discriminate].
  destruct (Js.truthy (Js.or_opt (config ≫= PartialSalumConfig.partnerId) _))
    eqn:Hid; [|discriminate].
  cbn [negb orb]. unfold ret. intros [= <- <-]. cbv zeta.
  cbn [SalumSMSProvider.config SalumConfig.apiKey SalumConfig.partnerId
       SalumConfig.shortcode SalumConfig.apiUrl].
  rewrite !or_str_truthy by assumption.
  repeat split.
  - apply truthy_nonempty. rewrite or_str_truthy; assumption.
  - apply truthy_nonempty. rewrite or_str_truthy; assumption.
  - now apply or_str_nonempty.
  - now apply or_str_nonempty.
Qed.

(** The key comes from the configuration, the partner id from the
    environment. *)
Lemma SalumSMSProvider_new_postcondition_witness :
  SalumConfig.apiKey (SalumSMSProvider.config Sample.salum) <> [] /\
  SalumConfig.partnerId (SalumSMSProvider.config Sample.salum) <> [].
Proof.
  pose proof (SalumSMSProvider_new_postcondition
                (Some (PartialSalumConfig.make (Some (js "key")) None None None))
                (Sample.world {[ "SALUM_PARTNER_ID" := js "42" ]})
                (Sample.world {[ "SALUM_PARTNER_ID" := js "42" ]})
                Sample.salum eq_refl)
    as (_ & _ & _ & _ & Hkey & Hid & _).
  exact (conj Hkey Hid).
Defined.

(** X5. Whether a number is written with a trunk prefix 0, with 254 or
    with +254, and whatever separators the rest of it is written with, the
    gateway is sent the same mobile number, 254 followed by the rest without
    its separators, and [send] gives the same result. *)
Theorem SalumSMSProvider_send_forms_agree
    (self : SalumSMSProvider.t) (r message : Js.str) (w : World.t) :
  let mobile (phoneNumber : Js.str) :=
    SalumRequest.mobile
      (HttpRequest.body (SalumSMSProvider.request self phoneNumber message)) in
  (mobile (js "0" ++ r) = js "254" ++ Phone.removeSeparators r /\
   mobile (js "254" ++ r) = js "254" ++ Phone.removeSeparators r /\
   mobile (js "+254" ++ r) = js "254" ++ Phone.removeSeparators r) /\
  SalumSMSProvider.send self (js "0" ++ r) message w
  = SalumSMSProvider.send self (js "254" ++ r) message w /\
  SalumSMSProvider.send self (js "+254" ++ r) message w
  = SalumSMSProvider.send self (js "254" ++ r) message w.
Proof.
  destruct (normalize_prefixed r) as (Hzero & H254 & Hplus). cbv zeta.
  unfold SalumSMSProvider.send, SalumSMSProvider.request.
  cbn [HttpRequest.body SalumRequest.mobile].
  rewrite Hzero, H254, Hplus. repeat split.
Qed.

(** ** The worker on a job of a declared kind *)

Section DeclaredKind.

Context {P : Type} `{SMSProvider P} (smsProvider : P).

(** The processor once the template is rendered: the provider is called
    with the template's phone number and message; a result without success
    becomes a thrown error, and what the provider throws is passed on. *)
Lemma processSMSJob_declared (job : Job.t) (template : TemplateResult.t)
    (w : World.t) :
  route (Job.data job) = ret template ->
  processSMSJob smsProvider job w
  = match send smsProvider
            (SMSRecipient.phoneNumber (TemplateResult.recipient template))
            (TemplateResult.message template)
            (World.with_console
               (World.console w
                ++ [js "Processing SMS job " ++ Job.id job ++ js " of type "
                    ++ SMSJobData_type (Job.data job)]) w) with
    | (Normal result, w2) =>
        if SMSResult.success result then
          (Normal {| ProcessResult.success := true;
                     ProcessResult.jobId := Job.id job;
                     ProcessResult.messageId := SMSResult.messageId result;
                     ProcessResult.provider := SMSResult.provider result |},
           World.with_console
             (World.console w2
              ++ [js "Successfully sent SMS job " ++ Job.id job ++ js " via "
                  ++ SMSResult.provider result ++ js ", messageId: "
                  ++ Js.of_optional (SMSResult.messageId result)]) w2)
        else
          (Throw (new_Error (js "SMS send failed: "
                             ++ Js.of_optional (SMSResult.error result))), w2)
    | (Throw t, w2) => (Throw t, w2)
    end.
Proof.
  intros Hroute. unfold processSMSJob, bind at 1, console_write.
  unfold bind at 1. rewrite Hroute. unfold ret at 1. unfold bind at 1.
  destruct (send smsProvider _ _ _) as [[result|t] w2]; [|reflexivity].
  now destruct (SMSResult.success result).
Qed.

End DeclaredKind.

Lemma salum_send_cases (self : SalumSMSProvider.t) (phoneNumber message : Js.str)
    (w : World.t) :
  SalumSMSProvider.send self phoneNumber message w
  = (Normal
       match scenario (World.network w
                         (SalumSMSProvider.request self phoneNumber message)) with
       | NetworkFailure t | BodyFailure t =>
           SMSResult.make false None (Some (SalumSMSProvider.error_text t))
                          (js "salum")
       | HttpFailure status =>
           SMSResult.make false None
             (Some (js "HTTP error! status: " ++ Js.of_number status))
             (js "salum")
       | EmptyResponseList =>
           SMSResult.make false None (Some (js "No response from Salum API"))
                          (js "salum")
       | GatewayRejected result =>
           SMSResult.make false None
             (Some (Js.or_str (Some (SalumEntry.response_description result))
                              (js "Unknown error")))
             (js "salum")
       | GatewayAccepted result =>
           SMSResult.make true (Js.of_number <$> SalumEntry.messageid result)
                          None (js "salum")
       end, w).
Proof.
  unfold SalumSMSProvider.send, try_catch, bind, fetch, scenario.
  destruct (World.network w _) as [t|r]; [reflexivity|].
  unfold Response.ok.
  destruct (Z.leb_spec 200 (Response.status r)) as [Hlo|Hlo];
    destruct (Z.leb_spec (Response.status r) 299) as [Hhi|Hhi];
    cbn [andb negb];
    (destruct (Z.ltb_spec (Response.status r) 200);
     destruct (Z.ltb_spec 299 (Response.status r)); try lia);
    cbn [orb]; try reflexivity.
  unfold Response_json.
  destruct (Response.json r) as [t|[[[|entry rest]|]]]; try reflexivity.
  cbn. now destruct (SalumEntry.respose_code entry =? 200).
Qed.

(** X6. The worker with the Salum provider, on a job of a declared kind.
    The provider's [send] returns a result and changes nothing. When the
    gateway call fails in any way, that result carries an error text (the
    thrown message, "HTTP error! status: " and the status, "No response
    from Salum API", or the gateway's description), and the processor
    throws an ordinary error "SMS send failed: " followed by exactly that
    text, having logged its first line only. When the gateway accepts, the
    processor logs a second line and returns the job's id, the provider
    name "salum" and the gateway's message id as a string. *)
Theorem processSMSJob_with_salum
    (self : SalumSMSProvider.t) (job : Job.t) (template : TemplateResult.t)
    (w : World.t) :
  route (Job.data job) = ret template ->
  let phoneNumber :=
    SMSRecipient.phoneNumber (TemplateResult.recipient template) in
  let message := TemplateResult.message template in
  let s :=
    scenario (World.network w
                (SalumSMSProvider.request self phoneNumber message)) in
  let w1 :=
    World.with_console
      (World.console w
       ++ [js "Processing SMS job " ++ Job.id job ++ js " of type "
           ++ SMSJobData_type (Job.data job)]) w in
  exists result : SMSResult.t,
    SalumSMSProvider.send self phoneNumber message w1 = (Normal result, w1) /\
    SMSResult.success result = negb (is_failure s) /\
    (is_failure s = true ->
     exists e : Js.str,
       SMSResult.error result = Some e /\
       match s with
       | NetworkFailure t | BodyFailure t =>
           e = SalumSMSProvider.error_text t
       | HttpFailure status =>
           e = js "HTTP error! status: " ++ Js.of_number status
       | EmptyResponseList => e = js "No response from Salum API"
       | GatewayRejected entry =>
           e = Js.or_str (Some (SalumEntry.response_description entry))
                         (js "Unknown error")
       | GatewayAccepted _ => False
       end /\
       (engine_describes s -> e <> []) /\
       processSMSJob self job w
       = (Throw (new_Error (js "SMS send failed: " ++ e)), w1)) /\
    (forall entry : SalumEntry.t,
       s = GatewayAccepted entry ->
       SMSResult.messageId result
       = Js.of_number <$> SalumEntry.messageid entry /\
       processSMSJob self job w
       = (Normal {| ProcessResult.success := true;
                    ProcessResult.jobId := Job.id job;
                    ProcessResult.messageId :=
                      Js.of_number <$> SalumEntry.messageid entry;
                    ProcessResult.provider := js "salum" |},
          World.with_console
            (World.console w1
             ++ [js "Successfully sent SMS job " ++ Job.id job
                 ++ js " via salum, messageId: "
                 ++ Js.of_optional
                      (Js.of_number <$> SalumEntry.messageid entry)]) w1)).
Proof.
  intros Hroute. cbv zeta.
  rewrite (processSMSJob_declared self job template w Hroute).
  change (send self) with (SalumSMSProvider.send self).
  rewrite salum_send_cases. cbn [World.network World.with_console].
  eexists. split; [reflexivity|].
  destruct (scenario _) as [t|status|t| |entry|entry]; cbn [is_failure negb];
    (split; [reflexivity|]);
    (split; [intros Hfail | intros entry' Hentry]);
    try discriminate; cbn [SMSResult.success SMSResult.error Js.of_optional].
  - eexists. split; [reflexivity|]. split; [reflexivity|].
    split; [|reflexivity]. destruct t; cbn; [auto|discriminate].
  - eexists. split; [reflexivity|]. split; [reflexivity|].
    split; [|reflexivity]. discriminate.
  - eexists. split; [reflexivity|]. split; [reflexivity|].
    split; [|reflexivity]. destruct t; cbn; [auto|discriminate].
  - eexists. split; [reflexivity|]. split; [reflexivity|].
    split; [|reflexivity]. discriminate.
  - eexists. split; [reflexivity|]. split; [reflexivity|].
    split; [|reflexivity]. intros _. now apply (or_str_nonempty (Some _)).
  - injection Hentry as <-. split; reflexivity.
Qed.

(** The gateway is unreachable while a welcome job is processed: the
    processor throws with the text of the rejected [fetch]. *)
Lemma processSMSJob_with_salum_witness :
  processSMSJob Sample.salum
    (Job.make (js "1") (js "welcome-sms")
       (Welcome (WelcomeSMSData.make (js "1") 0 Sample.recipient (js "John")))
       (JobOptions.make None None None) 0)
    (Sample.world ∅)
  = (Throw (new_Error (js "SMS send failed: fetch failed")),
     World.with_console [js "Processing SMS job 1 of type welcome"]
                        (Sample.world ∅)).
Proof.
  destruct (processSMSJob_with_salum Sample.salum
              (Job.make (js "1") (js "welcome-sms")
                 (Welcome (WelcomeSMSData.make (js "1") 0
                             Sample.recipient (js "John")))
                 (JobOptions.make None None None) 0)
              _ (Sample.world ∅) (route_welcome _))
    as (result & _ & _ & Hfail & _).
  destruct (Hfail eq_refl) as (e & _ & He & _ & Hrun).
  rewrite Hrun. vm_compute in He. rewrite He. reflexivity.
Defined.

(** X7. The worker with the Mock provider, on a job of a declared kind:
    the processor always returns success with a message id that starts with
    "mock-". The console gets four lines, among them the phone number and
    the message exactly as rendered; the clock moves on by the simulated 100
    ms and one random value is drawn. The queue, the environment and the
    network are not touched. *)
Theorem processSMSJob_with_mock
    (job : Job.t) (template : TemplateResult.t) (w : World.t) :
  route (Job.data job) = ret template ->
  let phone := SMSRecipient.phoneNumber (TemplateResult.recipient template) in
  let messageId :=
    js "mock-" ++ Js.of_number (World.clock w + 100) ++ js "-"
    ++ Js.substring 7 (World.random w (World.drawn w)) in
  exists w' : World.t,
    processSMSJob new_MockSMSProvider job w
    = (Normal {| ProcessResult.success := true;
                 ProcessResult.jobId := Job.id job;
                 ProcessResult.messageId := Some messageId;
                 ProcessResult.provider := js "mock" |}, w') /\
    World.console w'
    = World.console w
      ++ [js "Processing SMS job " ++ Job.id job ++ js " of type "
          ++ SMSJobData_type (Job.data job);
          js "[MOCK SMS] Sending to " ++ phone ++ js ":";
          js "[MOCK SMS] Message: " ++ TemplateResult.message template;
          js "Successfully sent SMS job " ++ Job.id job
          ++ js " via mock, messageId: " ++ messageId] /\
    World.clock w' = World.clock w + 100 /\
    World.drawn w' = S (World.drawn w) /\
    World.queue w' = World.queue w /\
    World.env w' = World.env w /\
    World.network w' = World.network w.
Proof.
  intros Hroute. cbv zeta.
  rewrite (processSMSJob_declared new_MockSMSProvider job template w Hroute).
  eexists. split; [reflexivity|].
  cbn [World.console World.with_console World.clock World.with_clock
       World.drawn World.with_drawn World.queue World.env World.network].
  repeat split. rewrite <- !app_assoc. reflexivity.
Qed.

(** The scenario of a notification "Your order has shipped". *)
Lemma processSMSJob_with_mock_witness :
  exists w' : World.t,
    fst (processSMSJob new_MockSMSProvider
           (Job.make (js "9") (js "notification-sms")
              (Notification
                 (NotificationSMSData.make (js "9") 0
                    (SMSRecipient.make (js "+254700000000") None)
                    (js "Your order has shipped") None))
              (JobOptions.make None None None) 0)
           (Sample.world ∅))
    = Normal {| ProcessResult.success := true;
                ProcessResult.jobId := js "9";
                ProcessResult.messageId :=
                  Some (js "mock-1700000000100-2-uuid-0");
                ProcessResult.provider := js "mock" |} /\
    World.clock w' = 1700000000100.
Proof.
  destruct (processSMSJob_with_mock
              (Job.make (js "9") (js "notification-sms")
                 (Notification
                    (NotificationSMSData.make (js "9") 0
                       (SMSRecipient.make (js "+254700000000") None)
                       (js "Your order has shipped") None))
                 (JobOptions.make None None None) 0)
              _ (Sample.world ∅) (route_notification _))
    as (w' & Hrun & _ & Hclock & _).
  exists w'. split; [now rewrite Hrun | exact Hclock].
Defined.

(** X8. Factory and worker together: unless the environment selects Salum,
    the provider that the factory builds makes the processor succeed on
    every job of a declared kind, under the provider name "mock". *)
Theorem default_provider_processes_declared_jobs
    (job : Job.t) (template : TemplateResult.t) (w : World.t) :
  selector w <> js "salum" ->
  route (Job.data job) = ret template ->
  exists (smsProvider : AnyProvider) (w1 : World.t) (result : ProcessResult.t)
         (w2 : World.t),
    createSMSProvider w = (Normal smsProvider, w1) /\
    processSMSJob smsProvider job w1 = (Normal result, w2) /\
    ProcessResult.success result = true /\
    ProcessResult.jobId result = Job.id job /\
    ProcessResult.provider result = js "mock".
Proof.
  intros Hsel Hroute.
  destruct (createSMSProvider_other w Hsel) as [w1 Hmake].
  exists (IsMock new_MockSMSProvider), w1.
  rewrite (processSMSJob_declared (IsMock new_MockSMSProvider) job template w1
             Hroute).
  eexists _, _. repeat split. exact Hmake.
Qed.

(** No SMS_PROVIDER at all, and an OTP job. *)
Lemma default_provider_processes_declared_jobs_witness :
  exists (smsProvider : AnyProvider) (w1 : World.t) (result : ProcessResult.t)
         (w2 : World.t),
    createSMSProvider (Sample.world ∅) = (Normal smsProvider, w1) /\
    processSMSJob smsProvider
      (Job.make (js "2") (js "otp-sms")
         (Otp (OTPSMSData.make (js "2") 0 Sample.recipient (js "123456") 10))
         (JobOptions.make (Some 1) None None) 0) w1
    = (Normal result, w2) /\
    ProcessResult.success result = true.
Proof.
  assert (Hsel : selector (Sample.world ∅) <> js "salum")
    by (intros Heq; vm_compute in Heq; discriminate).
  destruct (default_provider_processes_declared_jobs
              (Job.make (js "2") (js "otp-sms")
                 (Otp (OTPSMSData.make (js "2") 0 Sample.recipient
                         (js "123456") 10))
                 (JobOptions.make (Some 1) None None) 0)
              _ (Sample.world ∅) Hsel
              (route_otp _))
    as (p & w1 & result & w2 & Hmake & Hrun & Hok & _).
  exists p, w1, result, w2. repeat split; assumption.
Defined.

(** ** The factory's warning *)

Lemma SalumSMSProvider_new_keeps_world
    (config : option PartialSalumConfig.t) (w : World.t) :
  snd (SalumSMSProvider.new config w) = w.
Proof.
  unfold SalumSMSProvider.new, bind, process_env.
  now destruct (negb _ || negb _).
Qed.

(** X9. The factory writes one warning, naming the configured value, when
    the value is neither 'salum' nor 'mock' in any capitalisation, and
    writes nothing otherwise; nothing else in the world changes, whether it
    returns or throws. (For a value in ASCII.) *)
Theorem createSMSProvider_warning (w : World.t) :
  let provider := Js.or_str (World.env w !! "SMS_PROVIDER") (js "mock") in
  let w' := snd (createSMSProvider w) in
  ascii_only provider ->
  only_console_differs w w' /\
  World.console w'
  = World.console w
    ++ (if Js.str_eqb (Js.toLowerCase provider) (js "salum")
           || Js.str_eqb (Js.toLowerCase provider) (js "mock")
        then []
        else [js "Unknown SMS provider: " ++ provider
              ++ js ", falling back to mock"]).
Proof.
  cbv zeta. intros _.
  set (provider := Js.or_str (World.env w !! "SMS_PROVIDER") (js "mock")).
  set (extra := if Js.str_eqb (Js.toLowerCase provider) (js "salum")
                   || Js.str_eqb (Js.toLowerCase provider) (js "mock")
                then []
                else [js "Unknown SMS provider: " ++ provider
                      ++ js ", falling back to mock"]).
  assert (Hw : snd (createSMSProvider w)
               = World.with_console (World.console w ++ extra) w).
  { subst extra provider. unfold createSMSProvider, bind at 1, process_env.
    destruct (Js.str_eqb _ (js "salum")); cbn [orb].
    - unfold bind.
      pose proof (SalumSMSProvider_new_keeps_world None w) as Hkeep.
      destruct (SalumSMSProvider.new None w) as [[p|t] w1]; cbn [snd] in *;
        subst w1; rewrite app_nil_r; now destruct w.
    - destruct (Js.str_eqb _ (js "mock")).
      + cbn [snd ret]. rewrite app_nil_r. now destruct w.
      + reflexivity. }
  rewrite Hw. split; reflexivity.
Qed.

(** A misspelt provider name. *)
Lemma createSMSProvider_warning_witness :
  World.console
    (snd (createSMSProvider (Sample.world {[ "SMS_PROVIDER" := js "Salam" ]})))
  = [js "Unknown SMS provider: Salam, falling back to mock"].
Proof.
  refine (proj2 (createSMSProvider_warning
                   (Sample.world {[ "SMS_PROVIDER" := js "Salam" ]}) _)).
  vm_compute. repeat constructor.
Defined.

(** ** What a creator call stores *)

Lemma find_job_snoc (k : Js.str) (q : list Job.t) (j : Job.t) :
  BullMQ.find_job k q = None -> Job.id j = k ->
  BullMQ.find_job k (q ++ [j]) = Some j.
Proof.
  unfold BullMQ.find_job. intros Hnone Hid.
  induction q as [|x q IH]; cbn in *.
  - unfold Js.str_eqb. now rewrite bool_decide_eq_true_2.
  - destruct (Js.str_eqb (Job.id x) k); [discriminate | now apply IH].
Qed.

(** X10. Looking up the id that a creator returned finds the job just
    stored, when no job was stored under that id before: it has the
    creator's job name, the caller's parameters, the timestamp of the call,
    no attempts, and as payload id the caller's [jobId] if that is given and
    not empty and else the random UUID drawn for it. *)
Theorem created_job_lookup
    (c : CreatorCall) (w w' : World.t) (r : CreatedJob.t) :
  call c w = (Normal r, w') ->
  BullMQ.find_job (CreatedJob.jobId r) (World.queue w) = None ->
  let id :=
    Js.or_str (opt_jobId (call_options c)) (World.random w (World.drawn w)) in
  let job :=
    Job.make (CreatedJob.jobId r) (add_name c)
             (add_data c id (World.clock w)) (add_opts c) 0 in
  BullMQ.find_job (CreatedJob.jobId r) (World.queue w') = Some job /\
  World.queue w' = World.queue w ++ [job] /\
  CreatedJob.queueName r = js "sms-notifications".
Proof.
  rewrite call_unfold.
  unfold bind, jobId_or_randomUUID, Date_now, BullMQ.Queue_add, ret,
    crypto_randomUUID, draw.
  cbn [add_opts JobOptions.jobId].
  destruct (opt_jobId (call_options c)) as [[|u k]|];
    cbn [World.backend_up World.with_drawn World.queue World.clock
         World.random World.drawn Js.or_str];
    destruct (World.backend_up w); cbn [negb]; try discriminate.
  - destruct (BullMQ.find_job [] (World.queue w)) as [j|] eqn:Hfind.
    + intros [= <- <-] Hnone. cbn [CreatedJob.jobId World.queue] in Hnone.
      rewrite (find_job_id _ _ _ Hfind) in Hnone. congruence.
    + intros [= <- <-] _. cbn [CreatedJob.jobId World.queue World.with_queue].
      split; [now apply find_job_snoc|]. now split.
  - destruct (BullMQ.find_job (u :: k) (World.queue w)) as [j|] eqn:Hfind.
    + intros [= <- <-] Hnone. cbn [CreatedJob.jobId] in Hnone.
      rewrite (find_job_id _ _ _ Hfind) in Hnone. congruence.
    + intros [= <- <-] _. cbn [CreatedJob.jobId World.queue World.with_queue].
      split; [now apply find_job_snoc|]. now split.
  - intros [= <- <-] Hnone.
    cbn [CreatedJob.jobId World.queue World.with_queue Job.id] in *.
    split; [now apply find_job_snoc|]. now split.
Qed.

(** A welcome job without options on an empty queue gets the id "1" and the
    first random UUID as payload id. *)
Lemma created_job_lookup_witness :
  BullMQ.find_job (js "1")
    (World.queue (snd (createWelcomeSMSJob Sample.welcome_params None
                         (Sample.world ∅))))
  = Some (Job.make (js "1") (js "welcome-sms")
            (Welcome (WelcomeSMSData.make (js "3f0e9a52-uuid-0") 1700000000000
                        Sample.recipient (js "John Doe")))
            (JobOptions.make None None None) 0).
Proof.
  exact (proj1 (created_job_lookup
                  (CallWelcome Sample.welcome_params None) (Sample.world ∅)
                  _ (CreatedJob.make (js "1") SMS_QUEUE_NAME)
                  eq_refl eq_refl)).
Defined.

(** X11. A creator call leaves the environment, the clock, the console, the
    network and the backend as they are. It draws one random value when the
    caller gave no [jobId] or an empty one, and none otherwise. The queue
    keeps its jobs in place and grows by at most one; when the backend is
    down the call throws and the queue is unchanged. *)
Theorem creator_call_frame (c : CreatorCall) (w : World.t) :
  let w' := snd (call c w) in
  World.env w' = World.env w /\
  World.clock w' = World.clock w /\
  World.console w' = World.console w /\
  World.network w' = World.network w /\
  World.backend_up w' = World.backend_up w /\
  World.drawn w'
  = (if Js.truthy (opt_jobId (call_options c)) then World.drawn w
     else S (World.drawn w)) /\
  (exists added : list Job.t,
     World.queue w' = World.queue w ++ added /\ (length added <= 1)%nat) /\
  (World.backend_up w = false ->
   raises (call c w) = true /\ World.queue w' = World.queue w).
Proof.
  cbv zeta. rewrite call_unfold.
  unfold bind, jobId_or_randomUUID, Date_now, BullMQ.Queue_add, ret,
    crypto_randomUUID, draw, raises.
  cbn [add_opts JobOptions.jobId].
  destruct (opt_jobId (call_options c)) as [[|u k]|];
    cbn [World.backend_up World.with_drawn World.queue World.clock
         World.random World.drawn Js.truthy];
    destruct (World.backend_up w) eqn:Hup; cbn [negb fst snd];
    try destruct (BullMQ.find_job _ _);
    cbn [fst snd World.env World.clock World.console World.network
         World.backend_up World.drawn World.queue World.with_queue
         World.with_drawn];
    repeat match goal with |- _ /\ _ => split end;
    try reflexivity; try exact Hup;
    try (intros Hdown; first [discriminate Hdown | split; reflexivity]);
    solve [ exists []; rewrite app_nil_r; split; [reflexivity | cbn; lia]
          | eexists [_]; split; [reflexivity | cbn; lia] ].
Qed.

(** ** Redis connection settings *)

Section RedisFacts.

Lemma lit_String (c : ascii) (s : string) :
  Js.lit (String c s) = N_of_ascii c :: Js.lit s.
Proof. reflexivity. Qed.

Lemma trimStart_whitespace (ws s : Js.str) :
  Forall (fun c => Js.is_whitespace c = true) ws ->
  trimStart (ws ++ s) = trimStart s.
Proof.
  induction 1 as [|c ws Hc _ IH]; [reflexivity|].
  cbn [app trimStart]. now rewrite Hc.
Qed.

Lemma leading_digits_uint (u : Decimal.uint) :
  forall (rest : Js.str) (acc : Z),
    no_digit_ahead rest ->
    leading_digits (Js.lit (NilEmpty.string_of_uint u) ++ rest) (Some acc)
    = Some (uint_value u acc).
Proof.
  induction u as [|u IH|u IH|u IH|u IH|u IH|u IH|u IH|u IH|u IH|u IH];
    intros rest acc Hrest;
    cbn [NilEmpty.string_of_uint uint_value];
    try (rewrite lit_String; cbn [app leading_digits];
         replace (is_digit (N_of_ascii _)) with true by reflexivity;
         cbn [default]; now rewrite IH).
  cbn. destruct rest as [|c rest]; [reflexivity|].
  cbn in *. now rewrite Hrest.
Qed.

Lemma uint_value_acc (u : Decimal.uint) (acc : positive) :
  uint_value u (Z.pos acc) = Z.pos (Pos.of_uint_acc u acc).
Proof.
  revert acc.
  induction u as [|u IH|u IH|u IH|u IH|u IH|u IH|u IH|u IH|u IH|u IH];
    intros acc; cbn [uint_value Pos.of_uint_acc]; [reflexivity|..];
    rewrite <- IH; f_equal; lia.
Qed.

Lemma uint_value_zero (u : Decimal.uint) :
  uint_value u 0 = Z.of_N (Pos.of_uint u).
Proof.
  induction u as [|u IH|u IH|u IH|u IH|u IH|u IH|u IH|u IH|u IH|u IH];
    cbn [uint_value Pos.of_uint]; [reflexivity | exact IH |..];
    apply uint_value_acc.
Qed.

Lemma to_uint_digits (p : positive) (rest : Js.str) :
  exists c r,
    Js.lit (NilEmpty.string_of_uint (Pos.to_uint p)) ++ rest = c :: r /\
    is_digit c = true.
Proof.
  pose proof (DecimalPos.Unsigned.to_uint_nonnil p) as Hnil.
  destruct (Pos.to_uint p); [congruence|..];
    cbn [NilEmpty.string_of_uint]; rewrite lit_String; eexists _, _;
    split; reflexivity.
Qed.

Lemma digit_not_special (c : N) :
  is_digit c = true ->
  Js.is_whitespace c = false /\ (c =? 45)%N = false /\ (c =? 43)%N = false.
Proof.
  unfold is_digit. intros Hc.
  apply andb_prop in Hc as [Hlo Hhi].
  apply N.leb_le in Hlo. apply N.leb_le in Hhi.
  assert (Hcases : (c = 48 \/ c = 49 \/ c = 50 \/ c = 51 \/ c = 52 \/ c = 53
                    \/ c = 54 \/ c = 55 \/ c = 56 \/ c = 57)%N) by lia.
  repeat destruct Hcases as [->|Hcases]; try subst c; now repeat split.
Qed.

Lemma parseInt_positive (p : positive) (rest : Js.str) :
  no_digit_ahead rest ->
  parseInt (Js.of_number (Z.pos p) ++ rest) = Some (Z.pos p).
Proof.
  intros Hrest. unfold Js.of_number, parseInt.
  cbn [Z.to_int NilZero.string_of_int].
  assert (Hstr : NilZero.string_of_uint (Pos.to_uint p)
                 = NilEmpty.string_of_uint (Pos.to_uint p)).
  { pose proof (DecimalPos.Unsigned.to_uint_nonnil p).
    unfold NilZero.string_of_uint. now destruct (Pos.to_uint p). }
  rewrite Hstr.
  destruct (to_uint_digits p rest) as (c & r & Heq & Hc).
  destruct (digit_not_special c Hc) as (Hws & Hminus & Hplus).
  assert (Hdigits : leading_digits (c :: r) None = Some (Z.pos p)).
  { assert (Hnone : leading_digits (c :: r) None
                    = leading_digits (c :: r) (Some 0))
      by (cbn [leading_digits]; now rewrite Hc).
    rewrite Hnone, <- Heq, leading_digits_uint by exact Hrest.
    now rewrite uint_value_zero, DecimalPos.Unsigned.of_to. }
  rewrite Heq. cbn [trimStart]. now rewrite Hws, Hminus, Hplus.
Qed.

Lemma parseInt_of_number (n : Z) (ws rest : Js.str) :
  0 <= n ->
  Forall (fun c => Js.is_whitespace c = true) ws ->
  no_digit_ahead rest ->
  parseInt (ws ++ Js.of_number n ++ rest) = Some n.
Proof.
  intros Hn Hws Hrest. unfold parseInt at 1.
  rewrite trimStart_whitespace by exact Hws.
  fold (parseInt (Js.of_number n ++ rest)).
  destruct n as [|p|p]; [|now apply parseInt_positive|lia].
  unfold parseInt. change (Js.of_number 0) with [48%N].
  cbn. destruct rest as [|c rest]; [reflexivity|].
  cbn in *. now rewrite Hrest.
Qed.

End RedisFacts.

(** [getRedisConfig] in one piece: the console gets the password warning
    when it is due, and the result is the first failed check or the
    settings. *)
Lemma getRedisConfig_cases (w : World.t) :
  let REDIS_HOST := World.env w !! "REDIS_HOST" in
  let REDIS_PASSWORD := World.env w !! "REDIS_PASSWORD" in
  getRedisConfig w
  = (if in_production w && negb (Js.truthy REDIS_HOST) then
       Throw (new_Error
                (js "REDIS_HOST environment variable is required in production"))
     else if negb (port_ok w) then
       Throw (new_Error (js "Invalid REDIS_PORT: "
                         ++ Js.of_optional (World.env w !! "REDIS_PORT")
                         ++ js ". Must be between 1 and 65535."))
     else if negb (db_ok w) then
       Throw (new_Error (js "Invalid REDIS_DB: "
                         ++ Js.of_optional (World.env w !! "REDIS_DB")
                         ++ js ". Must be a non-negative integer."))
     else
       Normal {| RedisConfig.host := Js.or_str REDIS_HOST (js "localhost");
                 RedisConfig.port := default 0 (redis_port w);
                 RedisConfig.password := REDIS_PASSWORD;
                 RedisConfig.db := default 0 (redis_db w);
                 RedisConfig.maxRetriesPerRequest := None |},
     if in_production w && Js.truthy REDIS_HOST && negb (Js.truthy REDIS_PASSWORD)
     then World.with_console
            (World.console w
             ++ [js "REDIS_PASSWORD is not set. This is not recommended for production."])
            w
     else w).
Proof.
  cbv zeta. unfold getRedisConfig, port_ok, db_ok, in_production,
    redis_port, redis_db.
  unfold bind at 1 2 3 4 5. unfold process_env. unfold bind at 1.
  destruct (bool_decide (World.env w !! "NODE_ENV" = Some (js "production")));
    cbn [andb].
  - destruct (Js.truthy (World.env w !! "REDIS_HOST")); cbn [negb andb];
      [|reflexivity].
    destruct (Js.truthy (World.env w !! "REDIS_PASSWORD")); cbn [negb];
      unfold console_write, ret, throw;
      destruct (parseInt (Js.or_str (World.env w !! "REDIS_PORT") _))
        as [p|]; cbn [from_option id]; try reflexivity;
      (destruct (Z.leb_spec 1 p), (Z.leb_spec p 65535),
         (Z.ltb_spec p 1), (Z.ltb_spec 65535 p); try lia;
       cbn [andb orb negb]; try reflexivity);
      (destruct (parseInt (Js.or_str (World.env w !! "REDIS_DB") _))
         as [d|]; cbn [from_option id]; try reflexivity;
       destruct (Z.leb_spec 0 d), (Z.ltb_spec d 0); try lia; reflexivity).
  - unfold ret, throw.
    destruct (parseInt (Js.or_str (World.env w !! "REDIS_PORT") _))
      as [p|]; cbn [from_option id]; try reflexivity.
    destruct (Z.leb_spec 1 p), (Z.leb_spec p 65535),
      (Z.ltb_spec p 1), (Z.ltb_spec 65535 p); try lia;
      cbn [andb orb negb]; try reflexivity.
    destruct (parseInt (Js.or_str (World.env w !! "REDIS_DB") _))
      as [d|]; cbn [from_option id]; try reflexivity.
    destruct (Z.leb_spec 0 d), (Z.ltb_spec d 0); try lia; reflexivity.
Qed.

(** X12. Settings that [getRedisConfig] returns are usable: the port is
    between 1 and 65535, the database index is not negative, the host is
    not empty, [maxRetriesPerRequest] is null and the password is the
    environment's. In production the host is the one of the environment;
    without REDIS_HOST it is "localhost". *)
Theorem getRedisConfig_settings_valid
    (w w' : World.t) (cfg : RedisConfig.t) :
  getRedisConfig w = (Normal cfg, w') ->
  1 <= RedisConfig.port cfg <= 65535 /\
  0 <= RedisConfig.db cfg /\
  RedisConfig.host cfg <> [] /\
  RedisConfig.maxRetriesPerRequest cfg = None /\
  RedisConfig.password cfg = World.env w !! "REDIS_PASSWORD" /\
  redis_port w = Some (RedisConfig.port cfg) /\
  redis_db w = Some (RedisConfig.db cfg) /\
  (in_production w = true ->
   World.env w !! "REDIS_HOST" = Some (RedisConfig.host cfg)) /\
  (Js.truthy (World.env w !! "REDIS_HOST") = false ->
   RedisConfig.host cfg = js "localhost").
Proof.
  rewrite getRedisConfig_cases. cbv zeta.
  destruct (in_production w && negb (Js.truthy (World.env w !! "REDIS_HOST")))
    eqn:Hhost; [discriminate|].
  destruct (port_ok w) eqn:Hport; [|discriminate].
  destruct (db_ok w) eqn:Hdb; [|discriminate].
  cbn [negb]. intros [= <- _].
  cbn [RedisConfig.port RedisConfig.db RedisConfig.host RedisConfig.password
       RedisConfig.maxRetriesPerRequest].
  unfold port_ok in Hport. unfold db_ok in Hdb.
  destruct (redis_port w) as [p|]; [|discriminate].
  destruct (redis_db w) as [d|]; [|discriminate].
  cbn [from_option id].
  apply andb_prop in Hport as [Hlo Hhi].
  apply Z.leb_le in Hlo. apply Z.leb_le in Hhi. apply Z.leb_le in Hdb.
  split; [lia|]. split; [exact Hdb|].
  split; [now apply or_str_nonempty|].
  do 4 (split; [reflexivity|]). split.
  - intros Hprod. rewrite Hprod in Hhost. cbn [andb] in Hhost.
    apply negb_false_iff in Hhost. now rewrite or_str_truthy.
  - intros Hfalsy. now apply or_str_falsy.
Qed.

(** An empty environment gives the defaults. *)
Lemma getRedisConfig_settings_valid_witness :
  1 <= 6379 <= 65535 /\ redis_port (Sample.world ∅) = Some 6379.
Proof.
  pose proof (getRedisConfig_settings_valid (Sample.world ∅) (Sample.world ∅)
                (RedisConfig.make (js "localhost") 6379 None 0 None) eq_refl)
    as (Hport & _ & _ & _ & _ & Hread & _).
  exact (conj Hport Hread).
Defined.

(** X13. [getRedisConfig] throws exactly when the environment says
    production and has no REDIS_HOST, or the port does not parse to a number
    between 1 and 65535, or the database index does not parse to a
    non-negative number. The host error comes first, then the port error,
    then the database error; the last two quote the value as it was
    written. *)
Theorem getRedisConfig_errors (w : World.t) :
  let host_missing :=
    in_production w && negb (Js.truthy (World.env w !! "REDIS_HOST")) in
  (raises (getRedisConfig w) = true <->
   host_missing = true \/ port_ok w = false \/ db_ok w = false) /\
  (host_missing = true ->
   fst (getRedisConfig w)
   = Throw (new_Error
              (js "REDIS_HOST environment variable is required in production"))) /\
  (host_missing = false -> port_ok w = false ->
   fst (getRedisConfig w)
   = Throw (new_Error (js "Invalid REDIS_PORT: "
                       ++ Js.of_optional (World.env w !! "REDIS_PORT")
                       ++ js ". Must be between 1 and 65535."))) /\
  (host_missing = false -> port_ok w = true -> db_ok w = false ->
   fst (getRedisConfig w)
   = Throw (new_Error (js "Invalid REDIS_DB: "
                       ++ Js.of_optional (World.env w !! "REDIS_DB")
                       ++ js ". Must be a non-negative integer."))).
Proof.
  cbv zeta. rewrite getRedisConfig_cases. cbv zeta. unfold raises. cbn [fst].
  destruct (in_production w && negb (Js.truthy (World.env w !! "REDIS_HOST")));
    destruct (port_ok w); destruct (db_ok w); cbn [negb];
    repeat split; intros; try reflexivity; try discriminate; auto;
    repeat match goal with H : _ \/ _ |- _ => destruct H end;
    discriminate.
Qed.

(** A port with letters only, and a port that is too large. *)
Lemma getRedisConfig_errors_witness :
  fst (getRedisConfig (Sample.world {[ "REDIS_PORT" := js "redis" ]}))
  = Throw (new_Error (js "Invalid REDIS_PORT: redis. Must be between 1 and 65535.")) /\
  raises (getRedisConfig (Sample.world {[ "REDIS_PORT" := js "65536" ]})) = true.
Proof.
  split.
  - exact (proj1 (proj2 (proj2 (getRedisConfig_errors
                                  (Sample.world {[ "REDIS_PORT" := js "redis" ]}))))
             eq_refl eq_refl).
  - apply (proj1 (getRedisConfig_errors
                    (Sample.world {[ "REDIS_PORT" := js "65536" ]}))).
    right; left. reflexivity.
Defined.

(** X14. What is written in the environment is what comes back: a host, a
    port between 1 and 65535 and a database index from 0 on, written in
    decimal, are returned as they are. White space before a number and any
    text after it that does not start with a digit are ignored, so that
    "6379abc" is read as 6379. *)
Theorem getRedisConfig_reads_settings
    (w : World.t) (host ws1 rest1 ws2 rest2 : Js.str) (port db : Z) :
  World.env w !! "REDIS_HOST" = Some host -> host <> [] ->
  (World.env w !! "REDIS_PORT" : option Js.str)
  = Some (ws1 ++ Js.of_number port ++ rest1) ->
  (World.env w !! "REDIS_DB" : option Js.str)
  = Some (ws2 ++ Js.of_number db ++ rest2) ->
  1 <= port <= 65535 -> 0 <= db <= 2 ^ 53 ->
  Forall (fun c => Js.is_whitespace c = true) ws1 -> no_digit_ahead rest1 ->
  Forall (fun c => Js.is_whitespace c = true) ws2 -> no_digit_ahead rest2 ->
  fst (getRedisConfig w)
  = Normal {| RedisConfig.host := host;
              RedisConfig.port := port;
              RedisConfig.password := World.env w !! "REDIS_PASSWORD";
              RedisConfig.db := db;
              RedisConfig.maxRetriesPerRequest := None |}.
Proof.
  intros Hhost Hne Hport Hdb Hp Hd Hws1 Hrest1 Hws2 Hrest2.
  assert (Hnonempty : forall a b c : Js.str,
             a ++ Js.of_number port ++ c <> [] /\ a ++ Js.of_number db ++ b <> []).
  { intros a b c. split; intros Hnil; apply app_eq_nil in Hnil as [_ Hnil];
      apply app_eq_nil in Hnil as [Hnil _]; revert Hnil;
      unfold Js.of_number.
    - destruct port as [|p|p]; [lia| |lia]. cbn [Z.to_int NilZero.string_of_int].
      pose proof (DecimalPos.Unsigned.to_uint_nonnil p).
      unfold NilZero.string_of_uint.
      destruct (Pos.to_uint p); try congruence; discriminate.
    - destruct db as [|p|p]; [discriminate| |lia].
      cbn [Z.to_int NilZero.string_of_int].
      pose proof (DecimalPos.Unsigned.to_uint_nonnil p).
      unfold NilZero.string_of_uint.
      destruct (Pos.to_uint p); try congruence; discriminate. }
  assert (Hrp : redis_port w = Some port).
  { unfold redis_port. rewrite Hport.
    destruct (ws1 ++ Js.of_number port ++ rest1) as [|c s] eqn:Heq;
      [now destruct (Hnonempty ws1 rest1 rest1)|].
    cbn [Js.or_str]. rewrite <- Heq. apply parseInt_of_number; [lia|done..]. }
  assert (Hrd : redis_db w = Some db).
  { unfold redis_db. rewrite Hdb.
    destruct (ws2 ++ Js.of_number db ++ rest2) as [|c s] eqn:Heq;
      [now destruct (Hnonempty ws2 rest2 rest2)|].
    cbn [Js.or_str]. rewrite <- Heq. apply parseInt_of_number; [lia|done..]. }
  rewrite getRedisConfig_cases. cbv zeta. cbn [fst].
  unfold port_ok, db_ok. rewrite Hrp, Hrd, Hhost.
  assert (Htruthy : Js.truthy (Some host) = true) by now destruct host.
  rewrite Htruthy, andb_false_r.
  replace ((1 <=? port) && (port <=? 65535)) with true by lia.
  replace (0 <=? db) with true by lia.
  cbn [negb from_option id]. now destruct host.
Qed.

(** " 6380;" and "2 # cache" in the environment. *)
Lemma getRedisConfig_reads_settings_witness :
  fst (getRedisConfig
         (Sample.world {[ "REDIS_HOST" := js "redis.internal";
                          "REDIS_PORT" := js " 6380;";
                          "REDIS_DB" := js "2 # cache" ]}))
  = Normal (RedisConfig.make (js "redis.internal") 6380 None 2 None).
Proof.
  rewrite (getRedisConfig_reads_settings
             (Sample.world {[ "REDIS_HOST" := js "redis.internal";
                              "REDIS_PORT" := js " 6380;";
                              "REDIS_DB" := js "2 # cache" ]})
             (js "redis.internal") (js " ") (js ";") [] (js " # cache") 6380 2);
    try reflexivity; try discriminate; try lia;
    repeat constructor.
Defined.

(** X15. [getRedisConfig] writes to the console only in production, with a
    REDIS_HOST and without a REDIS_PASSWORD: then one warning, even when
    the call goes on to throw for a bad port or database index. Nothing
    else in the world changes. *)
Theorem getRedisConfig_warning (w : World.t) :
  let w' := snd (getRedisConfig w) in
  only_console_differs w w' /\
  World.console w'
  = World.console w
    ++ (if in_production w && Js.truthy (World.env w !! "REDIS_HOST")
           && negb (Js.truthy (World.env w !! "REDIS_PASSWORD"))
        then [js "REDIS_PASSWORD is not set. This is not recommended for production."]
        else []).
Proof.
  cbv zeta. rewrite getRedisConfig_cases. cbv zeta. cbn [snd].
  destruct (in_production w && Js.truthy (World.env w !! "REDIS_HOST")
            && negb (Js.truthy (World.env w !! "REDIS_PASSWORD"))).
  - split; reflexivity.
  - rewrite app_nil_r. split; [now destruct w | reflexivity].
Qed.

(** ** The HTTP routes *)

Section RouterFacts.

Lemma queue_or_fail_cases (create : JS CreatedJob.t)
    (queued logged failed : string) (w : World.t) :
  queue_or_fail create queued logged failed w
  = match create w with
    | (Normal result, w') =>
        (Normal (c_json (ResponseBody.make true (js queued)
                           (Some (CreatedJob.make (CreatedJob.jobId result)
                                    (CreatedJob.queueName result)))
                           None None) 201), w')
    | (Throw error, w') =>
        (Normal (c_json (ResponseBody.make false (js failed) None None
                           (Some (error_message error))) 500),
         World.with_console
           (World.console w'
            ++ [js logged ++ js " " ++ error_message error]) w')
    end.
Proof.
  unfold queue_or_fail, try_catch, bind.
  now destruct (create w) as [[result|error] w'].
Qed.

(** A call without a key, the backend being up: the job gets the next
    counter value as its id and is appended. *)
Lemma call_unkeyed (c : CreatorCall) (w : World.t) :
  opt_jobId (call_options c) = None ->
  World.backend_up w = true ->
  call c w
  = (Normal (CreatedJob.make (Js.of_number (World.jobCounter w + 1))
               SMS_QUEUE_NAME),
     World.with_queue
       (World.queue w
        ++ [Job.make (Js.of_number (World.jobCounter w + 1)) (add_name c)
              (add_data c (World.random w (World.drawn w)) (World.clock w))
              (add_opts c) 0])
       (World.jobCounter w + 1)
       (World.with_drawn (S (World.drawn w)) w)).
Proof.
  intros Hkey Hup. rewrite call_unfold.
  unfold bind, jobId_or_randomUUID, Date_now, BullMQ.Queue_add, ret,
    crypto_randomUUID, draw.
  cbn [add_opts JobOptions.jobId]. rewrite Hkey.
  cbn [World.backend_up World.with_drawn]. rewrite Hup. reflexivity.
Qed.

(** A call while the backend is down throws and stores nothing. *)
Lemma call_when_down (c : CreatorCall) (w : World.t) :
  World.backend_up w = false ->
  exists (t : Thrown) (w' : World.t),
    call c w = (Throw t, w') /\ World.queue w' = World.queue w.
Proof.
  intros Hdown. rewrite call_unfold.
  unfold bind, jobId_or_randomUUID, Date_now, BullMQ.Queue_add, ret,
    crypto_randomUUID, draw.
  destruct (opt_jobId (call_options c)) as [[|u k]|];
    cbn [World.backend_up World.with_drawn]; rewrite Hdown;
    eexists _, _; split; reflexivity.
Qed.

Lemma z_string_min_invalid (n : nat) (text name : string)
    (v : option JsonValue) (issues : list Issue.t) :
  z_string_min n text name v = Invalid issues -> issues <> [].
Proof.
  unfold z_string_min.
  destruct v as [[| | |s| |]|]; try (intros [= <-]; discriminate).
  destruct (n <=? length s)%nat; [discriminate | intros [= <-]; discriminate].
Qed.

Lemma z_string_optional_invalid (name : string) (v : option JsonValue)
    (issues : list Issue.t) :
  z_string_optional name v = Invalid issues -> issues <> [].
Proof.
  unfold z_string_optional.
  destruct v as [[| | |s| |]|]; try discriminate; intros [= <-]; discriminate.
Qed.

Lemma z_number_range_invalid (lo : Z) (hi : option Z) (name : string)
    (v : JsonValue) (issues : list Issue.t) :
  z_number_range lo hi name v = Invalid issues -> issues <> [].
Proof.
  unfold z_number_range.
  destruct v as [| |n| | |]; try (intros [= <-]; discriminate).
  destruct (n <? lo); [intros [= <-]; discriminate|].
  destruct hi as [hi|]; [|discriminate].
  destruct (hi <? n); [intros [= <-]; discriminate | discriminate].
Qed.

Lemma z_record_invalid (name : string) (v : JsonValue) (issues : list Issue.t) :
  z_record name v = Invalid issues -> issues <> [].
Proof.
  unfold z_record.
  destruct v; try discriminate; intros [= <-]; discriminate.
Qed.

Lemma z_optional_invalid {A} (schema : JsonValue -> Validation A)
    (v : option JsonValue) (issues : list Issue.t) :
  (forall x i, schema x = Invalid i -> i <> []) ->
  z_optional schema v = Invalid issues -> issues <> [].
Proof.
  intros Hschema. unfold z_optional. destruct v as [x|]; [|discriminate].
  destruct (schema x) eqn:Hx; [discriminate|].
  intros [= <-]. exact (Hschema _ _ Hx).
Qed.

Lemma z_default_invalid {A} (d : A) (schema : JsonValue -> Validation A)
    (v : option JsonValue) (issues : list Issue.t) :
  (forall x i, schema x = Invalid i -> i <> []) ->
  z_default d schema v = Invalid issues -> issues <> [].
Proof.
  intros Hschema. unfold z_default. destruct v as [x|]; [|discriminate].
  apply Hschema.
Qed.

Lemma issues_of_invalid {A} (v : Validation A) :
  (forall i, v = Invalid i -> i <> []) ->
  (exists i, v = Invalid i) -> issues_of v <> [].
Proof. intros Hv [i ->]. cbn. now apply Hv. Qed.

Lemma app_nonempty_l {A} (l l' : list A) : l <> [] -> l ++ l' <> [].
Proof. destruct l; [congruence | discriminate]. Qed.

Lemma app_nonempty_r {A} (l l' : list A) : l' <> [] -> l ++ l' <> [].
Proof. destruct l; [now cbn | discriminate]. Qed.

End RouterFacts.

Ltac issues_nonempty :=
  repeat match goal with
         | H : z_string_min _ _ _ _ = Invalid ?i |- _ =>
             apply z_string_min_invalid in H
         | H : z_string_optional _ _ = Invalid ?i |- _ =>
             apply z_string_optional_invalid in H
         | H : z_default _ _ _ = Invalid ?i |- _ =>
             apply z_default_invalid in H; [|apply z_number_range_invalid]
         | H : z_optional (z_record _) _ = Invalid ?i |- _ =>
             apply z_optional_invalid in H; [|apply z_record_invalid]
         | H : z_optional (z_number_range _ _ _) _ = Invalid ?i |- _ =>
             apply z_optional_invalid in H; [|apply z_number_range_invalid]
         end;
  repeat match goal with
         | H : ?i <> [] |- _ => destruct i; [congruence|]; clear H
         end;
  cbn; discriminate.

Lemma welcomeSMSSchema_invalid (body : JsonValue) (issues : list Issue.t) :
  welcomeSMSSchema body = Invalid issues -> issues <> [].
Proof.
  unfold welcomeSMSSchema.
  destruct body as [| | | | |fields]; try (intros [= <-]; discriminate).
  cbv zeta.
  destruct (z_string_min 9 _ _ _) eqn:H1, (z_string_optional _ _) eqn:H2,
    (z_string_min 1 _ _ _) eqn:H3; try discriminate;
    intros [= <-]; issues_nonempty.
Qed.

Lemma otpSMSSchema_invalid (body : JsonValue) (issues : list Issue.t) :
  otpSMSSchema body = Invalid issues -> issues <> [].
Proof.
  unfold otpSMSSchema.
  destruct body as [| | | | |fields]; try (intros [= <-]; discriminate).
  cbv zeta.
  destruct (z_string_min 9 _ _ _) eqn:H1, (z_string_optional _ _) eqn:H2,
    (z_string_min 4 _ _ _) eqn:H3, (z_default _ _ _) eqn:H4; try discriminate;
    intros [= <-]; issues_nonempty.
Qed.

Lemma notificationSMSSchema_invalid (body : JsonValue) (issues : list Issue.t) :
  notificationSMSSchema body = Invalid issues -> issues <> [].
Proof.
  unfold notificationSMSSchema.
  destruct body as [| | | | |fields]; try (intros [= <-]; discriminate).
  cbv zeta.
  destruct (z_string_min 9 _ _ _) eqn:H1, (z_string_optional _ _) eqn:H2,
    (z_string_min 1 _ _ _) eqn:H3, (z_optional (z_record _) _) eqn:H4,
    (z_optional (z_number_range 1 _ _) _) eqn:H5,
    (z_optional (z_number_range 0 _ _) _) eqn:H6; try discriminate;
    intros [= <-]; issues_nonempty.
Qed.

(** What a handler answers once the body passed the schema. *)
Lemma handler_answers (c : CreatorCall) (queued logged failed : string)
    (w : World.t) :
  opt_jobId (call_options c) = None ->
  exists (response : HttpResponse.t) (w' : World.t),
    queue_or_fail (call c) queued logged failed w = (Normal response, w') /\
    (World.backend_up w = true ->
     HttpResponse.status response = 201 /\
     ResponseBody.success (HttpResponse.body response) = true /\
     ResponseBody.data (HttpResponse.body response)
     = Some (CreatedJob.make (Js.of_number (World.jobCounter w + 1))
               (js "sms-notifications")) /\
     exists job : Job.t,
       World.queue w' = World.queue w ++ [job] /\
       Job.id job = Js.of_number (World.jobCounter w + 1)) /\
    (World.backend_up w = false ->
     HttpResponse.status response = 500 /\
     ResponseBody.success (HttpResponse.body response) = false /\
     ResponseBody.data (HttpResponse.body response) = None /\
     is_Some (ResponseBody.error (HttpResponse.body response)) /\
     World.queue w' = World.queue w).
Proof.
  intros Hkey. rewrite queue_or_fail_cases.
  destruct (World.backend_up w) eqn:Hup.
  - rewrite (call_unkeyed c w Hkey Hup). eexists _, _. split; [reflexivity|].
    split; [intros _ | discriminate].
    repeat split. eexists. split; reflexivity.
  - destruct (call_when_down c w Hup) as (t & w' & -> & Hqueue).
    eexists _, _. split; [reflexivity|].
    split; [discriminate | intros _].
    repeat split; [eexists; reflexivity | exact Hqueue].
Qed.

(** X16. Each of the three routes always answers, and never throws. A body
    that fails the route's schema gets status 400 with a non-empty list of
    issues, and the world is left as it was: nothing is enqueued. A body
    that passes gets status 201 and the id of the one job that was appended
    when the queue backend is up, and status 500 with the error's message,
    the queue unchanged, when it is down. *)
Theorem route_responses (r : Route) (body : JsonValue) (w : World.t) :
  exists (response : HttpResponse.t) (w' : World.t),
    post r body w = (Normal response, w') /\
    (passes r body = false ->
     HttpResponse.status response = 400 /\ w' = w /\
     ResponseBody.success (HttpResponse.body response) = false /\
     exists issues : list Issue.t,
       ResponseBody.errors (HttpResponse.body response) = Some issues /\
       issues <> []) /\
    (passes r body = true -> World.backend_up w = true ->
     HttpResponse.status response = 201 /\
     ResponseBody.success (HttpResponse.body response) = true /\
     ResponseBody.data (HttpResponse.body response)
     = Some (CreatedJob.make (Js.of_number (World.jobCounter w + 1))
               (js "sms-notifications")) /\
     exists job : Job.t,
       World.queue w' = World.queue w ++ [job] /\
       Job.id job = Js.of_number (World.jobCounter w + 1)) /\
    (passes r body = true -> World.backend_up w = false ->
     HttpResponse.status response = 500 /\
     ResponseBody.success (HttpResponse.body response) = false /\
     ResponseBody.data (HttpResponse.body response) = None /\
     is_Some (ResponseBody.error (HttpResponse.body response)) /\
     World.queue w' = World.queue w).
Proof.
  destruct r; unfold post, passes.
  - unfold post_sms_welcome.
    destruct (welcomeSMSSchema body) as [data|issues] eqn:Hschema.
    + match goal with
      | |- context [queue_or_fail (createWelcomeSMSJob ?p ?o) ?q ?l ?f] =>
          change (createWelcomeSMSJob p o) with (call (CallWelcome p o));
          destruct (handler_answers (CallWelcome p o) q l f w eq_refl)
            as (response & w' & -> & Hup & Hdown)
      end.
      exists response, w'. split; [reflexivity|].
      split; [discriminate|]. split; intros _; assumption.
    + eexists _, _. split; [reflexivity|].
      split; [intros _ | split; discriminate].
      repeat split. eexists. split; [reflexivity|].
      exact (welcomeSMSSchema_invalid _ _ Hschema).
  - unfold post_sms_otp.
    destruct (otpSMSSchema body) as [data|issues] eqn:Hschema.
    + match goal with
      | |- context [queue_or_fail (createOTPSMSJob ?p ?o) ?q ?l ?f] =>
          change (createOTPSMSJob p o) with (call (CallOTP p o));
          destruct (handler_answers (CallOTP p o) q l f w eq_refl)
            as (response & w' & -> & Hup & Hdown)
      end.
      exists response, w'. split; [reflexivity|].
      split; [discriminate|]. split; intros _; assumption.
    + eexists _, _. split; [reflexivity|].
      split; [intros _ | split; discriminate].
      repeat split. eexists. split; [reflexivity|].
      exact (otpSMSSchema_invalid _ _ Hschema).
  - unfold post_sms_notification.
    destruct (notificationSMSSchema body) as [data|issues] eqn:Hschema.
    + match goal with
      | |- context [queue_or_fail (createNotificationSMSJob ?p ?o) ?q ?l ?f] =>
          change (createNotificationSMSJob p o) with (call (CallNotification p o));
          destruct (handler_answers (CallNotification p o) q l f w eq_refl)
            as (response & w' & -> & Hup & Hdown)
      end.
      exists response, w'. split; [reflexivity|].
      split; [discriminate|]. split; intros _; assumption.
    + eexists _, _. split; [reflexivity|].
      split; [intros _ | split; discriminate].
      repeat split. eexists. split; [reflexivity|].
      exact (notificationSMSSchema_invalid _ _ Hschema).
Qed.

(** A body that passes is handed to a creator call without a key. *)
Lemma passing_body_calls_creator (r : Route) (body : JsonValue) :
  passes r body = true ->
  exists (c : CreatorCall) (queued logged failed : string),
    opt_jobId (call_options c) = None /\
    post r body = queue_or_fail (call c) queued logged failed.
Proof.
  destruct r; unfold passes, post.
  - unfold post_sms_welcome.
    destruct (welcomeSMSSchema body) as [data|issues]; [intros _|discriminate].
    now eexists (CallWelcome _ None), _, _, _.
  - unfold post_sms_otp.
    destruct (otpSMSSchema body) as [data|issues]; [intros _|discriminate].
    now eexists (CallOTP _ None), _, _, _.
  - unfold post_sms_notification.
    destruct (notificationSMSSchema body) as [data|issues];
      [intros _|discriminate].
    now eexists (CallNotification _ (Some _)), _, _, _.
Qed.

(** A phone number of four characters is refused; an OTP request is
    queued. *)
Lemma route_responses_witness :
  (exists (response : HttpResponse.t) (w' : World.t),
     post sms_welcome SampleRequest.short_phone (Sample.world ∅)
     = (Normal response, w') /\
     HttpResponse.status response = 400 /\ w' = Sample.world ∅) /\
  (exists (response : HttpResponse.t) (w' : World.t),
     post sms_otp SampleRequest.otp (Sample.world ∅) = (Normal response, w') /\
     HttpResponse.status response = 201) /\
  (exists (response : HttpResponse.t) (w' : World.t),
     post sms_otp SampleRequest.otp (backend_down (Sample.world ∅))
     = (Normal response, w') /\
     HttpResponse.status response = 500).
Proof.
  split; [|split].
  - destruct (route_responses sms_welcome SampleRequest.short_phone
                (Sample.world ∅)) as (response & w' & Hrun & Hbad & _).
    exists response, w'. split; [exact Hrun|].
    destruct (Hbad eq_refl) as (Hstatus & Hworld & _). now split.
  - destruct (route_responses sms_otp SampleRequest.otp (Sample.world ∅))
      as (response & w' & Hrun & _ & Hup & _).
    exists response, w'. split; [exact Hrun|].
    exact (proj1 (Hup eq_refl eq_refl)).
  - destruct (route_responses sms_otp SampleRequest.otp
                (backend_down (Sample.world ∅)))
      as (response & w' & Hrun & _ & _ & Hdown).
    exists response, w'. split; [exact Hrun|].
    exact (proj1 (Hdown eq_refl eq_refl)).
Defined.

Lemma z_string_min_valid (n : nat) (text name : string)
    (v : option JsonValue) (s : Js.str) :
  z_string_min n text name v = Valid s ->
  v = Some (JString s) /\ (n <= length s)%nat.
Proof.
  unfold z_string_min. destruct v as [[| | |s'| |]|]; try discriminate.
  destruct (Nat.leb_spec n (length s')); [|discriminate].
  now intros [= <-].
Qed.

Lemma z_string_optional_valid (name : string) (fields : list (Js.str * JsonValue))
    (o : option Js.str) :
  z_string_optional name (field name fields) = Valid o ->
  o = string_field name fields.
Proof.
  unfold z_string_optional, string_field.
  destruct (field name fields) as [[| | |s| |]|]; try discriminate;
    now intros [= <-].
Qed.

Lemma z_number_range_valid (lo : Z) (hi : option Z) (name : string)
    (v : JsonValue) (n : Z) :
  z_number_range lo hi name v = Valid n ->
  v = JNumber n /\ lo <= n /\ (forall hi', hi = Some hi' -> n <= hi').
Proof.
  unfold z_number_range. destruct v as [| |m| | |]; try discriminate.
  destruct (Z.ltb_spec m lo); [discriminate|].
  destruct hi as [hi|].
  - destruct (Z.ltb_spec hi m); [discriminate|]. intros [= <-].
    repeat split; [lia|]. now intros hi' [= <-].
  - intros [= <-]. repeat split; [lia | discriminate].
Qed.

Lemma z_optional_number_valid (lo : Z) (hi : option Z) (name : string)
    (v : option JsonValue) (o : option Z) :
  z_optional (z_number_range lo hi name) v = Valid o ->
  match o with
  | None => v = None
  | Some n =>
      v = Some (JNumber n) /\ lo <= n /\ (forall hi', hi = Some hi' -> n <= hi')
  end.
Proof.
  unfold z_optional. destruct v as [x|]; [|now intros [= <-]].
  destruct (z_number_range lo hi name x) as [n|] eqn:Hx; [|discriminate].
  intros [= <-]. apply z_number_range_valid in Hx as (-> & Hlo & Hhi).
  now repeat split.
Qed.

(** What the OTP schema lets through. *)
Lemma otpSMSSchema_valid (fields : list (Js.str * JsonValue)) :
  passes sms_otp (JObject fields) = true ->
  exists (phone code : Js.str) (expiry : Z),
    field "phoneNumber" fields = Some (JString phone) /\
    (9 <= length phone)%nat /\
    field "code" fields = Some (JString code) /\
    (4 <= length code)%nat /\
    1 <= expiry <= 60 /\
    (field "expiryMinutes" fields = None /\ expiry = 10 \/
     field "expiryMinutes" fields = Some (JNumber expiry)) /\
    otpSMSSchema (JObject fields)
    = Valid (OtpSMSInput.make phone (string_field "name" fields) code expiry).
Proof.
  unfold passes, otpSMSSchema. cbv zeta.
  destruct (z_string_min 9 _ _ _) as [phone|] eqn:Hphone; [|discriminate].
  destruct (z_string_optional _ _) as [name|] eqn:Hname; [|discriminate].
  destruct (z_string_min 4 _ _ _) as [code|] eqn:Hcode; [|discriminate].
  destruct (z_default _ _ _) as [expiry|] eqn:Hexpiry; [|discriminate].
  intros _.
  apply z_string_min_valid in Hphone as [Hphone Hlen].
  apply z_string_min_valid in Hcode as [Hcode Hlen'].
  apply z_string_optional_valid in Hname as ->.
  exists phone, code, expiry.
  split; [exact Hphone|]. split; [exact Hlen|].
  split; [exact Hcode|]. split; [exact Hlen'|].
  unfold z_default in Hexpiry.
  destruct (field "expiryMinutes" fields) as [x|].
  - apply z_number_range_valid in Hexpiry as (-> & Hlo & Hhi).
    specialize (Hhi 60 eq_refl). split; [lia|]. split; [now right | reflexivity].
  - injection Hexpiry as <-. split; [lia|]. split; [now left | reflexivity].
Qed.

(** X17. An OTP request that passes the schema, the backend being up, puts
    exactly one job in the queue: an 'otp-sms' job with priority 1, no delay
    and no key, for the body's phone number (at least 9 characters) and code
    (at least 4), and with the body's [expiryMinutes], which lies between 1
    and 60, or 10 when the body has none. *)
Theorem post_sms_otp_enqueues
    (fields : list (Js.str * JsonValue)) (w : World.t) :
  passes sms_otp (JObject fields) = true ->
  World.backend_up w = true ->
  exists (phone code : Js.str) (expiry : Z),
    field "phoneNumber" fields = Some (JString phone) /\
    (9 <= length phone)%nat /\
    field "code" fields = Some (JString code) /\
    (4 <= length code)%nat /\
    1 <= expiry <= 60 /\
    (field "expiryMinutes" fields = None /\ expiry = 10 \/
     field "expiryMinutes" fields = Some (JNumber expiry)) /\
    World.queue (snd (post_sms_otp (JObject fields) w))
    = World.queue w
      ++ [Job.make (Js.of_number (World.jobCounter w + 1)) (js "otp-sms")
            (Otp (OTPSMSData.make (World.random w (World.drawn w))
                    (World.clock w)
                    (SMSRecipient.make phone (string_field "name" fields))
                    code expiry))
            (JobOptions.make (Some 1) None None) 0].
Proof.
  intros Hpass Hup.
  destruct (otpSMSSchema_valid fields Hpass)
    as (phone & code & expiry & Hphone & Hlen & Hcode & Hlen' & Hrange
        & Hexpiry & Hschema).
  exists phone, code, expiry.
  do 6 (split; [assumption|]).
  unfold post_sms_otp. rewrite Hschema, queue_or_fail_cases.
  match goal with
  | |- context [createOTPSMSJob ?p ?o w] =>
      change (createOTPSMSJob p o w) with (call (CallOTP p o) w);
      rewrite (call_unkeyed (CallOTP p o) w eq_refl Hup)
  end.
  reflexivity.
Qed.

(** The OTP request of the samples, without [expiryMinutes]. *)
Lemma post_sms_otp_enqueues_witness :
  World.queue (snd (post_sms_otp SampleRequest.otp (Sample.world ∅)))
  = [Job.make (js "1") (js "otp-sms")
       (Otp (OTPSMSData.make (js "3f0e9a52-uuid-0") 1700000000000
               (SMSRecipient.make (js "+254712345678") None)
               (js "123456") 10))
       (JobOptions.make (Some 1) None None) 0].
Proof.
  destruct (post_sms_otp_enqueues
              [(js "phoneNumber", JString (js "+254712345678"));
               (js "code", JString (js "123456"))]
              (Sample.world ∅) eq_refl eq_refl)
    as (phone & code & expiry & Hphone & _ & Hcode & _ & _ & Hexpiry & Hqueue).
  injection Hphone as <-. injection Hcode as <-.
  destruct Hexpiry as [[_ ->]|Hsome]; [exact Hqueue | discriminate Hsome].
Defined.

Lemma of_number_injective (a b : Z) :
  0 <= a -> 0 <= b -> Js.of_number a = Js.of_number b -> a = b.
Proof.
  intros Ha Hb Heq.
  pose proof (parseInt_of_number a [] [] Ha (List.Forall_nil _) I) as Hpa.
  pose proof (parseInt_of_number b [] [] Hb (List.Forall_nil _) I) as Hpb.
  cbn [app] in Hpa, Hpb. rewrite !app_nil_r in *. congruence.
Qed.

(** X18. The routes never hand a [jobId] to the creators, so nothing is
    deduplicated over HTTP: two requests that pass their schemas, the same
    one twice included, put two jobs in the queue, under the next two
    values of the queue's counter, which are different ids. *)
Theorem http_requests_never_deduplicate
    (r1 r2 : Route) (body1 body2 : JsonValue) (w : World.t) :
  passes r1 body1 = true -> passes r2 body2 = true ->
  World.backend_up w = true -> 0 <= World.jobCounter w ->
  let w1 := snd (post r1 body1 w) in
  let w2 := snd (post r2 body2 w1) in
  exists j1 j2 : Job.t,
    World.queue w2 = World.queue w ++ [j1; j2] /\
    Job.id j1 = Js.of_number (World.jobCounter w + 1) /\
    Job.id j2 = Js.of_number (World.jobCounter w + 2) /\
    Job.id j1 <> Job.id j2 /\
    JobOptions.jobId (Job.opts j1) = None /\
    JobOptions.jobId (Job.opts j2) = None.
Proof.
  intros Hpass1 Hpass2 Hup Hcounter. cbv zeta.
  destruct (passing_body_calls_creator r1 body1 Hpass1)
    as (c1 & q1 & l1 & f1 & Hkey1 & ->).
  destruct (passing_body_calls_creator r2 body2 Hpass2)
    as (c2 & q2 & l2 & f2 & Hkey2 & ->).
  rewrite (queue_or_fail_cases (call c1)), (call_unkeyed c1 w Hkey1 Hup).
  cbn [snd].
  rewrite (queue_or_fail_cases (call c2)), call_unkeyed by (exact Hkey2 || exact Hup).
  cbn [snd World.queue World.with_queue World.jobCounter World.with_drawn].
  eexists _, _. rewrite <- app_assoc. split; [reflexivity|].
  cbn [Job.id Job.opts add_opts JobOptions.jobId].
  replace (World.jobCounter w + 1 + 1) with (World.jobCounter w + 2) by lia.
  repeat split; try assumption.
  intros Heq. apply of_number_injective in Heq; lia.
Qed.

(** The same OTP request, posted twice. *)
Lemma http_requests_never_deduplicate_witness :
  exists j1 j2 : Job.t,
    World.queue
      (snd (post sms_otp SampleRequest.otp
              (snd (post sms_otp SampleRequest.otp (Sample.world ∅)))))
    = [j1; j2] /\
    Job.id j1 = js "1" /\ Job.id j2 = js "2".
Proof.
  destruct (http_requests_never_deduplicate sms_otp sms_otp
              SampleRequest.otp SampleRequest.otp (Sample.world ∅)
              eq_refl eq_refl eq_refl ltac:(cbn; lia))
    as (j1 & j2 & Hqueue & Hid1 & Hid2 & _).
  exists j1, j2. repeat split; assumption.
Defined.

(** X19. A notification request that passes the schema, the backend being
    up, puts exactly one 'notification-sms' job in the queue, with the
    body's message (not empty) and phone number (at least 9 characters), and
    with the body's priority and delay as the job's options: a priority
    between 1 and 10 or none, a delay from 0 on or none, and no key. *)
Theorem post_sms_notification_enqueues
    (fields : list (Js.str * JsonValue)) (w : World.t) :
  passes sms_notification (JObject fields) = true ->
  World.backend_up w = true ->
  exists (phone message : Js.str) (priority delay : option Z),
    field "phoneNumber" fields = Some (JString phone) /\
    (9 <= length phone)%nat /\
    field "message" fields = Some (JString message) /\
    (1 <= length message)%nat /\
    match priority with
    | Some p => field "priority" fields = Some (JNumber p) /\ 1 <= p <= 10
    | None => field "priority" fields = None
    end /\
    match delay with
    | Some d => field "delay" fields = Some (JNumber d) /\ 0 <= d
    | None => field "delay" fields = None
    end /\
    World.queue (snd (post_sms_notification (JObject fields) w))
    = World.queue w
      ++ [Job.make (Js.of_number (World.jobCounter w + 1))
            (js "notification-sms")
            (Notification
               (NotificationSMSData.make (World.random w (World.drawn w))
                  (World.clock w)
                  (SMSRecipient.make phone (string_field "name" fields))
                  message
                  match field "metadata" fields with
                  | Some (JObject entries) => Some entries
                  | _ => None
                  end))
            (JobOptions.make priority delay None) 0].
Proof.
  unfold passes, post_sms_notification, notificationSMSSchema. cbv zeta.
  destruct (z_string_min 9 _ _ _) as [phone|] eqn:Hphone; [|discriminate].
  destruct (z_string_optional _ _) as [name|] eqn:Hname; [|discriminate].
  destruct (z_string_min 1 _ _ _) as [message|] eqn:Hmessage; [|discriminate].
  destruct (z_optional (z_record _) _) as [metadata|] eqn:Hmeta; [|discriminate].
  destruct (z_optional (z_number_range 1 _ _) _) as [priority|] eqn:Hprio;
    [|discriminate].
  destruct (z_optional (z_number_range 0 _ _) _) as [delay|] eqn:Hdelay;
    [|discriminate].
  intros _ Hup.
  apply z_string_min_valid in Hphone as [Hphone Hlen].
  apply z_string_min_valid in Hmessage as [Hmessage Hlen'].
  apply z_string_optional_valid in Hname as ->.
  apply z_optional_number_valid in Hprio.
  apply z_optional_number_valid in Hdelay.
  exists phone, message, priority, delay.
  split; [exact Hphone|]. split; [exact Hlen|].
  split; [exact Hmessage|]. split; [exact Hlen'|].
  split; [|split].
  - destruct priority as [p|]; [|exact Hprio].
    destruct Hprio as (Hp & Hlo & Hhi). split; [exact Hp|].
    split; [exact Hlo | now apply Hhi].
  - destruct delay as [d|]; [|exact Hdelay].
    destruct Hdelay as (Hd & Hlo & _). now split.
  - rewrite queue_or_fail_cases.
    match goal with
    | |- context [createNotificationSMSJob ?p ?o w] =>
        change (createNotificationSMSJob p o w)
          with (call (CallNotification p o) w);
        rewrite (call_unkeyed (CallNotification p o) w eq_refl Hup)
    end.
    assert (Hentries : metadata
                       = match field "metadata" fields with
                         | Some (JObject entries) => Some entries
                         | _ => None
                         end).
    { unfold z_optional, z_record in Hmeta.
      destruct (field "metadata" fields) as [[| | | | |entries]|];
        try discriminate; now injection Hmeta. }
    rewrite <- Hentries. reflexivity.
Qed.

(** The notification request of the samples, with priority 3. *)
Lemma post_sms_notification_enqueues_witness :
  exists job : Job.t,
    World.queue (snd (post_sms_notification SampleRequest.notification
                        (Sample.world ∅)))
    = [job] /\
    JobOptions.priority (Job.opts job) = Some 3.
Proof.
  destruct (post_sms_notification_enqueues
              [(js "phoneNumber", JString (js "+254700000000"));
               (js "message", JString (js "Your order has shipped"));
               (js "priority", JNumber 3)]
              (Sample.world ∅) eq_refl eq_refl)
    as (phone & message & priority & delay & _ & _ & _ & _ & Hprio & _ & Hqueue).
  eexists. split; [exact Hqueue|].
  destruct priority as [p|]; [|discriminate Hprio].
  destruct Hprio as [Hp _]. now injection Hp as <-.
Defined.

(** ** From the request to the message *)

(** X20. An OTP request from its route to the provider: the job that a
    passing request puts in the queue is processed successfully by the
    worker with the Mock provider, whose console lines show the phone number
    of the body and a message that carries the body's code and its expiry
    in minutes (10 when the body has none). *)
Theorem otp_request_reaches_provider
    (fields : list (Js.str * JsonValue)) (w w2 : World.t) :
  passes sms_otp (JObject fields) = true ->
  World.backend_up w = true ->
  exists (job : Job.t) (phone code : Js.str) (expiry : Z)
         (result : ProcessResult.t) (w3 : World.t),
    World.queue (snd (post_sms_otp (JObject fields) w)) = World.queue w ++ [job] /\
    field "phoneNumber" fields = Some (JString phone) /\
    field "code" fields = Some (JString code) /\
    (field "expiryMinutes" fields = None /\ expiry = 10 \/
     field "expiryMinutes" fields = Some (JNumber expiry)) /\
    processSMSJob new_MockSMSProvider job w2 = (Normal result, w3) /\
    ProcessResult.success result = true /\
    In (js "[MOCK SMS] Sending to " ++ phone ++ js ":") (World.console w3) /\
    In (js "[MOCK SMS] Message: Your verification code is: " ++ code
        ++ js ". This code will expire in " ++ Js.of_number expiry
        ++ js " minutes. Do not share this code with anyone.")
       (World.console w3).
Proof.
  intros Hpass Hup.
  destruct (otpSMSSchema_valid fields Hpass)
    as (phone & code & expiry & Hphone & _ & Hcode & _ & _ & Hexpiry & Hschema).
  pose (data := OTPSMSData.make (World.random w (World.drawn w)) (World.clock w)
                  (SMSRecipient.make phone (string_field "name" fields))
                  code expiry).
  pose (job := Job.make (Js.of_number (World.jobCounter w + 1)) (js "otp-sms")
                 (Otp data) (JobOptions.make (Some 1) None None) 0).
  exists job, phone, code, expiry.
  eexists _, _.
  split.
  { unfold post_sms_otp. rewrite Hschema, queue_or_fail_cases.
    match goal with
    | |- context [createOTPSMSJob ?p ?o w] =>
        change (createOTPSMSJob p o w) with (call (CallOTP p o) w);
        rewrite (call_unkeyed (CallOTP p o) w eq_refl Hup)
    end.
    reflexivity. }
  do 3 (split; [assumption|]).
  split.
  { rewrite (processSMSJob_declared new_MockSMSProvider job (renderOTPSMS data)
               w2 (route_otp data)).
    reflexivity. }
  split; [reflexivity|].
  subst job data.
  cbn [World.console World.with_console World.with_clock World.with_drawn
       renderOTPSMS TemplateResult.message TemplateResult.recipient
       SMSRecipient.phoneNumber add_data OTPSMSData.recipient OTPSMSData.code
       OTPSMSData.expiryMinutes CreateOTPSMSJobParams.recipient
       CreateOTPSMSJobParams.code CreateOTPSMSJobParams.expiryMinutes
       OtpSMSInput.phoneNumber OtpSMSInput.code OtpSMSInput.expiryMinutes].
  split.
  - apply in_or_app; left. apply in_or_app; left. apply in_or_app; right.
    left. reflexivity.
  - apply in_or_app; left. apply in_or_app; right. left. reflexivity.
Qed.

(** The OTP request of the samples. *)
Lemma otp_request_reaches_provider_witness :
  exists (w3 : World.t),
    In (js "[MOCK SMS] Message: Your verification code is: 123456. This code will expire in 10 minutes. Do not share this code with anyone.")
       (World.console w3).
Proof.
  destruct (otp_request_reaches_provider
              [(js "phoneNumber", JString (js "+254712345678"));
               (js "code", JString (js "123456"))]
              (Sample.world ∅) (Sample.world ∅) eq_refl eq_refl)
    as (job & phone & code & expiry & result & w3 & _ & _ & Hcode & Hexpiry
        & _ & _ & _ & Hline).
  exists w3. injection Hcode as <-.
  destruct Hexpiry as [[_ ->]|Hsome]; [exact Hline | discriminate Hsome].
Defined.

(** A creator call while the backend is down. *)
Lemma creator_call_frame_witness :
  raises (call (CallOTP Sample.otp_params None) (backend_down (Sample.world ∅)))
  = true /\
  World.queue
    (snd (call (CallOTP Sample.otp_params None) (backend_down (Sample.world ∅))))
  = [].
Proof.
  exact (proj2 (proj2 (proj2 (proj2 (proj2 (proj2 (proj2
           (creator_call_frame (CallOTP Sample.otp_params None)
              (backend_down (Sample.world ∅))))))))) eq_refl).
Defined.
